(** * stock_env.py: ledger replay and cost-basis accounting

    A shallow embedding of [GoogleSheetStockEnv] (src/stock_env.py).

    Conventions of the embedding.
    - Python [float] values (prices, amounts, balance, cost basis) are
      idealised as exact rationals [Qc]; Python [int] quantities are [Z].
      An [int] that meets a [float] is injected with [float].
    - The instance attributes ([seed_money], [balance], [portfolio]) and the
      outside world (the sheet's data rows, the trace of external calls) live
      in one record [Env]; every method is a computation in the monad [M],
      which threads an [Env] and may raise a Python exception.  A raised
      exception keeps the mutations made before it, as in Python.
    - The external collaborators (yfinance, the clock, the sheet's transport)
      are an [Oracle]: their answers may depend on the number of external
      calls made so far, so quotes may change between two operations.
    - [portfolio] is a Python dict, which keeps insertion order; it is an
      association list with in-place overwrite and append of new keys.
    - The sheet hands each cell back as it was written.
    - A record of the sheet is typed: its qty cell holds an integer and its
      amount cell a number, so that [int(row['qty'])] and
      [float(row['amount'])] (lines 54-55) go through; strings are byte
      strings, and tickers are taken to be ASCII, for which the length and the
      digits of Python and those of the bytes are the same. *)

From Stdlib Require Import ZArith QArith Qcanon Qround String Ascii List Bool Lia Lqa.
Import ListNotations.

Open Scope string_scope.
Open Scope Z_scope.
Open Scope Qc_scope.

(** ** Numbers *)

(** [float(z)]: an integer seen as a real. *)
Definition float (z : Z) : Qc := Q2Qc (inject_Z z).

Definition Qc_eqb (x y : Qc) : bool := Qeq_bool x y.
Definition Qc_ltb (x y : Qc) : bool := negb (Qle_bool y x).

(** Python's [round(x)] on a real: nearest integer, ties to the even one. *)
Definition py_round (x : Qc) : Z :=
  let f := Qfloor x in
  let d := x - float f in
  let half := Q2Qc (1 # 2) in
  if Qc_ltb d half then f
  else if Qc_ltb half d then (f + 1)%Z
  else if Z.even f then f else (f + 1)%Z.

(** Python's [round(x, 2)] on a real: two decimals, ties to even. *)
Definition py_round2 (x : Qc) : Qc := float (py_round (x * float 100)) / float 100.

(** ** Strings *)

Definition is_digit (c : ascii) : bool :=
  let n := nat_of_ascii c in ((48 <=? n) && (n <=? 57))%nat.

Fixpoint all_digits (s : string) : bool :=
  match s with
  | EmptyString => true
  | String c s' => is_digit c && all_digits s'
  end.

(** [str.isdigit()]: at least one character, and digits only (the ASCII
    digits; a string is its bytes). *)
Definition isdigit (s : string) : bool :=
  match s with
  | EmptyString => false
  | _ => all_digits s
  end.

Fixpoint zeros (n : nat) : string :=
  match n with
  | O => ""
  | S k => String "0" (zeros k)
  end.

(** [str.zfill(width)]: left padding with zeros up to [width]; a leading sign
    stays in front of the padding. *)
Definition zfill (width : nat) (s : string) : string :=
  if (width <=? String.length s)%nat then s
  else
    let fill := zeros (width - String.length s) in
    match s with
    | String c rest =>
        if (Ascii.eqb c "+" || Ascii.eqb c "-")%bool
        then String c (fill ++ rest)
        else fill ++ s
    | EmptyString => fill
    end.

(** Truth value of a string: [''] is false. *)
Definition str_truthy (s : string) : bool :=
  match s with
  | EmptyString => false
  | _ => true
  end.

(** ** Data model *)

(** A value of [self.portfolio]: [{'qty': .., 'total_cost': .., 'name': ..}]. *)
Record Holding := mkHolding {
  qty : Z;
  total_cost : Qc;
  name : string
}.

(** [self.portfolio]: a dict from ticker to holding, in insertion order. *)
Definition Portfolio := list (string * Holding).

Fixpoint dict_get (k : string) (d : Portfolio) : option Holding :=
  match d with
  | [] => None
  | (k', v) :: d' => if String.eqb k k' then Some v else dict_get k d'
  end.

(** [d[k] = v]: overwrite where the key is, append a new key at the end. *)
Fixpoint dict_set (k : string) (v : Holding) (d : Portfolio) : Portfolio :=
  match d with
  | [] => [(k, v)]
  | (k', v') :: d' =>
      if String.eqb k k' then (k', v) :: d' else (k', v') :: dict_set k v d'
  end.

Definition dict_mem (k : string) (d : Portfolio) : bool :=
  match dict_get k d with
  | Some _ => true
  | None => false
  end.

(** One data row of the sheet, under the header
    [timestamp, type, ticker, name, price, qty, amount, balance_after]. *)
Record Row := mkRow {
  r_timestamp : string;
  r_type : string;
  r_ticker : string;
  r_name : string;
  r_price : Qc;
  r_qty : Z;
  r_amount : Qc;
  r_balance_after : Qc
}.

(** A call that leaves the process. *)
Inductive Call :=
| CallQuote (symbol : string)      (* yf.Ticker(symbol).fast_info['last_price'] *)
| CallInfo (symbol : string)       (* yf.Ticker(symbol).info *)
| CallAppend (row : Row)           (* sheet.append_row(row) *)
| CallRead.                        (* sheet.get_all_records() *)

(** The object's attributes, the sheet's data rows and the trace of the
    external calls made so far (oldest first). *)
Record Env := mkEnv {
  seed_money : Z;
  balance : Qc;
  portfolio : Portfolio;
  sheet : list Row;
  calls : list Call
}.

(** The external collaborators.  Each answer may depend on how many external
    calls were made before it. *)
Record Oracle := mkOracle {
  last_price : nat -> string -> option Qc;   (* None: the lookup raised or gave None *)
  short_name : nat -> string -> option string; (* None: raised, or no 'shortName' *)
  clock : nat -> string;                      (* formatted local time *)
  append_ok : nat -> bool;                    (* does this append_row attempt succeed *)
  read_ok : nat -> bool                       (* does this get_all_records succeed *)
}.

Inductive Exn :=
| RetryError          (* tenacity: attempts exhausted *)
| ZeroDivisionError
| KeyError
| APIError.           (* the sheet could not be read *)

(** ** The monad of methods *)

Inductive Outcome (A : Type) :=
| Return (a : A)
| Raise (e : Exn).
Arguments Return {A} a.
Arguments Raise {A} e.

Definition M (A : Type) : Type := Env -> Outcome A * Env.

Definition ret {A} (a : A) : M A := fun e => (Return a, e).

Definition raise {A} (x : Exn) : M A := fun e => (Raise x, e).

Definition bind {A B} (c : M A) (k : A -> M B) : M B :=
  fun e =>
    match c e with
    | (Return a, e') => k a e'
    | (Raise x, e') => (Raise x, e')
    end.

(** [try: c  except Exception: h] *)
Definition try_except {A} (c : M A) (h : M A) : M A :=
  fun e =>
    match c e with
    | (Return a, e') => (Return a, e')
    | (Raise _, e') => h e'
    end.

Notation "x <- c1 ;; c2" := (bind c1 (fun x => c2))
  (at level 61, c1 at next level, right associativity).
Notation "c1 ;; c2" := (bind c1 (fun _ => c2))
  (at level 61, right associativity).

Definition get_balance : M Qc := fun e => (Return (balance e), e).

Definition get_portfolio : M Portfolio := fun e => (Return (portfolio e), e).

Definition get_seed_money : M Z := fun e => (Return (seed_money e), e).

Definition set_balance (b : Qc) : M unit :=
  fun e => (Return tt, mkEnv (seed_money e) b (portfolio e) (sheet e) (calls e)).

Definition set_portfolio (p : Portfolio) : M unit :=
  fun e => (Return tt, mkEnv (seed_money e) (balance e) p (sheet e) (calls e)).

(** [self.portfolio[ticker]], read. *)
Definition get_item (ticker : string) : M Holding :=
  p <- get_portfolio ;;
  match dict_get ticker p with
  | Some h => ret h
  | None => raise KeyError
  end.

(** [self.portfolio[ticker] = h] *)
Definition set_item (ticker : string) (h : Holding) : M unit :=
  p <- get_portfolio ;;
  set_portfolio (dict_set ticker h p).

(** [x / y] of Python: a zero divisor raises. *)
Definition py_div (x y : Qc) : M Qc :=
  if Qc_eqb y 0 then raise ZeroDivisionError else ret (x / y).

Fixpoint for_each {A} (l : list A) (body : A -> M unit) : M unit :=
  match l with
  | [] => ret tt
  | a :: l' => body a ;; for_each l' body
  end.

(** The number of external calls made so far. *)
Definition tick (e : Env) : nat := List.length (calls e).

Definition log (c : Call) (e : Env) : Env :=
  mkEnv (seed_money e) (balance e) (portfolio e) (sheet e) (calls e ++ [c]).

Definition now (o : Oracle) : M string := fun e => (Return (clock o (tick e)), e).

(** ** The sheet *)

(** [self.sheet.append_row(row_data)] *)
Definition append_row (o : Oracle) (row : Row) : M unit :=
  fun e =>
    let e' := log (CallAppend row) e in
    if append_ok o (tick e)
    then (Return tt,
          mkEnv (seed_money e') (balance e') (portfolio e') (sheet e' ++ [row]) (calls e'))
    else (Raise APIError, e').

(** [self.sheet.get_all_records()] *)
Definition get_all_records (o : Oracle) : M (list Row) :=
  fun e =>
    let e' := log CallRead e in
    if read_ok o (tick e) then (Return (sheet e), e') else (Raise APIError, e').

(** [@retry(stop=stop_after_attempt(n))]: call again after a failure, and raise
    [RetryError] when the n-th attempt fails too. *)
Fixpoint retry {A} (attempts : nat) (c : M A) : M A :=
  match attempts with
  | O => raise RetryError
  | S k => try_except c (retry k c)
  end.

Definition _safe_append_row (o : Oracle) (row_data : Row) : M unit :=
  retry 3 (append_row o row_data).

(** ** Reconstruction of the portfolio from the sheet *)

(** [self.portfolio[ticker][field] = ...]: an update of one holding in place. *)
Definition modify_item (ticker : string) (f : Holding -> Holding) : M unit :=
  h <- get_item ticker ;;
  set_item ticker (f h).

Definition with_qty (q : Z) (h : Holding) : Holding :=
  mkHolding q (total_cost h) (name h).

Definition with_total_cost (c : Qc) (h : Holding) : Holding :=
  mkHolding (qty h) c (name h).

Definition with_name (n : string) (h : Holding) : Holding :=
  mkHolding (qty h) (total_cost h) n.

(** [if ticker not in self.portfolio: self.portfolio[ticker] = {'qty': 0,
    'total_cost': 0, 'name': nm}] (lines 59-60 and 103-104). *)
Definition ensure_item (ticker nm : string) : M unit :=
  p <- get_portfolio ;;
  if negb (dict_mem ticker p) then set_item ticker (mkHolding 0 0 nm) else ret tt.

(** The BUY arithmetic shared by the replay and by [buy] (lines 64-66 and
    106-108): [qty += q], [total_cost += amount], [name = nm]. *)
Definition add_units (ticker : string) (q : Z) (amount : Qc) (nm : string) : M unit :=
  modify_item ticker (fun h => with_qty (qty h + q) h) ;;
  modify_item ticker (fun h => with_total_cost (total_cost h + amount) h) ;;
  modify_item ticker (with_name nm).

(** The SELL arithmetic shared by the replay and by [sell] (lines 69-75 and
    125-130):
    [qty -= q], then the cost basis loses [avg * q] if units remain, and is
    reset to 0 otherwise. *)
Definition reduce_position (ticker : string) (q : Z) : M unit :=
  modify_item ticker (fun h => with_qty (qty h - q) h) ;;
  h <- get_item ticker ;;
  if (0 <? qty h)%Z then
    avg <- py_div (total_cost h) (float (qty h + q)) ;;
    modify_item ticker (fun h => with_total_cost (total_cost h - avg * float q) h)
  else
    modify_item ticker (with_total_cost 0).

(** The body of the loop over [records] (lines 49-75). *)
Definition replay_row (row : Row) : M unit :=
  if negb (str_truthy (r_ticker row)) then ret tt      (* continue *)
  else
    let ticker := zfill 6 (r_ticker row) in
    let q := r_qty row in
    let amount := r_amount row in
    let trade_type := r_type row in
    let nm := r_name row in
    ensure_item ticker nm ;;
    if String.eqb trade_type "BUY" then
      b <- get_balance ;;
      set_balance (b - amount) ;;
      add_units ticker q amount nm
    else if String.eqb trade_type "SELL" then
      b <- get_balance ;;
      set_balance (b + amount) ;;
      reduce_position ticker q
    else ret tt.

Definition _reconstruct_portfolio (o : Oracle) : M unit :=
  records <- try_except (get_all_records o) (get_all_records o) ;;
  seed <- get_seed_money ;;
  set_balance (float seed) ;;
  set_portfolio [] ;;
  for_each records replay_row.

(** The account that [_connect_sheet] leaves on an empty sheet (lines 27-30):
    the header is written, [balance = float(seed_money)], [portfolio = {}]. *)
Definition fresh (seed : Z) : Env := mkEnv seed (float seed) [] [] [].

(** ** The price oracle *)

Definition symbol_of (ticker : string) : string :=
  if isdigit ticker then ticker ++ ".KS" else ticker.

Definition get_current_price (o : Oracle) (ticker : string)
  : M (string * option Qc) :=
  let symbol := symbol_of ticker in
  fun e => (Return (symbol, last_price o (tick e) symbol), log (CallQuote symbol) e).

(** [yf.Ticker(symbol).info.get('shortName', ticker)], [ticker] on a failure. *)
Definition get_short_name (o : Oracle) (symbol ticker : string) : M string :=
  fun e =>
    (Return (match short_name o (tick e) symbol with
             | Some n => n
             | None => ticker
             end),
     log (CallInfo symbol) e).

(** ** Trading *)

(** The dict that [buy] and [sell] return; ['price'] is there on success. *)
Record Receipt := mkReceipt {
  status : string;
  msg : string;
  price : option Qc
}.

Definition fail (m : string) : Receipt := mkReceipt "fail" m None.

Definition success (m : string) (p : Qc) : Receipt := mkReceipt "success" m (Some p).

Definition msg_price_buy : string := "가격 조회 실패 (네트워크/일시적 오류)".
Definition msg_price_sell : string := "가격 조회 실패".
Definition msg_funds : string := "잔액 부족".
Definition msg_holding : string := "수량 부족".
Definition msg_bought : string := "매수 완료: ".
Definition msg_sold : string := "매도 완료: ".

(** [not price]: [None] and 0 are false. *)
Definition not_price (p : option Qc) : bool :=
  match p with
  | None => true
  | Some x => Qc_eqb x 0
  end.

Definition price_value (p : option Qc) : Qc :=
  match p with
  | Some x => x
  | None => 0
  end.

(** The name already held for [ticker], if it is there and not empty
    ([ticker in self.portfolio and self.portfolio[ticker]['name']]). *)
Definition cached_name (ticker : string) (p : Portfolio) : option string :=
  match dict_get ticker p with
  | Some h => if str_truthy (name h) then Some (name h) else None
  | None => None
  end.

Definition buy (o : Oracle) (ticker : string) (q : Z) : M Receipt :=
  sp <- get_current_price o ticker ;;
  let symbol := fst sp in
  if not_price (snd sp) then ret (fail msg_price_buy)
  else
    let p := price_value (snd sp) in
    let total := p * float q in
    b <- get_balance ;;
    if Qc_ltb b total then ret (fail msg_funds)
    else
      pf <- get_portfolio ;;
      stock_name <-
        match cached_name ticker pf with
        | Some n => ret n
        | None => get_short_name o symbol ticker
        end ;;
      t <- now o ;;
      set_balance (b - total) ;;
      ensure_item ticker stock_name ;;
      add_units ticker q total stock_name ;;
      b' <- get_balance ;;
      _safe_append_row o (mkRow t "BUY" ticker stock_name p q total b') ;;
      ret (success (msg_bought ++ stock_name) p).

Definition sell (o : Oracle) (ticker : string) (q : Z) : M Receipt :=
  pf <- get_portfolio ;;
  if match dict_get ticker pf with
     | None => true
     | Some h => (qty h <? q)%Z
     end
  then ret (fail msg_holding)
  else
    sp <- get_current_price o ticker ;;
    if not_price (snd sp) then ret (fail msg_price_sell)
    else
      let p := price_value (snd sp) in
      let total := p * float q in
      h <- get_item ticker ;;
      let stock_name := name h in
      t <- now o ;;
      b <- get_balance ;;
      set_balance (b + total) ;;
      reduce_position ticker q ;;
      b' <- get_balance ;;
      _safe_append_row o (mkRow t "SELL" ticker stock_name p q total b') ;;
      ret (success (msg_sold ++ stock_name) p).

(** ** The dashboard *)

(** One element of ["holdings"] in the report. *)
Record HoldingReport := mkHoldingReport {
  hr_ticker : string;
  hr_name : string;
  hr_qty : Z;
  hr_avg_price : Z;
  hr_current_price : Z;
  hr_roi : Qc;
  hr_valuation : Z
}.

(** The dict that [get_status] returns. *)
Record Status := mkStatus {
  st_balance : Z;
  st_total_asset : Z;
  st_total_roi : Qc;
  st_holdings : list HoldingReport;
  st_seed_money : Z
}.

(** The loop over [self.portfolio.items()] (lines 140-163), with its two
    accumulators [total_asset] and [holdings]. *)
Fixpoint status_loop (o : Oracle) (items : Portfolio)
    (total_asset : Qc) (holdings : list HoldingReport)
  : M (Qc * list HoldingReport) :=
  match items with
  | [] => ret (total_asset, holdings)
  | (ticker, info) :: items' =>
      let q := qty info in
      if (0 <? q)%Z then
        sp <- get_current_price o ticker ;;
        let current_price := if not_price (snd sp) then 0 else price_value (snd sp) in
        let val := current_price * float q in
        let total_asset := total_asset + val in
        let cost := total_cost info in
        let profit := val - cost in
        roi <- (if Qc_ltb 0 cost
                then r <- py_div profit cost ;; ret (r * float 100)
                else ret 0) ;;
        avg <- py_div cost (float q) ;;
        status_loop o items' total_asset
          (holdings ++ [mkHoldingReport ticker (name info) q (py_round avg)
                          (py_round current_price) (py_round2 roi) (py_round val)])
      else status_loop o items' total_asset holdings
  end.

Definition get_status (o : Oracle) : M Status :=
  b <- get_balance ;;
  pf <- get_portfolio ;;
  acc <- status_loop o pf b [] ;;
  let total_asset := fst acc in
  let holdings := snd acc in
  seed <- get_seed_money ;;
  r <- py_div (total_asset - float seed) (float seed) ;;
  let total_roi := r * float 100 in
  b <- get_balance ;;
  ret (mkStatus (py_round b) (py_round total_asset) (py_round2 total_roi)
         holdings seed).

(** * Vocabulary of the statements *)

(** ** Holdings *)

(** Every holding of a dict satisfies [P]. *)
Definition all_holdings (P : Holding -> Prop) (d : Portfolio) : Prop :=
  forall k h, dict_get k d = Some h -> P h.

(** The holding of [ticker] after a purchase of [q] units for [amount]. *)
Definition bought (ticker : string) (q : Z) (amount : Qc) (nm : string)
    (p : Portfolio) : Portfolio :=
  let h := match dict_get ticker p with
           | Some h => h
           | None => mkHolding 0 0 nm
           end in
  dict_set ticker (mkHolding (qty h + q) (total_cost h + amount) nm) p.

(** The holding [h] after a sale of [q] units. *)
Definition sold (q : Z) (h : Holding) : Holding :=
  mkHolding (qty h - q)
    (if (0 <? qty h - q)%Z
     then total_cost h - total_cost h / float (qty h) * float q
     else 0)
    (name h).

(** The portfolio once [ticker] has a holding. *)
Definition ensured (ticker nm : string) (p : Portfolio) : Portfolio :=
  if dict_mem ticker p then p else dict_set ticker (mkHolding 0 0 nm) p.

(** The holding the SELL branch works on: the one recorded for the normalised
    ticker, or the empty one that line 60 has just created. *)
Definition replay_holding (row : Row) (e : Env) : Holding :=
  match dict_get (zfill 6 (r_ticker row)) (portfolio e) with
  | Some h => h
  | None => mkHolding 0 0 (r_name row)
  end.

(** What the data model asks of a holding: a quantity and a cost basis that
    are not negative, and no cost basis left on a closed position. *)
Definition holding_ok (h : Holding) : Prop :=
  (0 <= qty h)%Z /\ 0 <= total_cost h /\ (qty h = 0%Z -> total_cost h = 0).

(** A ticker that the replay keeps as it is: not empty, and not padded. *)
Definition kept_ticker (t : string) : Prop :=
  str_truthy t = true /\ zfill 6 t = t.

(** ** Accounts along a trade *)

(** An [Env] with a new balance and a new portfolio. *)
Definition upd (e : Env) (b : Qc) (p : Portfolio) : Env :=
  mkEnv (seed_money e) b p (sheet e) (calls e).

(** The rows of the sheet after a row was stored. *)
Definition stored (row : Row) (e : Env) : Env :=
  mkEnv (seed_money e) (balance e) (portfolio e) (sheet e ++ [row]) (calls e).

(** [n] attempts in a row, from the call number [t] on, all fail. *)
Fixpoint all_fail (o : Oracle) (t n : nat) : bool :=
  match n with
  | O => true
  | S k => negb (append_ok o t) && all_fail o (S t) k
  end.

(** The trace after [n] failed attempts. *)
Fixpoint log_attempts (row : Row) (n : nat) (e : Env) : Env :=
  match n with
  | O => e
  | S k => log_attempts row k (log (CallAppend row) e)
  end.

(** The account right after the quote was asked for. *)
Definition quoted (ticker : string) (e : Env) : Env :=
  log (CallQuote (symbol_of ticker)) e.

(** The name [buy] records for [ticker]. *)
Definition buy_name (o : Oracle) (ticker : string) (e : Env) : string :=
  match cached_name ticker (portfolio e) with
  | Some n => n
  | None =>
      match short_name o (S (tick e)) (symbol_of ticker) with
      | Some n => n
      | None => ticker
      end
  end.

(** The account after the lookups of [buy]: only the trace has grown. *)
Definition buy_lookups (ticker : string) (e : Env) : Env :=
  match cached_name ticker (portfolio e) with
  | Some _ => quoted ticker e
  | None => log (CallInfo (symbol_of ticker)) (quoted ticker e)
  end.

(** The account when [buy] reaches line 110, and the row it hands over. *)
Definition buy_state (o : Oracle) (ticker : string) (q : Z) (p : Qc) (e : Env) : Env :=
  upd (buy_lookups ticker e) (balance e - p * float q)
    (bought ticker q (p * float q) (buy_name o ticker e) (portfolio e)).

Definition buy_row (o : Oracle) (ticker : string) (q : Z) (p : Qc) (e : Env) : Row :=
  mkRow (clock o (tick (buy_lookups ticker e))) "BUY" ticker (buy_name o ticker e)
    p q (p * float q) (balance e - p * float q).

(** The account when [sell] reaches line 132, and the row it hands over. *)
Definition sell_state (ticker : string) (q : Z) (p : Qc) (h : Holding) (e : Env) : Env :=
  upd (quoted ticker e) (balance e + p * float q)
    (dict_set ticker (sold q h) (portfolio e)).

Definition sell_row (o : Oracle) (ticker : string) (q : Z) (p : Qc) (h : Holding)
    (e : Env) : Row :=
  mkRow (clock o (S (tick e))) "SELL" ticker (name h)
    p q (p * float q) (balance e + p * float q).

(** The account proper: seed, balance, holdings and the ledger. *)
Definition same_account (e e' : Env) : Prop :=
  seed_money e' = seed_money e /\ balance e' = balance e
  /\ portfolio e' = portfolio e /\ sheet e' = sheet e.

(** The account with another sheet and another trace. *)
Definition account_on (e : Env) (rows : list Row) (trace : list Call) : Env :=
  mkEnv (seed_money e) (balance e) (portfolio e) rows trace.

(** The trace after the quotes of the open positions. *)
Fixpoint log_quotes (ps : Portfolio) (e : Env) : Env :=
  match ps with
  | [] => e
  | (t, _) :: ps' => log_quotes ps' (quoted t e)
  end.

(** ** Oracles and reachable accounts *)

(** An oracle that always gives the same answers. *)
Definition o_const (p : option Qc) (stores : bool) : Oracle :=
  mkOracle (fun _ _ => p) (fun _ _ => None) (fun _ => "2024-01-02 09:00:00")
    (fun _ => stores) (fun _ => true).

(** Quotes of 70,000 and then 80,000, a name service that is down, a sheet
    that stores at once. *)
Definition o_scenario : Oracle :=
  mkOracle (fun n _ => if (n <? 3)%nat then Some (float 70000) else Some (float 80000))
    (fun _ _ => None) (fun _ => "2024-01-02 09:00:00") (fun _ => true) (fun _ => true).

(** An oracle that quotes 150 for every symbol and knows no name. *)
Definition o_aapl : Oracle := o_const (Some (float 150)) true.

(** The oracle never quotes a negative price. *)
Definition nonneg_quotes (o : Oracle) : Prop :=
  forall n s p, last_price o n s = Some p -> 0 <= p.

(** The accounts that successful trades of positive quantities lead to. *)
Inductive reachable (o : Oracle) (seed : Z) : Env -> Prop :=
| reach_fresh : reachable o seed (fresh seed)
| reach_buy e ticker q r e' :
    reachable o seed e -> (0 < q)%Z ->
    buy o ticker q e = (Return r, e') -> status r = "success" ->
    reachable o seed e'
| reach_sell e ticker q r e' :
    reachable o seed e -> (0 < q)%Z ->
    sell o ticker q e = (Return r, e') -> status r = "success" ->
    reachable o seed e'.

(** ** The dashboard as the specification words it *)

(** The holdings that the report lists: those with [qty > 0]. *)
Definition open_positions (p : Portfolio) : Portfolio :=
  filter (fun kv => (0 <? qty (snd kv))%Z) p.

(** The current price of a ticker at the call number [n], 0 when the quote is
    unavailable. *)
Definition spec_price (o : Oracle) (n : nat) (ticker : string) : Qc :=
  match last_price o n (symbol_of ticker) with
  | Some x => x
  | None => 0
  end.

(** The open positions with their quotes; one external call each, in the
    order of the dict. *)
Fixpoint priced (o : Oracle) (n : nat) (ps : Portfolio)
  : list (string * Holding * Qc) :=
  match ps with
  | [] => []
  | (t, h) :: ps' => (t, h, spec_price o n t) :: priced o (S n) ps'
  end.

(** market value = current price * qty *)
Definition spec_value (x : string * Holding * Qc) : Qc :=
  snd x * float (qty (snd (fst x))).

(** profit = value - total_cost *)
Definition spec_profit (x : string * Holding * Qc) : Qc :=
  spec_value x - total_cost (snd (fst x)).

(** total_asset = balance + sum of the market values *)
Definition spec_total_asset (b : Qc) (xs : list (string * Holding * Qc)) : Qc :=
  b + fold_right Qcplus 0 (map spec_value xs).

(** total_roi% = (total_asset - seed_money) / seed_money * 100 *)
Definition spec_total_roi (total_asset : Qc) (seed : Z) : Qc :=
  (total_asset - float seed) / float seed * float 100.

(** ** Ledger arithmetic *)

(** What a row does to the cash: a BUY takes its amount, a SELL gives it,
    any other type leaves the cash alone (lines 62-68). *)
Definition signed_amount (row : Row) : Qc :=
  if String.eqb (r_type row) "BUY" then - r_amount row
  else if String.eqb (r_type row) "SELL" then r_amount row
  else 0.

(** The same as the replay reads it: a row without ticker is passed over. *)
Definition row_effect (row : Row) : Qc :=
  if str_truthy (r_ticker row) then signed_amount row else 0.


(** Every row records the balance that the row before it left, moved by its
    own amount; [b] is the balance before the first row. *)
Fixpoint chained (b : Qc) (rows : list Row) : Prop :=
  match rows with
  | [] => True
  | r :: rows' =>
      r_balance_after r = b + signed_amount r /\ chained (r_balance_after r) rows'
  end.

(** The balance that the last row records, [b] on an empty ledger. *)
Definition closing (b : Qc) (rows : list Row) : Qc :=
  fold_left (fun _ r => r_balance_after r) rows b.

(** ** Computations that only see the account *)

(** [c] neither reads nor writes the sheet and the trace: on another sheet and
    another trace it gives the same outcome and the same account. *)
Definition local {A} (c : M A) : Prop :=
  forall e rows trace,
    c (account_on e rows trace) = (fst (c e), account_on (snd (c e)) rows trace).

(** The tickers of a portfolio, in the order of the dict. *)
Definition keys (p : Portfolio) : list string := map fst p.

(** The quotes do not depend on when they are asked for. *)
Definition stable_quotes (o : Oracle) : Prop :=
  forall n m s, last_price o n s = last_price o m s.

(** No quote is available: each one is [None] or 0. *)
Definition no_quotes (o : Oracle) : Prop :=
  forall n s, not_price (last_price o n s) = true.

(** The ROI of one line as the loop computes it (line 153). *)
Definition line_roi (x : string * Holding * Qc) : Qc :=
  if Qc_ltb 0 (total_cost (snd (fst x)))
  then spec_profit x / total_cost (snd (fst x)) * float 100
  else 0.

(** One element of ["holdings"] as the loop builds it (lines 155-163). *)
Definition line_of (x : string * Holding * Qc) : HoldingReport :=
  let h := snd (fst x) in
  mkHoldingReport (fst (fst x)) (name h) (qty h)
    (py_round (total_cost h / float (qty h)))
    (py_round (snd x))
    (py_round2 (line_roi x))
    (py_round (spec_value x)).

(** ** Rounded figures *)

(** [r] is within [d] of [x]. *)
Definition within (d r x : Qc) : Prop := r - x <= d /\ x - r <= d.

(** [z] is [x] rounded to a whole unit: a nearest integer. *)
Definition rounded_unit (z : Z) (x : Qc) : Prop :=
  within (Q2Qc (1 # 2)) (float z) x.

(** [r] is [x] rounded to two decimals: a nearest hundredth. *)
Definition rounded_cents (r x : Qc) : Prop :=
  (exists z, r = float z / float 100) /\ within (Q2Qc (1 # 200)) r x.

(** total_asset as the loop builds it: the balance, then the market values
    added one after the other in the order of the dict (lines 137, 148). *)
Definition total_in_order (b : Qc) (xs : list (string * Holding * Qc)) : Qc :=
  fold_left (fun acc x => acc + spec_value x) xs b.

(** Quotes that fall: 150 for the first call, 10 afterwards. *)
Definition o_falling : Oracle :=
  mkOracle (fun n _ => if (n <? 1)%nat then Some (float 150) else Some (float 10))
    (fun _ _ => None) (fun _ => "2024-01-02 09:00:00") (fun _ => true) (fun _ => true).

(** An oracle that quotes -5 for every symbol. *)
Definition o_negative : Oracle := o_const (Some (float (-5))) true.

(** ** Reduction of the monad's primitives *)

Ltac mred :=
  cbv beta iota delta
    [bind ret raise get_balance get_portfolio get_seed_money set_balance
     set_portfolio get_item set_item modify_item now try_except
     with_qty with_total_cost with_name upd];
  cbn [seed_money balance portfolio sheet calls fst snd qty total_cost name].

(** * Properties *)

(** ** The helpers on a few inputs *)

Example zfill_examples :
  map (zfill 6) ["005930"; "5930"; "AAPL"; "-12"; "1234567"]
  = ["005930"; "005930"; "00AAPL"; "-00012"; "1234567"].
Proof. reflexivity. Qed.

Example symbol_of_examples :
  map symbol_of ["005930"; "AAPL"; ""] = ["005930.KS"; "AAPL"; ""].
Proof. reflexivity. Qed.

Example py_round_examples :
  map (fun q => py_round (Q2Qc q)) [1 # 2; 3 # 2; 5 # 2; -1 # 2; -3 # 2; 7 # 10]
  = [0; 2; 2; 0; -2; 1]%Z.
Proof. vm_compute. reflexivity. Qed.

Example py_round2_example : py_round2 (Q2Qc (100 # 7)) = Q2Qc (1429 # 100).
Proof. vm_compute. reflexivity. Qed.

(** ** Comparisons and the injection of integers *)

Lemma Qc_eqb_eq (x y : Qc) : Qc_eqb x y = true <-> x = y.
Proof.
  unfold Qc_eqb. rewrite Qeq_bool_iff. split.
  - apply Qc_is_canon.
  - intros ->. reflexivity.
Qed.

Lemma Qc_eqb_neq (x y : Qc) : Qc_eqb x y = false <-> x <> y.
Proof.
  rewrite <- Qc_eqb_eq. destruct (Qc_eqb x y); split; congruence.
Qed.

Lemma Qc_ltb_lt (x y : Qc) : Qc_ltb x y = true <-> x < y.
Proof.
  unfold Qc_ltb, Qclt. rewrite negb_true_iff, <- not_true_iff_false, Qle_bool_iff.
  split.
  - apply Qnot_le_lt.
  - apply Qlt_not_le.
Qed.

Lemma Qc_ltb_ge (x y : Qc) : Qc_ltb x y = false <-> y <= x.
Proof.
  unfold Qc_ltb, Qcle. rewrite negb_false_iff, Qle_bool_iff. reflexivity.
Qed.

Lemma float_0 : float 0 = 0.
Proof. reflexivity. Qed.

Lemma float_inj (a b : Z) : float a = float b -> a = b.
Proof.
  unfold float. intros H. apply (f_equal this) in H. cbn [this Q2Qc] in H.
  assert (E : inject_Z a == inject_Z b).
  { rewrite <- (Qred_correct (inject_Z a)), <- (Qred_correct (inject_Z b)), H.
    reflexivity. }
  unfold Qeq in E. simpl in E. lia.
Qed.

Lemma float_eqb_0 (z : Z) : Qc_eqb (float z) 0 = (z =? 0)%Z.
Proof.
  destruct (Z.eqb_spec z 0) as [->|N].
  - reflexivity.
  - apply Qc_eqb_neq. intros H. apply N. apply float_inj. exact H.
Qed.

Lemma float_le (a b : Z) : (a <= b)%Z -> float a <= float b.
Proof.
  intros H. unfold float, Qcle. cbn [this Q2Qc]. rewrite !Qred_correct.
  unfold Qle. simpl. lia.
Qed.

Lemma float_lt (a b : Z) : (a < b)%Z -> float a < float b.
Proof.
  intros H. unfold float, Qclt. cbn [this Q2Qc]. rewrite !Qred_correct.
  unfold Qlt. simpl. lia.
Qed.

Lemma float_nonneg (z : Z) : (0 <= z)%Z -> 0 <= float z.
Proof. intros H. rewrite <- float_0. apply float_le. exact H. Qed.

Lemma float_pos (z : Z) : (0 < z)%Z -> 0 < float z.
Proof. intros H. rewrite <- float_0. apply float_lt. exact H. Qed.

(** ** The dict *)

Lemma dict_get_set_same k v d : dict_get k (dict_set k v d) = Some v.
Proof.
  induction d as [|[k' v'] d IH]; simpl.
  - rewrite String.eqb_refl. reflexivity.
  - destruct (String.eqb k k') eqn:E; simpl; rewrite E; auto.
Qed.

Lemma dict_get_set_other k k' v d :
  k <> k' -> dict_get k' (dict_set k v d) = dict_get k' d.
Proof.
  intros N. induction d as [|[k0 v0] d IH]; simpl.
  - destruct (String.eqb_spec k' k); congruence.
  - destruct (String.eqb_spec k k0) as [->|N0]; simpl.
    + destruct (String.eqb_spec k' k0); congruence.
    + rewrite IH. reflexivity.
Qed.

Lemma dict_set_set k v w d : dict_set k w (dict_set k v d) = dict_set k w d.
Proof.
  induction d as [|[k' v'] d IH]; simpl.
  - rewrite String.eqb_refl. reflexivity.
  - destruct (String.eqb k k') eqn:E; simpl; rewrite E; congruence.
Qed.

Lemma all_holdings_nil P : all_holdings P [].
Proof. intros k h H. discriminate. Qed.

Lemma all_holdings_set P k v d :
  all_holdings P d -> P v -> all_holdings P (dict_set k v d).
Proof.
  intros A Pv k' h H.
  destruct (String.eqb_spec k k') as [->|N].
  - rewrite dict_get_set_same in H. congruence.
  - rewrite dict_get_set_other in H by exact N. eauto.
Qed.

(** ** What the mutations of one trade amount to *)

Lemma upd_same e : upd e (balance e) (portfolio e) = e.
Proof. destruct e. reflexivity. Qed.

Lemma bind_Return {A B} (c : M A) (k : A -> M B) e a e' :
  c e = (Return a, e') -> bind c k e = k a e'.
Proof. intros H. unfold bind. rewrite H. reflexivity. Qed.

Lemma bind_Raise {A B} (c : M A) (k : A -> M B) e x e' :
  c e = (Raise x, e') -> bind c k e = (Raise x, e').
Proof. intros H. unfold bind. rewrite H. reflexivity. Qed.

Lemma modify_item_eq ticker f e h :
  dict_get ticker (portfolio e) = Some h ->
  modify_item ticker f e
  = (Return tt, upd e (balance e) (dict_set ticker (f h) (portfolio e))).
Proof.
  intros H. unfold modify_item, get_item, set_item. mred. rewrite H. mred.
  reflexivity.
Qed.

Lemma modify_item_set ticker f e b p h :
  modify_item ticker f (upd e b (dict_set ticker h p))
  = (Return tt, upd e b (dict_set ticker (f h) p)).
Proof.
  rewrite (modify_item_eq _ _ _ h) by (cbn [upd portfolio]; apply dict_get_set_same).
  unfold upd. cbn [seed_money balance portfolio sheet calls].
  rewrite dict_set_set. reflexivity.
Qed.

Lemma ensure_item_eq ticker nm e :
  ensure_item ticker nm e
  = (Return tt, upd e (balance e) (ensured ticker nm (portfolio e))).
Proof.
  unfold ensure_item, ensured. mred.
  destruct (dict_mem ticker (portfolio e)); cbn [negb].
  - destruct e. reflexivity.
  - reflexivity.
Qed.

Lemma add_units_eq ticker q amount nm e h :
  dict_get ticker (portfolio e) = Some h ->
  add_units ticker q amount nm e
  = (Return tt,
     upd e (balance e)
       (dict_set ticker (mkHolding (qty h + q) (total_cost h + amount) nm)
          (portfolio e))).
Proof.
  intros G. unfold add_units.
  rewrite (bind_Return _ _ _ _ _ (modify_item_eq _ _ _ h G)).
  rewrite (bind_Return _ _ _ _ _ (modify_item_set _ _ _ _ _ _)).
  rewrite modify_item_set. reflexivity.
Qed.

(** Lines 103-108: create the holding if it is missing, then add the units,
    the cost and the name. *)
Lemma buy_mutation ticker q amount nm e :
  (ensure_item ticker nm ;; add_units ticker q amount nm) e
  = (Return tt, upd e (balance e) (bought ticker q amount nm (portfolio e))).
Proof.
  rewrite (bind_Return _ _ _ _ _ (ensure_item_eq ticker nm e)).
  unfold bought, ensured, dict_mem.
  destruct (dict_get ticker (portfolio e)) as [h|] eqn:G; cbv iota.
  - rewrite upd_same. apply add_units_eq. exact G.
  - rewrite (add_units_eq _ _ _ _ _ (mkHolding 0 0 nm))
      by (cbn [upd portfolio]; apply dict_get_set_same).
    unfold upd. cbn [seed_money balance portfolio sheet calls qty total_cost].
    rewrite dict_set_set. reflexivity.
Qed.

Lemma get_item_eq ticker e h :
  dict_get ticker (portfolio e) = Some h -> get_item ticker e = (Return h, e).
Proof. intros H. unfold get_item. mred. rewrite H. reflexivity. Qed.

Lemma get_item_set ticker e b p h :
  get_item ticker (upd e b (dict_set ticker h p))
  = (Return h, upd e b (dict_set ticker h p)).
Proof. apply get_item_eq. cbn [upd portfolio]. apply dict_get_set_same. Qed.

Lemma py_div_float x z e :
  z <> 0%Z -> py_div x (float z) e = (Return (x / float z), e).
Proof.
  intros N. unfold py_div. rewrite float_eqb_0.
  destruct (Z.eqb_spec z 0); [contradiction|reflexivity].
Qed.

(** Lines 125-130 (and 69-75 of the replay) on a holding that exists, when the
    division is defined. *)
Lemma reduce_position_eq ticker q e h :
  dict_get ticker (portfolio e) = Some h ->
  ((0 < qty h - q)%Z -> qty h <> 0%Z) ->
  reduce_position ticker q e
  = (Return tt, upd e (balance e) (dict_set ticker (sold q h) (portfolio e))).
Proof.
  intros G D. unfold reduce_position.
  rewrite (bind_Return _ _ _ _ _ (modify_item_eq _ _ _ h G)).
  rewrite (bind_Return _ _ _ _ _ (get_item_set _ _ _ _ _)).
  cbn [with_qty qty total_cost]. unfold sold.
  replace (qty h - q + q)%Z with (qty h) by lia.
  destruct (0 <? qty h - q)%Z eqn:P.
  - apply Z.ltb_lt in P. specialize (D P).
    rewrite (bind_Return _ _ _ _ _ (py_div_float _ _ _ D)).
    rewrite modify_item_set. reflexivity.
  - rewrite modify_item_set. reflexivity.
Qed.

(** The same lines when units remain although none were held: the average
    divides by zero, after the quantity was changed. *)
Lemma reduce_position_raises ticker q e h :
  dict_get ticker (portfolio e) = Some h ->
  (0 < qty h - q)%Z -> qty h = 0%Z ->
  reduce_position ticker q e
  = (Raise ZeroDivisionError,
     upd e (balance e) (dict_set ticker (with_qty (qty h - q) h) (portfolio e))).
Proof.
  intros G P Z0. unfold reduce_position.
  rewrite (bind_Return _ _ _ _ _ (modify_item_eq _ _ _ h G)).
  rewrite (bind_Return _ _ _ _ _ (get_item_set _ _ _ _ _)).
  cbn [with_qty qty total_cost].
  apply Z.ltb_lt in P. rewrite P.
  replace (qty h - q + q)%Z with (qty h) by lia. rewrite Z0.
  reflexivity.
Qed.

(** ** The sheet and the retries *)

Lemma tick_log c e : tick (log c e) = S (tick e).
Proof. unfold tick, log. cbn [calls]. rewrite length_app. simpl. lia. Qed.

Lemma append_row_ok o row e :
  append_ok o (tick e) = true ->
  append_row o row e = (Return tt, stored row (log (CallAppend row) e)).
Proof. intros H. unfold append_row. rewrite H. reflexivity. Qed.

Lemma append_row_fails o row e :
  append_ok o (tick e) = false ->
  append_row o row e = (Raise APIError, log (CallAppend row) e).
Proof. intros H. unfold append_row. rewrite H. reflexivity. Qed.

Lemma log_attempts_frame row n e :
  seed_money (log_attempts row n e) = seed_money e
  /\ balance (log_attempts row n e) = balance e
  /\ portfolio (log_attempts row n e) = portfolio e
  /\ sheet (log_attempts row n e) = sheet e.
Proof.
  revert e. induction n as [|n IH]; intros e; cbn [log_attempts].
  - auto.
  - destruct (IH (log (CallAppend row) e)) as (A & B & C & D).
    rewrite A, B, C, D. auto.
Qed.

(** A retried append that exhausts its attempts raises [RetryError] and
    stores nothing. *)
Lemma retry_exhausted o row n e :
  all_fail o (tick e) n = true ->
  retry n (append_row o row) e = (Raise RetryError, log_attempts row n e).
Proof.
  revert e. induction n as [|n IH]; intros e H; cbn [retry log_attempts].
  - reflexivity.
  - cbn [all_fail] in H. apply andb_true_iff in H. destruct H as [F R].
    apply negb_true_iff in F.
    unfold try_except. rewrite (append_row_fails _ _ _ F).
    apply IH. rewrite tick_log. exact R.
Qed.

(** A retried append either stores the row once and returns, or raises
    [RetryError] with the sheet as it was; the account is not touched. *)
Lemma retry_append_cases o row n e :
  (exists k, fst (retry n (append_row o row) e) = Return tt
             /\ snd (retry n (append_row o row) e)
                = stored row (log_attempts row (S k) e))
  \/ (all_fail o (tick e) n = true
      /\ retry n (append_row o row) e = (Raise RetryError, log_attempts row n e)).
Proof.
  revert e. induction n as [|n IH]; intros e.
  - right. split; reflexivity.
  - cbn [retry all_fail]. unfold try_except.
    destruct (append_ok o (tick e)) eqn:A.
    + left. exists O. rewrite (append_row_ok _ _ _ A). split; reflexivity.
    + rewrite (append_row_fails _ _ _ A). cbn [negb andb].
      destruct (IH (log (CallAppend row) e)) as [(k & R & E)|(F & R)].
      * left. exists (S k). split; [exact R|]. rewrite E. reflexivity.
      * right. rewrite tick_log in F. split; [exact F|]. rewrite R. reflexivity.
Qed.

Lemma safe_append_row_frame o row e :
  let e' := snd (_safe_append_row o row e) in
  seed_money e' = seed_money e /\ balance e' = balance e
  /\ portfolio e' = portfolio e.
Proof.
  unfold _safe_append_row.
  destruct (retry_append_cases o row 3 e) as [(k & _ & E)|(_ & R)].
  - rewrite E. destruct (log_attempts_frame row (S k) e) as (A & B & C & _).
    cbn [stored seed_money balance portfolio]. auto.
  - rewrite R. cbn [snd].
    destruct (log_attempts_frame row 3 e) as (A & B & C & _). auto.
Qed.

(** ** The paths through [buy] and [sell] *)

Lemma get_current_price_eq o ticker e :
  get_current_price o ticker e
  = (Return (symbol_of ticker, last_price o (tick e) (symbol_of ticker)),
     quoted ticker e).
Proof. reflexivity. Qed.

Lemma not_price_false p : not_price p = false <-> exists x, p = Some x /\ x <> 0.
Proof.
  destruct p as [x|]; cbn [not_price].
  - rewrite Qc_eqb_neq. split.
    + intros N. exists x. auto.
    + intros (y & E & N). congruence.
  - split; [discriminate|]. intros (y & E & _). discriminate.
Qed.

(** [buy] up to its first return: the quote is false (lines 86-87). *)
Lemma buy_no_price o ticker q e :
  not_price (last_price o (tick e) (symbol_of ticker)) = true ->
  buy o ticker q e = (Return (fail msg_price_buy), quoted ticker e).
Proof.
  intros H. unfold buy.
  rewrite (bind_Return _ _ _ _ _ (get_current_price_eq o ticker e)).
  cbn [fst snd]. rewrite H. reflexivity.
Qed.

(** [buy] up to its second return: the total exceeds the balance (89-90). *)
Lemma buy_no_funds o ticker q e p :
  last_price o (tick e) (symbol_of ticker) = Some p -> p <> 0 ->
  balance e < p * float q ->
  buy o ticker q e = (Return (fail msg_funds), quoted ticker e).
Proof.
  intros H N L. unfold buy.
  rewrite (bind_Return _ _ _ _ _ (get_current_price_eq o ticker e)).
  cbn [fst snd]. rewrite H. cbn [not_price price_value].
  apply Qc_eqb_neq in N. rewrite N.
  rewrite (bind_Return _ _ _ (balance e) (quoted ticker e)) by reflexivity.
  apply Qc_ltb_lt in L. rewrite L. reflexivity.
Qed.

(** [buy] past its checks: everything up to the append (lines 92-108). *)
Lemma buy_commit o ticker q e p :
  last_price o (tick e) (symbol_of ticker) = Some p -> p <> 0 ->
  p * float q <= balance e ->
  buy o ticker q e
  = (_safe_append_row o (buy_row o ticker q p e) ;;
     ret (success (msg_bought ++ buy_name o ticker e) p)) (buy_state o ticker q p e).
Proof.
  intros H N L. unfold buy.
  rewrite (bind_Return _ _ _ _ _ (get_current_price_eq o ticker e)).
  cbn [fst snd]. rewrite H. cbn [not_price price_value].
  apply Qc_eqb_neq in N. rewrite N.
  rewrite (bind_Return _ _ _ (balance e) (quoted ticker e)) by reflexivity.
  apply Qc_ltb_ge in L. rewrite L.
  rewrite (bind_Return _ _ _ (portfolio e) (quoted ticker e)) by reflexivity.
  assert (R : (match cached_name ticker (portfolio e) with
               | Some n => ret n
               | None => get_short_name o (symbol_of ticker) ticker
               end) (quoted ticker e)
              = (Return (buy_name o ticker e), buy_lookups ticker e)).
  { unfold buy_name, buy_lookups.
    destruct (cached_name ticker (portfolio e)); [reflexivity|].
    unfold get_short_name, quoted. rewrite tick_log. reflexivity. }
  rewrite (bind_Return _ _ _ _ _ R).
  set (e0 := buy_lookups ticker e).
  assert (F : seed_money e0 = seed_money e /\ balance e0 = balance e
              /\ portfolio e0 = portfolio e /\ sheet e0 = sheet e).
  { unfold e0, buy_lookups. destruct (cached_name ticker (portfolio e)); auto. }
  destruct F as (F1 & F2 & F3 & F4).
  rewrite (bind_Return _ _ _ (clock o (tick e0)) e0) by reflexivity.
  rewrite (bind_Return _ _ _ tt (upd e0 (balance e - p * float q) (portfolio e0)))
    by reflexivity.
  rewrite (bind_Return _ _ _ _ _ (ensure_item_eq _ _ _)).
  cbn [upd seed_money balance portfolio sheet calls].
  fold (upd e0 (balance e - p * float q)
          (ensured ticker (buy_name o ticker e) (portfolio e0))).
  assert (A : add_units ticker q (p * float q) (buy_name o ticker e)
                (upd e0 (balance e - p * float q)
                   (ensured ticker (buy_name o ticker e) (portfolio e0)))
              = (Return tt, buy_state o ticker q p e)).
  { pose proof (buy_mutation ticker q (p * float q) (buy_name o ticker e)
                  (upd e0 (balance e - p * float q) (portfolio e0))) as B.
    rewrite (bind_Return _ _ _ _ _ (ensure_item_eq _ _ _)) in B.
    cbn [upd seed_money balance portfolio sheet calls] in B.
    rewrite F3 in B. rewrite F3. exact B. }
  rewrite (bind_Return _ _ _ _ _ A).
  rewrite (bind_Return _ _ _ (balance e - p * float q) (buy_state o ticker q p e))
    by reflexivity.
  reflexivity.
Qed.

(** [sell] up to its first return: nothing held, or not enough (114-115). *)
Lemma sell_no_holding o ticker q e :
  match dict_get ticker (portfolio e) with
  | None => True
  | Some h => (qty h < q)%Z
  end ->
  sell o ticker q e = (Return (fail msg_holding), e).
Proof.
  intros H. unfold sell.
  rewrite (bind_Return _ _ _ (portfolio e) e) by reflexivity.
  destruct (dict_get ticker (portfolio e)) as [h|].
  - apply Z.ltb_lt in H. rewrite H. reflexivity.
  - reflexivity.
Qed.

(** [sell] up to its second return: the quote is false (lines 117-118). *)
Lemma sell_no_price o ticker q e h :
  dict_get ticker (portfolio e) = Some h -> (q <= qty h)%Z ->
  not_price (last_price o (tick e) (symbol_of ticker)) = true ->
  sell o ticker q e = (Return (fail msg_price_sell), quoted ticker e).
Proof.
  intros G Q H. unfold sell.
  rewrite (bind_Return _ _ _ (portfolio e) e) by reflexivity.
  rewrite G. apply Z.ltb_ge in Q. rewrite Q.
  rewrite (bind_Return _ _ _ _ _ (get_current_price_eq o ticker e)).
  cbn [fst snd]. rewrite H. reflexivity.
Qed.

(** [sell] past its checks: everything up to the append (lines 120-130). *)
Lemma sell_commit o ticker q e h p :
  dict_get ticker (portfolio e) = Some h -> (q <= qty h)%Z ->
  last_price o (tick e) (symbol_of ticker) = Some p -> p <> 0 ->
  ((0 < qty h - q)%Z -> qty h <> 0%Z) ->
  sell o ticker q e
  = (_safe_append_row o (sell_row o ticker q p h e) ;;
     ret (success (msg_sold ++ name h) p)) (sell_state ticker q p h e).
Proof.
  intros G Q H N D. unfold sell.
  rewrite (bind_Return _ _ _ (portfolio e) e) by reflexivity.
  rewrite G. apply Z.ltb_ge in Q. rewrite Q.
  rewrite (bind_Return _ _ _ _ _ (get_current_price_eq o ticker e)).
  cbn [fst snd]. rewrite H. cbn [not_price price_value].
  apply Qc_eqb_neq in N. rewrite N.
  rewrite (bind_Return _ _ _ h (quoted ticker e)) by (apply get_item_eq; exact G).
  rewrite (bind_Return _ _ _ (clock o (S (tick e))) (quoted ticker e))
    by (unfold now, quoted; rewrite tick_log; reflexivity).
  rewrite (bind_Return _ _ _ (balance e) (quoted ticker e)) by reflexivity.
  rewrite (bind_Return _ _ _ tt
             (upd (quoted ticker e) (balance e + p * float q) (portfolio e)))
    by reflexivity.
  rewrite (bind_Return _ _ _ tt (sell_state ticker q p h e))
    by (rewrite (reduce_position_eq ticker q
                   (upd (quoted ticker e) (balance e + p * float q) (portfolio e))
                   h G D); reflexivity).
  rewrite (bind_Return _ _ _ (balance e + p * float q) (sell_state ticker q p h e))
    by reflexivity.
  reflexivity.
Qed.

(** What a retried append followed by the final [return] can give. *)
Lemma append_then_return o row (r : Receipt) e :
  let out := (_safe_append_row o row ;; ret r) e in
  (exists k, out = (Return r, stored row (log_attempts row (S k) e)))
  \/ (all_fail o (tick e) 3 = true
      /\ out = (Raise RetryError, log_attempts row 3 e)).
Proof.
  cbv zeta. unfold _safe_append_row, bind.
  destruct (retry_append_cases o row 3 e) as [(k & R & E)|(F & R)].
  - left. exists k.
    destruct (retry 3 (append_row o row) e) as [[[]|x] e1]; cbn [fst snd] in *.
    + rewrite E. reflexivity.
    + discriminate R.
  - right. split; [exact F|]. rewrite R. reflexivity.
Qed.

(** The same, seen from the account: it is not touched, and the ledger gains
    the row exactly when a receipt is returned. *)
Lemma append_then_return_frame o row (r : Receipt) e :
  let out := (_safe_append_row o row ;; ret r) e in
  seed_money (snd out) = seed_money e
  /\ balance (snd out) = balance e
  /\ portfolio (snd out) = portfolio e
  /\ ((fst out = Return r /\ sheet (snd out) = (sheet e ++ [row])%list)
      \/ (fst out = Raise RetryError /\ sheet (snd out) = sheet e
          /\ all_fail o (tick e) 3 = true)).
Proof.
  cbv zeta.
  destruct (append_then_return o row r e) as [(k & R)|(F & R)];
    cbv zeta in R; rewrite R; cbn [fst snd].
  - destruct (log_attempts_frame row (S k) e) as (A & B & C & D).
    unfold stored. cbn [seed_money balance portfolio sheet].
    rewrite A, B, C, D. repeat (split; [reflexivity|]).
    left. split; reflexivity.
  - destruct (log_attempts_frame row 3 e) as (A & B & C & D).
    rewrite A, B, C, D. repeat (split; [reflexivity|]).
    right. repeat (split; [reflexivity|]). exact F.
Qed.

Lemma same_account_quoted ticker e : same_account e (quoted ticker e).
Proof. unfold same_account. auto. Qed.

Lemma same_account_refl e : same_account e e.
Proof. unfold same_account. auto. Qed.

(** C5: a buy whose total exceeds the balance returns the insufficient-funds
    receipt and leaves the balance, every holding and the ledger as they were,
    with no append attempted (the trace only gains the quote); a buy whose
    total equals the balance is not rejected by this check, and debits the
    whole balance. *)
Theorem buy_insufficient_funds_atomic o ticker q e p :
  last_price o (tick e) (symbol_of ticker) = Some p -> p <> 0 ->
  (balance e < p * float q ->
     fst (buy o ticker q e) = Return (fail msg_funds)
     /\ same_account e (snd (buy o ticker q e))
     /\ calls (snd (buy o ticker q e))
        = (calls e ++ [CallQuote (symbol_of ticker)])%list)
  /\ (p * float q = balance e ->
     fst (buy o ticker q e) <> Return (fail msg_funds)
     /\ balance (snd (buy o ticker q e)) = 0).
Proof.
  intros H N. split.
  - intros L. rewrite (buy_no_funds o ticker q e p H N L). cbn [fst snd].
    split; [reflexivity|]. split; [apply same_account_quoted|reflexivity].
  - intros E.
    assert (L : p * float q <= balance e) by (rewrite E; apply Qcle_refl).
    rewrite (buy_commit o ticker q e p H N L).
    destruct (append_then_return o (buy_row o ticker q p e)
                (success (msg_bought ++ buy_name o ticker e) p)
                (buy_state o ticker q p e)) as [(k & R)|(_ & R)];
      cbv zeta in R; rewrite R; cbn [fst snd].
    + split; [discriminate|].
      cbn [stored balance].
      destruct (log_attempts_frame (buy_row o ticker q p e) (S k)
                  (buy_state o ticker q p e)) as (_ & B & _).
      rewrite B. cbn [buy_state upd balance]. rewrite E. ring.
    + split; [discriminate|].
      destruct (log_attempts_frame (buy_row o ticker q p e) 3
                  (buy_state o ticker q p e)) as (_ & B & _).
      rewrite B. cbn [buy_state upd balance]. rewrite E. ring.
Qed.

Lemma buy_insufficient_funds_atomic_witness :
  let o := o_const (Some (float 70000)) true in
  (fst (buy o "005930" 10 (fresh 699999)) = Return (fail msg_funds)
   /\ same_account (fresh 699999) (snd (buy o "005930" 10 (fresh 699999))))
  /\ fst (buy o "005930" 10 (fresh 700000)) <> Return (fail msg_funds).
Proof.
  cbv zeta. split.
  - destruct (buy_insufficient_funds_atomic
                (o_const (Some (float 70000)) true) "005930" 10 (fresh 699999)
                (float 70000) eq_refl) as [A _].
    + apply Qc_eqb_neq. reflexivity.
    + destruct A as (A1 & A2 & _).
      * apply Qc_ltb_lt. reflexivity.
      * split; assumption.
  - destruct (buy_insufficient_funds_atomic
                (o_const (Some (float 70000)) true) "005930" 10 (fresh 700000)
                (float 70000) eq_refl) as [_ B].
    + apply Qc_eqb_neq. reflexivity.
    + destruct B as [B _].
      * apply Qc_eqb_eq. reflexivity.
      * exact B.
Defined.

(** C6: a sell of a ticker that is not held, or of more units than are held,
    returns the insufficient-holding receipt and leaves the whole environment
    as it was, the trace of external calls included (no price lookup); a sell
    of exactly the held quantity is not rejected by this check. *)
Theorem sell_insufficient_holding_atomic o ticker q e :
  (dict_get ticker (portfolio e) = None
   \/ (exists h, dict_get ticker (portfolio e) = Some h /\ (qty h < q)%Z) ->
   sell o ticker q e = (Return (fail msg_holding), e))
  /\ (forall h, dict_get ticker (portfolio e) = Some h -> q = qty h ->
      fst (sell o ticker q e) <> Return (fail msg_holding)).
Proof.
  split.
  - intros H. apply sell_no_holding.
    destruct H as [H|(h & H & L)]; rewrite H; auto.
  - intros h G E.
    assert (Q : (q <= qty h)%Z) by lia.
    destruct (not_price (last_price o (tick e) (symbol_of ticker))) eqn:P.
    + rewrite (sell_no_price o ticker q e h G Q P). cbn [fst]. discriminate.
    + apply not_price_false in P. destruct P as (p & P & N).
      rewrite (sell_commit o ticker q e h p G Q P N) by lia.
      destruct (append_then_return o (sell_row o ticker q p h e)
                  (success (msg_sold ++ name h) p)
                  (sell_state ticker q p h e)) as [(k & R)|(_ & R)];
        cbv zeta in R; rewrite R; cbn [fst]; discriminate.
Qed.

Lemma sell_insufficient_holding_atomic_witness :
  let o := o_const (Some (float 80000)) true in
  let e := mkEnv 1000 (float 300) [("005930", mkHolding 10 (float 700) "Samsung")] [] [] in
  sell o "AAPL" 1 e = (Return (fail msg_holding), e)
  /\ sell o "005930" 11 e = (Return (fail msg_holding), e)
  /\ fst (sell o "005930" 10 e) <> Return (fail msg_holding).
Proof.
  cbv zeta. split; [|split].
  - apply sell_insufficient_holding_atomic. left. reflexivity.
  - apply sell_insufficient_holding_atomic. right.
    exists (mkHolding 10 (float 700) "Samsung"). split; [reflexivity|].
    cbn [qty]. lia.
  - apply (sell_insufficient_holding_atomic _ _ _ _)
      with (h := mkHolding 10 (float 700) "Samsung"); reflexivity.
Defined.

(** C7: when the price lookup fails (the quote is [None]), [buy] returns a
    failed receipt, and so does a [sell] that got as far as the lookup; the
    balance, the holdings and the ledger are as before the call. *)
Theorem price_failure_no_mutation o ticker q e :
  last_price o (tick e) (symbol_of ticker) = None ->
  (fst (buy o ticker q e) = Return (fail msg_price_buy)
   /\ same_account e (snd (buy o ticker q e)))
  /\ (forall h, dict_get ticker (portfolio e) = Some h -> (q <= qty h)%Z ->
      fst (sell o ticker q e) = Return (fail msg_price_sell)
      /\ same_account e (snd (sell o ticker q e))).
Proof.
  intros H. split.
  - rewrite buy_no_price by (rewrite H; reflexivity). cbn [fst snd].
    split; [reflexivity|apply same_account_quoted].
  - intros h G Q.
    rewrite (sell_no_price o ticker q e h G Q) by (rewrite H; reflexivity).
    cbn [fst snd]. split; [reflexivity|apply same_account_quoted].
Qed.

Lemma price_failure_no_mutation_witness :
  let o := o_const None true in
  let e := mkEnv 1000 (float 300) [("005930", mkHolding 10 (float 700) "Samsung")] [] [] in
  (fst (buy o "005930" 1 e) = Return (fail msg_price_buy)
   /\ same_account e (snd (buy o "005930" 1 e)))
  /\ (fst (sell o "005930" 4 e) = Return (fail msg_price_sell)
      /\ same_account e (snd (sell o "005930" 4 e))).
Proof.
  cbv zeta.
  destruct (price_failure_no_mutation (o_const None true) "005930" 1
              (mkEnv 1000 (float 300)
                 [("005930", mkHolding 10 (float 700) "Samsung")] [] [])
              eq_refl) as [A _].
  destruct (price_failure_no_mutation (o_const None true) "005930" 4
              (mkEnv 1000 (float 300)
                 [("005930", mkHolding 10 (float 700) "Samsung")] [] [])
              eq_refl) as [_ B].
  split; [exact A|].
  apply (B (mkHolding 10 (float 700) "Samsung")); [reflexivity|cbn [qty]; lia].
Defined.

(** C10: a quote of exactly 0 is handled as a failed lookup: [buy] and a
    [sell] that got as far as the lookup return the price-unavailable receipt,
    and the balance, the holdings and the ledger are as before the call. *)
Theorem zero_price_is_unavailable o ticker q e :
  last_price o (tick e) (symbol_of ticker) = Some 0 ->
  (fst (buy o ticker q e) = Return (fail msg_price_buy)
   /\ same_account e (snd (buy o ticker q e)))
  /\ (forall h, dict_get ticker (portfolio e) = Some h -> (q <= qty h)%Z ->
      fst (sell o ticker q e) = Return (fail msg_price_sell)
      /\ same_account e (snd (sell o ticker q e))).
Proof.
  intros H. split.
  - rewrite buy_no_price by (rewrite H; reflexivity). cbn [fst snd].
    split; [reflexivity|apply same_account_quoted].
  - intros h G Q.
    rewrite (sell_no_price o ticker q e h G Q) by (rewrite H; reflexivity).
    cbn [fst snd]. split; [reflexivity|apply same_account_quoted].
Qed.

Lemma zero_price_is_unavailable_witness :
  let o := o_const (Some 0) true in
  let e := mkEnv 1000 (float 300) [("005930", mkHolding 10 (float 700) "Samsung")] [] [] in
  (fst (buy o "005930" 1 e) = Return (fail msg_price_buy)
   /\ same_account e (snd (buy o "005930" 1 e)))
  /\ (fst (sell o "005930" 4 e) = Return (fail msg_price_sell)
      /\ same_account e (snd (sell o "005930" 4 e))).
Proof.
  cbv zeta.
  destruct (zero_price_is_unavailable (o_const (Some 0) true) "005930" 1
              (mkEnv 1000 (float 300)
                 [("005930", mkHolding 10 (float 700) "Samsung")] [] [])
              eq_refl) as [A _].
  destruct (zero_price_is_unavailable (o_const (Some 0) true) "005930" 4
              (mkEnv 1000 (float 300)
                 [("005930", mkHolding 10 (float 700) "Samsung")] [] [])
              eq_refl) as [_ B].
  split; [exact A|].
  apply (B (mkHolding 10 (float 700) "Samsung")); [reflexivity|cbn [qty]; lia].
Defined.

(** C8, as the claim words it, does not hold: with a sheet that refuses every
    append, a buy that passed its checks raises [RetryError]; it returns no
    receipt, failed or not. *)
Lemma append_failure_returns_no_receipt :
  let o := o_const (Some (float 70000)) false in
  fst (buy o "005930" 10 (fresh 10000000)) = Raise RetryError
  /\ ~ (exists r, fst (buy o "005930" 10 (fresh 10000000)) = Return r
                  /\ status r = "fail").
Proof.
  cbv zeta.
  assert (E : fst (buy (o_const (Some (float 70000)) false) "005930" 10
                     (fresh 10000000)) = Raise RetryError)
    by (vm_compute; reflexivity).
  split; [exact E|].
  intros (r & H & _). rewrite E in H. discriminate H.
Qed.

(** C8 (amended): when the three attempts of the append all fail, [buy] and
    [sell] raise [RetryError] instead of returning a receipt; at that point the
    balance is already debited (credited) and the holding already updated, and
    the ledger has no new row. *)
Theorem append_failure_raises_after_mutation o ticker q e p :
  last_price o (tick e) (symbol_of ticker) = Some p -> p <> 0 ->
  (p * float q <= balance e ->
   all_fail o (tick (buy_state o ticker q p e)) 3 = true ->
   fst (buy o ticker q e) = Raise RetryError
   /\ balance (snd (buy o ticker q e)) = balance e - p * float q
   /\ portfolio (snd (buy o ticker q e))
      = bought ticker q (p * float q) (buy_name o ticker e) (portfolio e)
   /\ sheet (snd (buy o ticker q e)) = sheet e)
  /\ (forall h, dict_get ticker (portfolio e) = Some h ->
      (0 < q <= qty h)%Z ->
      all_fail o (tick (sell_state ticker q p h e)) 3 = true ->
      fst (sell o ticker q e) = Raise RetryError
      /\ balance (snd (sell o ticker q e)) = balance e + p * float q
      /\ portfolio (snd (sell o ticker q e))
         = dict_set ticker (sold q h) (portfolio e)
      /\ sheet (snd (sell o ticker q e)) = sheet e).
Proof.
  intros H N. split.
  - intros L F. rewrite (buy_commit o ticker q e p H N L).
    unfold bind, _safe_append_row. rewrite (retry_exhausted _ _ _ _ F).
    cbn [fst snd].
    destruct (log_attempts_frame (buy_row o ticker q p e) 3
                (buy_state o ticker q p e)) as (_ & B & P & S).
    rewrite B, P, S. unfold buy_state, buy_lookups.
    destruct (cached_name ticker (portfolio e)); auto.
  - intros h G Q F.
    rewrite (sell_commit o ticker q e h p G) by (auto; lia).
    unfold bind, _safe_append_row. rewrite (retry_exhausted _ _ _ _ F).
    cbn [fst snd].
    destruct (log_attempts_frame (sell_row o ticker q p h e) 3
                (sell_state ticker q p h e)) as (_ & B & P & S).
    rewrite B, P, S. auto.
Qed.

Lemma append_failure_raises_after_mutation_witness :
  let o := o_const (Some (float 70000)) false in
  let e := fresh 10000000 in
  fst (buy o "005930" 10 e) = Raise RetryError
  /\ balance (snd (buy o "005930" 10 e)) = balance e - float 70000 * float 10
  /\ portfolio (snd (buy o "005930" 10 e))
     = bought "005930" 10 (float 70000 * float 10) (buy_name o "005930" e) (portfolio e)
  /\ sheet (snd (buy o "005930" 10 e)) = sheet e.
Proof.
  cbv zeta.
  destruct (append_failure_raises_after_mutation
              (o_const (Some (float 70000)) false) "005930" 10 (fresh 10000000)
              (float 70000) eq_refl) as [A _].
  - apply Qc_eqb_neq. reflexivity.
  - apply A.
    + apply Qc_ltb_ge. reflexivity.
    + reflexivity.
Defined.

(** ** The replay *)

Lemma for_each_app {A} (l1 l2 : list A) (body : A -> M unit) e e1 :
  for_each l1 body e = (Return tt, e1) ->
  for_each (l1 ++ l2) body e = for_each l2 body e1.
Proof.
  revert e. induction l1 as [|a l1 IH]; intros e H; cbn [for_each app] in *.
  - inversion H. reflexivity.
  - unfold bind in *. destruct (body a e) as [[[]|x] e'].
    + apply IH. exact H.
    + discriminate H.
Qed.

Lemma for_each_one {A} (a : A) (body : A -> M unit) e :
  for_each [a] body e = body a e.
Proof.
  cbn [for_each]. unfold bind. destruct (body a e) as [[[]|x] e']; reflexivity.
Qed.

Lemma dict_get_ensured ticker nm p :
  dict_get ticker (ensured ticker nm p)
  = Some (match dict_get ticker p with
          | Some h => h
          | None => mkHolding 0 0 nm
          end).
Proof.
  unfold ensured, dict_mem. destruct (dict_get ticker p) eqn:G.
  - exact G.
  - apply dict_get_set_same.
Qed.

Lemma dict_set_ensured ticker nm v p :
  dict_set ticker v (ensured ticker nm p) = dict_set ticker v p.
Proof.
  unfold ensured. destruct (dict_mem ticker p); [reflexivity|apply dict_set_set].
Qed.

(** One SELL row of the replay, when the average is defined. *)
Lemma replay_row_sell row e :
  str_truthy (r_ticker row) = true -> r_type row = "SELL" ->
  ((0 < qty (replay_holding row e) - r_qty row)%Z -> qty (replay_holding row e) <> 0%Z) ->
  replay_row row e
  = (Return tt,
     upd e (balance e + r_amount row)
       (dict_set (zfill 6 (r_ticker row)) (sold (r_qty row) (replay_holding row e))
          (portfolio e))).
Proof.
  intros T S D. unfold replay_row. rewrite T, S. cbn [negb String.eqb Ascii.eqb Bool.eqb].
  set (ticker := zfill 6 (r_ticker row)) in *.
  rewrite (bind_Return _ _ _ _ _ (ensure_item_eq _ _ _)).
  rewrite (bind_Return _ _ _ (balance e)
             (upd e (balance e) (ensured ticker (r_name row) (portfolio e))))
    by reflexivity.
  rewrite (bind_Return _ _ _ tt
             (upd e (balance e + r_amount row)
                (ensured ticker (r_name row) (portfolio e))))
    by reflexivity.
  rewrite (reduce_position_eq ticker (r_qty row) _ (replay_holding row e)).
  - unfold upd. cbn [seed_money balance portfolio sheet calls].
    rewrite dict_set_ensured. reflexivity.
  - cbn [upd portfolio]. apply dict_get_ensured.
  - exact D.
Qed.

(** C2: in the replay of any ledger, a SELL row adds its amount to the
    balance and takes its quantity off the holding; if units remain, the cost
    basis loses (total_cost / prior_qty) * qty, with prior_qty the quantity
    held before the row; otherwise (nothing left, or an oversold holding) the
    cost basis becomes exactly 0.  The hypothesis on the prior quantity says
    that the average is defined; every row with a positive quantity meets it. *)
Theorem replay_sell_branch (pre : list Row) (row : Row) (e0 e : Env) :
  for_each pre replay_row e0 = (Return tt, e) ->
  str_truthy (r_ticker row) = true -> r_type row = "SELL" ->
  let prior := replay_holding row e in
  let out := for_each (pre ++ [row]) replay_row e0 in
  ((0 < qty prior - r_qty row)%Z -> qty prior <> 0%Z) ->
  fst out = Return tt
  /\ balance (snd out) = balance e + r_amount row
  /\ exists h, dict_get (zfill 6 (r_ticker row)) (portfolio (snd out)) = Some h
       /\ qty h = (qty prior - r_qty row)%Z
       /\ ((0 < qty h)%Z ->
           total_cost h
           = total_cost prior - total_cost prior / float (qty prior) * float (r_qty row))
       /\ ((qty h <= 0)%Z -> total_cost h = 0).
Proof.
  intros P T S prior out D. subst out.
  rewrite (for_each_app _ _ _ _ _ P), for_each_one.
  rewrite (replay_row_sell row e T S D). cbn [fst snd upd balance portfolio].
  split; [reflexivity|]. split; [reflexivity|].
  exists (sold (r_qty row) prior). split; [apply dict_get_set_same|].
  unfold sold. cbn [qty total_cost]. split; [reflexivity|]. split.
  - intros Q. apply Z.ltb_lt in Q. rewrite Q. reflexivity.
  - intros Q. apply Z.ltb_ge in Q. rewrite Q. reflexivity.
Qed.

Lemma replay_sell_branch_witness :
  let b := mkRow "2024-01-02 09:00:00" "BUY" "005930" "Samsung"
             (float 70000) 10 (float 700000) (float 9300000) in
  let s := mkRow "2024-01-02 09:05:00" "SELL" "005930" "Samsung"
             (float 80000) 4 (float 320000) (float 9620000) in
  let out := for_each ([b] ++ [s]) replay_row (fresh 10000000) in
  fst out = Return tt
  /\ balance (snd out) = float 9300000 + float 320000
  /\ exists h, dict_get "005930" (portfolio (snd out)) = Some h
       /\ qty h = (10 - 4)%Z
       /\ ((0 < qty h)%Z ->
           total_cost h = float 700000 - float 700000 / float 10 * float 4)
       /\ ((qty h <= 0)%Z -> total_cost h = 0).
Proof.
  cbv zeta.
  apply (replay_sell_branch
           [mkRow "2024-01-02 09:00:00" "BUY" "005930" "Samsung"
              (float 70000) 10 (float 700000) (float 9300000)]
           (mkRow "2024-01-02 09:05:00" "SELL" "005930" "Samsung"
              (float 80000) 4 (float 320000) (float 9620000))
           (fresh 10000000)
           (mkEnv 10000000 (float 9300000)
              [("005930", mkHolding 10 (float 700000) "Samsung")] [] [])).
  - reflexivity.
  - reflexivity.
  - reflexivity.
  - cbn. lia.
Defined.

(** C1: scenarios A and B.  From a fresh account with seed 10,000,000, a
    successful buy("005930", 10) quoted at 70,000 leaves the balance at
    9,300,000 and the holding at qty 10, total_cost 700,000; a successful
    sell("005930", 4) quoted at 80,000 then credits 320,000, removes 280,000
    of cost basis and leaves qty 6, total_cost 420,000, balance 9,620,000. *)
Theorem scenarios_A_and_B o r1 e1 r2 e2 :
  last_price o 0%nat "005930.KS" = Some (float 70000) ->
  buy o "005930" 10 (fresh 10000000) = (Return r1, e1) ->
  last_price o (tick e1) "005930.KS" = Some (float 80000) ->
  sell o "005930" 4 e1 = (Return r2, e2) ->
  exists nm,
    balance e1 = float 9300000
    /\ portfolio e1 = [("005930", mkHolding 10 (float 700000) nm)]
    /\ balance e2 = balance e1 + float 320000
    /\ balance e2 = float 9620000
    /\ portfolio e2 = [("005930", mkHolding 6 (float 420000) nm)]
    /\ float 700000 - float 420000 = float 280000.
Proof.
  intros P1 B P2 SL.
  assert (N1 : float 70000 <> 0) by (apply Qc_eqb_neq; reflexivity).
  assert (N2 : float 80000 <> 0) by (apply Qc_eqb_neq; reflexivity).
  assert (L : float 70000 * float 10 <= balance (fresh 10000000))
    by (apply Qc_ltb_ge; reflexivity).
  rewrite (buy_commit o "005930" 10 (fresh 10000000) (float 70000) P1 N1 L) in B.
  set (nm := buy_name o "005930" (fresh 10000000)) in *.
  exists nm.
  pose proof (append_then_return_frame o
                (buy_row o "005930" 10 (float 70000) (fresh 10000000))
                (success (msg_bought ++ nm) (float 70000))
                (buy_state o "005930" 10 (float 70000) (fresh 10000000))) as F.
  cbv zeta in F. rewrite B in F. cbn [fst snd] in F.
  destruct F as (_ & B1 & H1 & _).
  change (balance e1 = float 9300000) in B1.
  change (portfolio e1 = [("005930", mkHolding 10 (float 700000) nm)]) in H1.
  assert (G : dict_get "005930" (portfolio e1) = Some (mkHolding 10 (float 700000) nm))
    by (rewrite H1; reflexivity).
  rewrite (sell_commit o "005930" 4 e1 _ (float 80000) G) in SL;
    [|cbn [qty]; lia|exact P2|exact N2|cbn [qty]; lia].
  pose proof (append_then_return_frame o
                (sell_row o "005930" 4 (float 80000) (mkHolding 10 (float 700000) nm) e1)
                (success (msg_sold ++ nm) (float 80000))
                (sell_state "005930" 4 (float 80000) (mkHolding 10 (float 700000) nm) e1))
    as F.
  cbv zeta in F. cbn [name] in SL. rewrite SL in F. cbn [fst snd] in F.
  destruct F as (_ & B2 & H2 & _).
  cbn [sell_state upd balance portfolio] in B2, H2.
  split; [exact B1|]. split; [exact H1|]. split; [exact B2|].
  split; [rewrite B2, B1; reflexivity|].
  split; [|reflexivity].
  rewrite H2, H1. reflexivity.
Qed.

Lemma scenarios_A_and_B_witness :
  let e1 := snd (buy o_scenario "005930" 10 (fresh 10000000)) in
  let e2 := snd (sell o_scenario "005930" 4 e1) in
  exists nm,
    balance e1 = float 9300000
    /\ portfolio e1 = [("005930", mkHolding 10 (float 700000) nm)]
    /\ balance e2 = balance e1 + float 320000
    /\ balance e2 = float 9620000
    /\ portfolio e2 = [("005930", mkHolding 6 (float 420000) nm)]
    /\ float 700000 - float 420000 = float 280000.
Proof.
  cbv zeta.
  apply (scenarios_A_and_B o_scenario
           (success (msg_bought ++ "005930") (float 70000))
           (snd (buy o_scenario "005930" 10 (fresh 10000000)))
           (success (msg_sold ++ "005930") (float 80000))
           (snd (sell o_scenario "005930" 4
                   (snd (buy o_scenario "005930" 10 (fresh 10000000)))))).
  - vm_compute. reflexivity.
  - vm_compute. reflexivity.
  - vm_compute. reflexivity.
  - vm_compute. reflexivity.
Defined.

(** ** The invariant of the holdings *)

Lemma Qcmult_nonneg (x y : Qc) : 0 <= x -> 0 <= y -> 0 <= x * y.
Proof.
  intros X Y. rewrite <- (Qcmult_0_l y). apply Qcmult_le_compat_r; assumption.
Qed.

Lemma Qcplus_nonneg (x y : Qc) : 0 <= x -> 0 <= y -> 0 <= x + y.
Proof.
  intros X Y. rewrite <- (Qcplus_0_l 0). apply Qcplus_le_compat; assumption.
Qed.

Lemma Qcdiv_nonneg (x y : Qc) : 0 <= x -> 0 < y -> 0 <= x / y.
Proof.
  intros X Y. apply (Qcmult_lt_0_le_reg_r _ _ y Y).
  rewrite Qcmult_0_l.
  replace (x / y * y) with x; [exact X|].
  field. apply not_eq_sym, Qclt_not_eq. exact Y.
Qed.

(** A partial sale never takes more than the whole cost basis. *)
Lemma partial_cost_nonneg (t : Qc) (held q : Z) :
  0 <= t -> (0 < held)%Z -> (q <= held)%Z ->
  0 <= t - t / float held * float q.
Proof.
  intros T H Q.
  assert (P : 0 < float held) by (apply float_pos; exact H).
  unfold Qcminus. apply (proj1 (Qcle_minus_iff _ _)).
  apply Qcle_trans with (t / float held * float held).
  - rewrite (Qcmult_comm _ (float q)), (Qcmult_comm _ (float held)).
    apply Qcmult_le_compat_r.
    + apply float_le. exact Q.
    + apply Qcdiv_nonneg; assumption.
  - replace (t / float held * float held) with t; [apply Qcle_refl|].
    field. apply not_eq_sym, Qclt_not_eq. exact P.
Qed.

Lemma holding_ok_empty nm : holding_ok (mkHolding 0 0 nm).
Proof.
  unfold holding_ok. cbn [qty total_cost].
  split; [lia|]. split; [apply Qcle_refl|reflexivity].
Qed.

Lemma holding_ok_bought h q amount nm :
  holding_ok h -> (0 < q)%Z -> 0 <= amount ->
  holding_ok (mkHolding (qty h + q) (total_cost h + amount) nm).
Proof.
  intros (Q & T & _) P A. unfold holding_ok. cbn [qty total_cost].
  split; [lia|]. split; [apply Qcplus_nonneg; assumption|lia].
Qed.

Lemma holding_ok_sold h q :
  holding_ok h -> (0 < q <= qty h)%Z -> holding_ok (sold q h).
Proof.
  intros (Q & T & _) P. unfold holding_ok, sold. cbn [qty total_cost].
  split; [lia|].
  destruct (0 <? qty h - q)%Z eqn:R.
  - apply Z.ltb_lt in R. split; [|lia].
    apply partial_cost_nonneg; [exact T|lia|lia].
  - split; [apply Qcle_refl|reflexivity].
Qed.

Lemma all_holdings_bought ticker q amount nm p :
  all_holdings holding_ok p -> (0 < q)%Z -> 0 <= amount ->
  all_holdings holding_ok (bought ticker q amount nm p).
Proof.
  intros A Q N. unfold bought. apply all_holdings_set; [exact A|].
  apply holding_ok_bought; [|exact Q|exact N].
  destruct (dict_get ticker p) as [h|] eqn:G.
  - apply (A ticker h G).
  - apply holding_ok_empty.
Qed.

(** [buy] with a positive quantity keeps the invariant, whatever it returns
    or raises. *)
Lemma buy_keeps_holdings_ok o ticker q e :
  nonneg_quotes o -> (0 < q)%Z ->
  all_holdings holding_ok (portfolio e) ->
  all_holdings holding_ok (portfolio (snd (buy o ticker q e))).
Proof.
  intros O Q A.
  destruct (not_price (last_price o (tick e) (symbol_of ticker))) eqn:P.
  - rewrite (buy_no_price o ticker q e P). exact A.
  - apply not_price_false in P. destruct P as (p & P & N).
    destruct (Qclt_le_dec (balance e) (p * float q)) as [L|L].
    + rewrite (buy_no_funds o ticker q e p P N L). exact A.
    + rewrite (buy_commit o ticker q e p P N L).
      destruct (append_then_return_frame o (buy_row o ticker q p e)
                  (success (msg_bought ++ buy_name o ticker e) p)
                  (buy_state o ticker q p e)) as (_ & _ & H & _).
      rewrite H. cbn [buy_state upd portfolio].
      apply all_holdings_bought; [exact A|exact Q|].
      apply Qcmult_nonneg; [apply (O _ _ _ P)|apply float_nonneg; lia].
Qed.

(** So does [sell]. *)
Lemma sell_keeps_holdings_ok o ticker q e :
  (0 < q)%Z ->
  all_holdings holding_ok (portfolio e) ->
  all_holdings holding_ok (portfolio (snd (sell o ticker q e))).
Proof.
  intros Q A.
  destruct (dict_get ticker (portfolio e)) as [h|] eqn:G.
  - destruct (Z.lt_ge_cases (qty h) q) as [L|L].
    + rewrite sell_no_holding by (rewrite G; exact L). exact A.
    + destruct (not_price (last_price o (tick e) (symbol_of ticker))) eqn:P.
      * rewrite (sell_no_price o ticker q e h G L P). exact A.
      * apply not_price_false in P. destruct P as (p & P & N).
        rewrite (sell_commit o ticker q e h p G L P N) by lia.
        destruct (append_then_return_frame o (sell_row o ticker q p h e)
                    (success (msg_sold ++ name h) p)
                    (sell_state ticker q p h e)) as (_ & _ & H & _).
        rewrite H. cbn [sell_state upd portfolio].
        apply all_holdings_set; [exact A|].
        apply holding_ok_sold; [apply (A ticker h G)|lia].
  - rewrite sell_no_holding by (rewrite G; exact I). exact A.
Qed.

(** C4, as the claim words it, does not hold: [buy] rejects a quote of None
    or 0 and no other, so with a quote of -5 a buy of 2 units succeeds and
    leaves a holding of quantity 2 with a cost basis of -10. *)
Lemma negative_quote_breaks_cost_basis :
  let e := snd (buy o_negative "AAPL" 2 (fresh 1000)) in
  reachable o_negative 1000 e
  /\ exists h,
       dict_get "AAPL" (portfolio e) = Some h
       /\ (0 < qty h)%Z /\ total_cost h < 0.
Proof.
  cbv zeta. split.
  - apply (reach_buy o_negative 1000 (fresh 1000) "AAPL" 2
             (success (msg_bought ++ "AAPL") (float (-5)))).
    + apply reach_fresh.
    + lia.
    + vm_compute. reflexivity.
    + reflexivity.
  - exists (mkHolding 2 (float (-10)) "AAPL").
    split; [vm_compute; reflexivity|].
    split; [cbn [qty]; lia|].
    apply Qc_ltb_lt. reflexivity.
Qed.

(** C4 (amended): provided the oracle never quotes a negative price, in every
    account reached from a fresh one by successful buys and sells of positive
    quantities, every holding has qty >= 0 and total_cost >= 0, and a holding
    with qty 0 has total_cost exactly 0. *)
Theorem reachable_holdings_ok o seed e :
  nonneg_quotes o ->
  reachable o seed e ->
  forall ticker h, dict_get ticker (portfolio e) = Some h ->
    (0 <= qty h)%Z /\ 0 <= total_cost h /\ (qty h = 0%Z -> total_cost h = 0).
Proof.
  intros O R. change (all_holdings holding_ok (portfolio e)).
  induction R as [|e ticker q r e' R IH Q B _|e ticker q r e' R IH Q B _].
  - apply all_holdings_nil.
  - pose proof (buy_keeps_holdings_ok o ticker q e O Q IH) as K.
    rewrite B in K. exact K.
  - pose proof (sell_keeps_holdings_ok o ticker q e Q IH) as K.
    rewrite B in K. exact K.
Qed.

Lemma nonneg_quotes_scenario : nonneg_quotes o_scenario.
Proof.
  intros n s p H. cbn [o_scenario last_price] in H.
  destruct (n <? 3)%nat; injection H as <-; apply Qc_ltb_ge; reflexivity.
Qed.

Lemma reachable_holdings_ok_witness :
  let e1 := snd (buy o_scenario "005930" 10 (fresh 10000000)) in
  let e2 := snd (sell o_scenario "005930" 10 e1) in
  let h := mkHolding 0 0 "005930" in
  dict_get "005930" (portfolio e2) = Some h
  /\ (0 <= qty h)%Z /\ 0 <= total_cost h /\ (qty h = 0%Z -> total_cost h = 0).
Proof.
  cbv zeta. split.
  - vm_compute. reflexivity.
  - apply (reachable_holdings_ok o_scenario 10000000
             (snd (sell o_scenario "005930" 10
                     (snd (buy o_scenario "005930" 10 (fresh 10000000)))))
             nonneg_quotes_scenario) with (ticker := "005930").
    + apply (reach_sell o_scenario 10000000
               (snd (buy o_scenario "005930" 10 (fresh 10000000)))
               "005930" 10 (success (msg_sold ++ "005930") (float 80000))).
      * apply (reach_buy o_scenario 10000000 (fresh 10000000)
                 "005930" 10 (success (msg_bought ++ "005930") (float 70000))).
        -- apply reach_fresh.
        -- lia.
        -- vm_compute. reflexivity.
        -- reflexivity.
      * lia.
      * vm_compute. reflexivity.
      * reflexivity.
    + vm_compute. reflexivity.
Defined.

(** ** Replay against the live account *)

(** One BUY row of the replay. *)
Lemma replay_row_buy row e :
  str_truthy (r_ticker row) = true -> r_type row = "BUY" ->
  replay_row row e
  = (Return tt,
     upd e (balance e - r_amount row)
       (bought (zfill 6 (r_ticker row)) (r_qty row) (r_amount row) (r_name row)
          (portfolio e))).
Proof.
  intros T B. unfold replay_row. rewrite T, B.
  cbn [negb String.eqb Ascii.eqb Bool.eqb].
  set (ticker := zfill 6 (r_ticker row)).
  rewrite (bind_Return _ _ _ _ _ (ensure_item_eq _ _ _)).
  rewrite (bind_Return _ _ _ (balance e)
             (upd e (balance e) (ensured ticker (r_name row) (portfolio e))))
    by reflexivity.
  rewrite (bind_Return _ _ _ tt
             (upd e (balance e - r_amount row)
                (ensured ticker (r_name row) (portfolio e))))
    by reflexivity.
  rewrite (add_units_eq ticker _ _ _
             (upd e (balance e - r_amount row)
                (ensured ticker (r_name row) (portfolio e)))
             _ (dict_get_ensured ticker (r_name row) (portfolio e))).
  unfold upd. cbn [seed_money balance portfolio sheet calls].
  rewrite dict_set_ensured. reflexivity.
Qed.

(** A successful [buy] of a kept ticker appends one row, and the replay of
    that row does to the account what the [buy] did. *)
Lemma buy_is_replayed o ticker q e r e' :
  buy o ticker q e = (Return r, e') -> status r = "success" ->
  exists row,
    sheet e' = (sheet e ++ [row])%list
    /\ r_ticker row = ticker
    /\ seed_money e' = seed_money e
    /\ (kept_ticker ticker ->
        forall rows trace,
          replay_row row (account_on e rows trace)
          = (Return tt, account_on e' rows trace)).
Proof.
  intros B S.
  destruct (not_price (last_price o (tick e) (symbol_of ticker))) eqn:P.
  { rewrite (buy_no_price o ticker q e P) in B. injection B as <- _. discriminate S. }
  apply not_price_false in P. destruct P as (p & P & N).
  destruct (Qclt_le_dec (balance e) (p * float q)) as [L|L].
  { rewrite (buy_no_funds o ticker q e p P N L) in B. injection B as <- _.
    discriminate S. }
  rewrite (buy_commit o ticker q e p P N L) in B.
  pose proof (append_then_return_frame o (buy_row o ticker q p e)
                (success (msg_bought ++ buy_name o ticker e) p)
                (buy_state o ticker q p e)) as F.
  cbv zeta in F. rewrite B in F. cbn [fst snd] in F.
  destruct F as (F1 & F2 & F3 & [(_ & F4)|(F4 & _)]); [|discriminate F4].
  exists (buy_row o ticker q p e).
  assert (SH : sheet (buy_state o ticker q p e) = sheet e).
  { unfold buy_state, buy_lookups.
    destruct (cached_name ticker (portfolio e)); reflexivity. }
  assert (SE : seed_money (buy_state o ticker q p e) = seed_money e).
  { unfold buy_state, buy_lookups.
    destruct (cached_name ticker (portfolio e)); reflexivity. }
  split; [rewrite F4, SH; reflexivity|].
  split; [reflexivity|]. split; [rewrite F1; exact SE|].
  intros (T & Z) rows trace.
  rewrite replay_row_buy by (cbn [buy_row r_ticker r_type]; auto).
  cbn [buy_row r_ticker r_qty r_amount r_name]. rewrite Z.
  unfold account_on, upd. cbn [seed_money balance portfolio sheet calls].
  rewrite F1, F2, F3, SE. reflexivity.
Qed.

(** The same for a successful [sell] of a positive quantity. *)
Lemma sell_is_replayed o ticker q e r e' :
  (0 < q)%Z ->
  sell o ticker q e = (Return r, e') -> status r = "success" ->
  exists row,
    sheet e' = (sheet e ++ [row])%list
    /\ r_ticker row = ticker
    /\ seed_money e' = seed_money e
    /\ (kept_ticker ticker ->
        forall rows trace,
          replay_row row (account_on e rows trace)
          = (Return tt, account_on e' rows trace)).
Proof.
  intros Q B S.
  destruct (dict_get ticker (portfolio e)) as [h|] eqn:G.
  2:{ rewrite sell_no_holding in B by (rewrite G; exact I).
      injection B as <- _. discriminate S. }
  destruct (Z.lt_ge_cases (qty h) q) as [L|L].
  { rewrite sell_no_holding in B by (rewrite G; exact L).
    injection B as <- _. discriminate S. }
  destruct (not_price (last_price o (tick e) (symbol_of ticker))) eqn:P.
  { rewrite (sell_no_price o ticker q e h G L P) in B. injection B as <- _.
    discriminate S. }
  apply not_price_false in P. destruct P as (p & P & N).
  rewrite (sell_commit o ticker q e h p G L P N) in B by lia.
  pose proof (append_then_return_frame o (sell_row o ticker q p h e)
                (success (msg_sold ++ name h) p)
                (sell_state ticker q p h e)) as F.
  cbv zeta in F. rewrite B in F. cbn [fst snd] in F.
  destruct F as (F1 & F2 & F3 & [(_ & F4)|(F4 & _)]); [|discriminate F4].
  exists (sell_row o ticker q p h e).
  split; [rewrite F4; reflexivity|].
  split; [reflexivity|]. split; [rewrite F1; reflexivity|].
  intros (T & Z) rows trace.
  assert (H : replay_holding (sell_row o ticker q p h e) (account_on e rows trace) = h).
  { unfold replay_holding. cbn [sell_row r_ticker account_on portfolio].
    rewrite Z, G. reflexivity. }
  rewrite replay_row_sell; [|exact T|reflexivity|rewrite H; cbn [sell_row r_qty]; lia].
  rewrite H. cbn [sell_row r_ticker r_qty r_amount]. rewrite Z.
  unfold account_on, upd. cbn [seed_money balance portfolio sheet calls].
  rewrite F1, F2, F3. reflexivity.
Qed.

(** Where every traded ticker is one that the replay keeps, the fold over the
    rows of the sheet rebuilds the balance and the holdings of the live
    account. *)
Lemma replay_rebuilds_kept_tickers o seed e :
  reachable o seed e ->
  Forall (fun row => kept_ticker (r_ticker row)) (sheet e) ->
  seed_money e = seed
  /\ forall rows trace,
       for_each (sheet e) replay_row (account_on (fresh seed) rows trace)
       = (Return tt, account_on e rows trace).
Proof.
  intros R. induction R as [|e ticker q r e' R IH Q B S|e ticker q r e' R IH Q B S];
    intros K.
  - split; reflexivity.
  - destruct (buy_is_replayed o ticker q e r e' B S) as (row & SH & T & SE & RP).
    rewrite SH in K. apply Forall_app in K. destruct K as [K1 K2].
    destruct (IH K1) as [IS IR]. split; [congruence|].
    intros rows trace. rewrite SH.
    rewrite (for_each_app _ _ _ _ _ (IR rows trace)), for_each_one.
    apply RP. inversion K2; subst. assumption.
  - destruct (sell_is_replayed o ticker q e r e' Q B S) as (row & SH & T & SE & RP).
    rewrite SH in K. apply Forall_app in K. destruct K as [K1 K2].
    destruct (IH K1) as [IS IR]. split; [congruence|].
    intros rows trace. rewrite SH.
    rewrite (for_each_app _ _ _ _ _ (IR rows trace)), for_each_one.
    apply RP. inversion K2; subst. assumption.
Qed.

Lemma get_all_records_ok o e :
  read_ok o (tick e) = true ->
  get_all_records o e = (Return (sheet e), log CallRead e).
Proof. intros H. unfold get_all_records. rewrite H. reflexivity. Qed.

Lemma get_all_records_fails o e :
  read_ok o (tick e) = false ->
  get_all_records o e = (Raise APIError, log CallRead e).
Proof. intros H. unfold get_all_records. rewrite H. reflexivity. Qed.

(** [_reconstruct_portfolio] once the rows were read, at the first attempt or
    at the second. *)
Lemma reconstruct_portfolio_eq o e :
  read_ok o (tick e) = true \/ read_ok o (S (tick e)) = true ->
  exists trace,
    _reconstruct_portfolio o e
    = for_each (sheet e) replay_row
        (account_on (fresh (seed_money e)) (sheet e) trace).
Proof.
  intros H. unfold _reconstruct_portfolio.
  destruct (read_ok o (tick e)) eqn:R1.
  - exists (calls (log CallRead e)).
    rewrite (bind_Return _ _ _ (sheet e) (log CallRead e)).
    + reflexivity.
    + unfold try_except. rewrite (get_all_records_ok o e R1). reflexivity.
  - destruct H as [H|H]; [discriminate H|].
    exists (calls (log CallRead (log CallRead e))).
    rewrite (bind_Return _ _ _ (sheet e) (log CallRead (log CallRead e))).
    + reflexivity.
    + unfold try_except. rewrite (get_all_records_fails o e R1).
      rewrite get_all_records_ok by (rewrite tick_log; exact H). reflexivity.
Qed.

(** Cold start on the sheet of a live account whose tickers are all kept:
    the balance and the holdings come back as they were. *)
Lemma reconstruct_rebuilds_kept_tickers o seed e :
  reachable o seed e ->
  Forall (fun row => kept_ticker (r_ticker row)) (sheet e) ->
  read_ok o (tick e) = true \/ read_ok o (S (tick e)) = true ->
  fst (_reconstruct_portfolio o e) = Return tt
  /\ same_account e (snd (_reconstruct_portfolio o e)).
Proof.
  intros R K H.
  destruct (reconstruct_portfolio_eq o e H) as (trace & E).
  destruct (replay_rebuilds_kept_tickers o seed e R K) as [S RP].
  rewrite E, S, RP. cbn [fst snd]. split; [reflexivity|].
  unfold same_account, account_on. cbn [seed_money balance portfolio sheet]. auto.
Qed.

(** C3 fails on the code for a ticker shorter than six characters: after a
    successful buy("AAPL", 1) on a fresh account the live holding is keyed
    "AAPL", and the replay of the one row that the buy appended keys it
    "00AAPL" ([zfill(6)] pads every ticker, not only the numeric ones), so the
    rebuilt account holds nothing under "AAPL". *)
Theorem replay_renames_short_ticker :
  let live := snd (buy o_aapl "AAPL" 1 (fresh 10000000)) in
  let rebuilt := snd (_reconstruct_portfolio o_aapl live) in
  fst (buy o_aapl "AAPL" 1 (fresh 10000000))
  = Return (success (msg_bought ++ "AAPL") (float 150))
  /\ fst (_reconstruct_portfolio o_aapl live) = Return tt
  /\ portfolio live = [("AAPL", mkHolding 1 (float 150) "AAPL")]
  /\ portfolio rebuilt = [("00AAPL", mkHolding 1 (float 150) "AAPL")]
  /\ dict_get "AAPL" (portfolio rebuilt) = None
  /\ portfolio rebuilt <> portfolio live
  /\ balance rebuilt = balance live.
Proof.
  cbv zeta.
  assert (L : portfolio (snd (buy o_aapl "AAPL" 1 (fresh 10000000)))
              = [("AAPL", mkHolding 1 (float 150) "AAPL")])
    by (vm_compute; reflexivity).
  assert (R : portfolio (snd (_reconstruct_portfolio o_aapl
                                (snd (buy o_aapl "AAPL" 1 (fresh 10000000)))))
              = [("00AAPL", mkHolding 1 (float 150) "AAPL")])
    by (vm_compute; reflexivity).
  split; [vm_compute; reflexivity|].
  split; [vm_compute; reflexivity|].
  split; [exact L|]. split; [exact R|].
  split; [rewrite R; reflexivity|].
  split; [rewrite R, L; discriminate|].
  vm_compute. reflexivity.
Qed.

(** ** The dashboard against its specification *)

Lemma log_quotes_frame ps e : same_account e (log_quotes ps e).
Proof.
  revert e. induction ps as [|[t h] ps IH]; intros e; cbn [log_quotes].
  - apply same_account_refl.
  - destruct (IH (quoted t e)) as (A & B & C & D).
    unfold same_account. rewrite A, B, C, D. auto.
Qed.

Lemma py_div_ok x y e : y <> 0 -> py_div x y e = (Return (x / y), e).
Proof.
  intros N. unfold py_div. apply Qc_eqb_neq in N. rewrite N. reflexivity.
Qed.

Lemma current_price_eq o n ticker :
  (if not_price (last_price o n (symbol_of ticker)) then 0
   else price_value (last_price o n (symbol_of ticker)))
  = spec_price o n ticker.
Proof.
  unfold spec_price.
  destruct (last_price o n (symbol_of ticker)) as [x|]; cbn [not_price price_value].
  - destruct (Qc_eqb x 0) eqn:E; [|reflexivity].
    apply Qc_eqb_eq in E. auto.
  - reflexivity.
Qed.

Lemma open_positions_cons t h ps :
  open_positions ((t, h) :: ps)
  = if (0 <? qty h)%Z then (t, h) :: open_positions ps else open_positions ps.
Proof. reflexivity. Qed.

(** * Further properties of the code *)

(** ** The retried append *)

Lemma calls_log_attempts row n e :
  calls (log_attempts row n e) = (calls e ++ repeat (CallAppend row) n)%list.
Proof.
  revert e. induction n as [|n IH]; intros e; cbn [log_attempts repeat].
  - rewrite app_nil_r. reflexivity.
  - rewrite IH. unfold log. cbn [calls]. rewrite <- app_assoc. reflexivity.
Qed.

Lemma all_fail_3 o t :
  all_fail o t 3
  = negb (append_ok o t || append_ok o (S t) || append_ok o (S (S t))).
Proof.
  cbn [all_fail].
  destruct (append_ok o t), (append_ok o (S t)), (append_ok o (S (S t)));
    reflexivity.
Qed.

(** X1: [_safe_append_row] returns exactly when one of its three attempts is
    accepted, and the sheet then holds the row once, at its end; when all
    three are refused it raises [RetryError] and the sheet is as before.  In
    both cases the seed, the balance and the holdings are not touched. *)
Theorem safe_append_row_outcome o row e :
  let t := tick e in
  let out := _safe_append_row o row e in
  seed_money (snd out) = seed_money e
  /\ balance (snd out) = balance e
  /\ portfolio (snd out) = portfolio e
  /\ (append_ok o t || append_ok o (S t) || append_ok o (S (S t)) = true ->
      fst out = Return tt /\ sheet (snd out) = (sheet e ++ [row])%list)
  /\ (append_ok o t || append_ok o (S t) || append_ok o (S (S t)) = false ->
      fst out = Raise RetryError /\ sheet (snd out) = sheet e).
Proof.
  cbv zeta.
  destruct (safe_append_row_frame o row e) as (A & B & C). cbv zeta in A, B, C.
  split; [exact A|]. split; [exact B|]. split; [exact C|].
  unfold _safe_append_row.
  destruct (retry_append_cases o row 3 e) as [(k & R & E)|(F & R)].
  - split.
    + intros _. split; [exact R|]. rewrite E.
      unfold stored. cbn [sheet].
      destruct (log_attempts_frame row (S k) e) as (_ & _ & _ & D).
      rewrite D. reflexivity.
    + intros H.
      assert (F : all_fail o (tick e) 3 = true) by (rewrite all_fail_3, H; reflexivity).
      rewrite (retry_exhausted o row 3 e F) in R. discriminate R.
  - rewrite all_fail_3 in F. apply negb_true_iff in F. split.
    + intros H. rewrite H in F. discriminate F.
    + intros _. rewrite R. cbn [fst snd]. split; [reflexivity|].
      apply (log_attempts_frame row 3 e).
Qed.

Lemma safe_append_row_outcome_witness :
  let o := mkOracle (fun _ _ => None) (fun _ _ => None) (fun _ => "")
             (fun n => (2 <=? n)%nat) (fun _ => true) in
  let row := mkRow "" "BUY" "005930" "" 0 1 0 0 in
  fst (_safe_append_row o row (fresh 100)) = Return tt
  /\ sheet (snd (_safe_append_row o row (fresh 100))) = [row]
  /\ fst (_safe_append_row (o_const None false) row (fresh 100)) = Raise RetryError
  /\ sheet (snd (_safe_append_row (o_const None false) row (fresh 100))) = [].
Proof.
  cbv zeta.
  destruct (safe_append_row_outcome
              (mkOracle (fun _ _ => None) (fun _ _ => None) (fun _ => "")
                 (fun n => (2 <=? n)%nat) (fun _ => true))
              (mkRow "" "BUY" "005930" "" 0 1 0 0) (fresh 100))
    as (_ & _ & _ & A & _).
  destruct (safe_append_row_outcome (o_const None false)
              (mkRow "" "BUY" "005930" "" 0 1 0 0) (fresh 100))
    as (_ & _ & _ & _ & B).
  destruct (A eq_refl) as [A1 A2]. destruct (B eq_refl) as [B1 B2].
  repeat split; assumption.
Defined.

(** X2: [_safe_append_row] makes at least one and at most three attempts, all
    with the same row and nothing else in between, and it stops at the first
    attempt that is accepted. *)
Theorem safe_append_row_attempts o row e :
  let out := _safe_append_row o row e in
  exists k,
    (1 <= k <= 3)%nat
    /\ calls (snd out) = (calls e ++ repeat (CallAppend row) k)%list
    /\ (forall j, (j < k - 1)%nat -> append_ok o (tick e + j) = false)
    /\ (fst out = Return tt -> append_ok o (tick e + (k - 1)) = true).
Proof.
  cbv zeta. unfold _safe_append_row.
  assert (G : forall n e,
             (0 < n)%nat ->
             exists k,
               (1 <= k <= n)%nat
               /\ calls (snd (retry n (append_row o row) e))
                  = (calls e ++ repeat (CallAppend row) k)%list
               /\ (forall j, (j < k - 1)%nat -> append_ok o (tick e + j) = false)
               /\ (fst (retry n (append_row o row) e) = Return tt ->
                   append_ok o (tick e + (k - 1)) = true)).
  { induction n as [|n IH]; intros e0 P; [lia|].
    cbn [retry]. unfold try_except.
    destruct (append_ok o (tick e0)) eqn:A.
    - rewrite (append_row_ok _ _ _ A). exists 1%nat. cbn [fst snd].
      split; [lia|]. split; [reflexivity|]. split; [intros j J; lia|].
      intros _. rewrite Nat.add_0_r. exact A.
    - rewrite (append_row_fails _ _ _ A).
      destruct n as [|n].
      + exists 1%nat. cbn [retry raise fst snd].
        split; [lia|]. split; [reflexivity|]. split; [intros j J; lia|].
        discriminate.
      + destruct (IH (log (CallAppend row) e0) ltac:(lia)) as (k & K & C & F & R).
        exists (S k). split; [lia|]. split.
        * rewrite C. unfold log. cbn [calls repeat]. rewrite <- app_assoc.
          reflexivity.
        * rewrite tick_log in F, R. split.
          -- intros j J. destruct j as [|j].
             ++ rewrite Nat.add_0_r. exact A.
             ++ replace (tick e0 + S j)%nat with (S (tick e0) + j)%nat by lia.
                apply F. lia.
          -- intros H. specialize (R H).
             replace (tick e0 + (S k - 1))%nat with (S (tick e0) + (k - 1))%nat by lia.
             exact R. }
  apply G. lia.
Qed.

(** ** Every path through a trade *)

(** [sell] past its checks when units remain although none were held: the
    average divides by zero, after the credit and the change of quantity. *)
Lemma sell_zero_division o ticker q e h p :
  dict_get ticker (portfolio e) = Some h -> (q <= qty h)%Z ->
  last_price o (tick e) (symbol_of ticker) = Some p -> p <> 0 ->
  (0 < qty h - q)%Z -> qty h = 0%Z ->
  sell o ticker q e
  = (Raise ZeroDivisionError,
     upd (quoted ticker e) (balance e + p * float q)
       (dict_set ticker (with_qty (qty h - q) h) (portfolio e))).
Proof.
  intros G Q H N P Z0. unfold sell.
  rewrite (bind_Return _ _ _ (portfolio e) e) by reflexivity.
  rewrite G. apply Z.ltb_ge in Q. rewrite Q.
  rewrite (bind_Return _ _ _ _ _ (get_current_price_eq o ticker e)).
  cbn [fst snd]. rewrite H. cbn [not_price price_value].
  apply Qc_eqb_neq in N. rewrite N.
  rewrite (bind_Return _ _ _ h (quoted ticker e)) by (apply get_item_eq; exact G).
  rewrite (bind_Return _ _ _ (clock o (S (tick e))) (quoted ticker e))
    by (unfold now, quoted; rewrite tick_log; reflexivity).
  rewrite (bind_Return _ _ _ (balance e) (quoted ticker e)) by reflexivity.
  rewrite (bind_Return _ _ _ tt
             (upd (quoted ticker e) (balance e + p * float q) (portfolio e)))
    by reflexivity.
  apply bind_Raise.
  rewrite (reduce_position_raises ticker q
             (upd (quoted ticker e) (balance e + p * float q) (portfolio e))
             h G P Z0).
  reflexivity.
Qed.

(** The three ways out of [buy]. *)
Lemma buy_outcomes o ticker q e :
  (exists m, buy o ticker q e = (Return (fail m), quoted ticker e))
  \/ (exists p,
        last_price o (tick e) (symbol_of ticker) = Some p /\ p <> 0
        /\ p * float q <= balance e
        /\ seed_money (snd (buy o ticker q e)) = seed_money e
        /\ balance (snd (buy o ticker q e)) = balance e - p * float q
        /\ portfolio (snd (buy o ticker q e))
           = bought ticker q (p * float q) (buy_name o ticker e) (portfolio e)
        /\ ((fst (buy o ticker q e)
             = Return (success (msg_bought ++ buy_name o ticker e) p)
             /\ sheet (snd (buy o ticker q e))
                = (sheet e ++ [buy_row o ticker q p e])%list)
            \/ (fst (buy o ticker q e) = Raise RetryError
                /\ sheet (snd (buy o ticker q e)) = sheet e))).
Proof.
  destruct (not_price (last_price o (tick e) (symbol_of ticker))) eqn:P.
  { left. exists msg_price_buy. apply buy_no_price. exact P. }
  apply not_price_false in P. destruct P as (p & P & N).
  destruct (Qclt_le_dec (balance e) (p * float q)) as [L|L].
  { left. exists msg_funds. apply (buy_no_funds o ticker q e p P N L). }
  right. exists p. split; [exact P|]. split; [exact N|]. split; [exact L|].
  rewrite (buy_commit o ticker q e p P N L).
  destruct (append_then_return_frame o (buy_row o ticker q p e)
              (success (msg_bought ++ buy_name o ticker e) p)
              (buy_state o ticker q p e)) as (F1 & F2 & F3 & F4).
  cbv zeta in F1, F2, F3, F4.
  assert (SE : seed_money (buy_state o ticker q p e) = seed_money e
               /\ sheet (buy_state o ticker q p e) = sheet e).
  { unfold buy_state, buy_lookups.
    destruct (cached_name ticker (portfolio e)); split; reflexivity. }
  destruct SE as [SE SH].
  split; [rewrite F1; exact SE|]. split; [exact F2|]. split; [exact F3|].
  destruct F4 as [(R & S)|(R & S & _)].
  - left. split; [exact R|]. rewrite S, SH. reflexivity.
  - right. split; [exact R|]. rewrite S. exact SH.
Qed.

(** The four ways out of [sell]. *)
Lemma sell_outcomes o ticker q e :
  (sell o ticker q e = (Return (fail msg_holding), e)
   /\ match dict_get ticker (portfolio e) with
      | None => True
      | Some h => (qty h < q)%Z
      end)
  \/ (exists h,
        dict_get ticker (portfolio e) = Some h /\ (q <= qty h)%Z
        /\ ((not_price (last_price o (tick e) (symbol_of ticker)) = true
             /\ sell o ticker q e = (Return (fail msg_price_sell), quoted ticker e))
            \/ (exists p,
                  last_price o (tick e) (symbol_of ticker) = Some p /\ p <> 0
                  /\ (((0 < qty h - q)%Z -> qty h <> 0%Z)
                      /\ seed_money (snd (sell o ticker q e)) = seed_money e
                      /\ balance (snd (sell o ticker q e)) = balance e + p * float q
                      /\ portfolio (snd (sell o ticker q e))
                         = dict_set ticker (sold q h) (portfolio e)
                      /\ ((fst (sell o ticker q e)
                           = Return (success (msg_sold ++ name h) p)
                           /\ sheet (snd (sell o ticker q e))
                              = (sheet e ++ [sell_row o ticker q p h e])%list)
                          \/ (fst (sell o ticker q e) = Raise RetryError
                              /\ sheet (snd (sell o ticker q e)) = sheet e))
                      \/ ((0 < qty h - q)%Z /\ qty h = 0%Z
                          /\ sell o ticker q e
                             = (Raise ZeroDivisionError,
                                upd (quoted ticker e) (balance e + p * float q)
                                  (dict_set ticker (with_qty (qty h - q) h)
                                     (portfolio e)))))))).
Proof.
  destruct (dict_get ticker (portfolio e)) as [h|] eqn:G.
  2:{ left. split; [|exact I]. apply sell_no_holding. rewrite G. exact I. }
  destruct (Z.lt_ge_cases (qty h) q) as [L|L].
  { left. split; [|exact L]. apply sell_no_holding. rewrite G. exact L. }
  right. exists h. split; [reflexivity|]. split; [exact L|].
  destruct (not_price (last_price o (tick e) (symbol_of ticker))) eqn:P.
  { left. split; [reflexivity|]. apply (sell_no_price o ticker q e h G L P). }
  right. apply not_price_false in P. destruct P as (p & P & N).
  exists p. split; [exact P|]. split; [exact N|].
  destruct (Z_lt_le_dec 0 (qty h - q)) as [R|R];
    [destruct (Z.eq_dec (qty h) 0) as [Z0|Z0]|].
  - right. split; [exact R|]. split; [exact Z0|].
    apply (sell_zero_division o ticker q e h p G L P N R Z0).
  - left. split; [intros _; exact Z0|].
    rewrite (sell_commit o ticker q e h p G L P N) by (intros _; exact Z0).
    destruct (append_then_return_frame o (sell_row o ticker q p h e)
                (success (msg_sold ++ name h) p)
                (sell_state ticker q p h e)) as (F1 & F2 & F3 & F4).
    cbv zeta in F1, F2, F3, F4.
    split; [exact F1|]. split; [exact F2|]. split; [exact F3|].
    destruct F4 as [(A & S)|(A & S & _)]; [left|right]; split; assumption.
  - left. split; [intros C; lia|].
    rewrite (sell_commit o ticker q e h p G L P N) by (intros C; lia).
    destruct (append_then_return_frame o (sell_row o ticker q p h e)
                (success (msg_sold ++ name h) p)
                (sell_state ticker q p h e)) as (F1 & F2 & F3 & F4).
    cbv zeta in F1, F2, F3, F4.
    split; [exact F1|]. split; [exact F2|]. split; [exact F3|].
    destruct F4 as [(A & S)|(A & S & _)]; [left|right]; split; assumption.
Qed.

Lemma float_sub (a b : Z) : float (a - b) = float a - float b.
Proof.
  unfold float. apply Qc_is_canon.
  unfold Qcminus, Qcplus, Qcopp. cbn [this Q2Qc].
  rewrite !Qred_correct. unfold Qeq. simpl. lia.
Qed.

Lemma all_fail_accepting o t n :
  (forall k, append_ok o k = true) -> all_fail o t (S n) = false.
Proof. intros H. cbn [all_fail]. rewrite H. reflexivity. Qed.

(** ** The trades that go through *)

(** X3: with a usable quote, enough cash and a sheet that accepts the row,
    [buy] returns the success receipt with the execution price, takes
    price * qty off the balance, adds qty and price * qty to the holding of
    the ticker (created empty if there was none), and appends a BUY row that
    carries these figures and the new balance. *)
Theorem buy_success o ticker q e p :
  last_price o (tick e) (symbol_of ticker) = Some p -> p <> 0 ->
  p * float q <= balance e ->
  (forall n, append_ok o n = true) ->
  let out := buy o ticker q e in
  let held := match dict_get ticker (portfolio e) with
              | Some h => h
              | None => mkHolding 0 0 ""
              end in
  exists nm t,
    fst out = Return (mkReceipt "success" (msg_bought ++ nm) (Some p))
    /\ balance (snd out) = balance e - p * float q
    /\ dict_get ticker (portfolio (snd out))
       = Some (mkHolding (qty held + q) (total_cost held + p * float q) nm)
    /\ sheet (snd out)
       = (sheet e
          ++ [mkRow t "BUY" ticker nm p q (p * float q) (balance e - p * float q)])%list.
Proof.
  intros H N L A. cbv zeta.
  exists (buy_name o ticker e), (clock o (tick (buy_lookups ticker e))).
  rewrite (buy_commit o ticker q e p H N L).
  destruct (append_then_return_frame o (buy_row o ticker q p e)
              (success (msg_bought ++ buy_name o ticker e) p)
              (buy_state o ticker q p e)) as (_ & F2 & F3 & F4).
  cbv zeta in F2, F3, F4.
  destruct F4 as [(R & S)|(_ & _ & F)];
    [|rewrite (all_fail_accepting o _ 2 A) in F; discriminate F].
  split; [exact R|]. split; [exact F2|]. split.
  - rewrite F3. cbn [buy_state upd portfolio]. unfold bought.
    rewrite dict_get_set_same.
    destruct (dict_get ticker (portfolio e)); reflexivity.
  - assert (SH : sheet (buy_state o ticker q p e) = sheet e).
    { unfold buy_state, buy_lookups.
      destruct (cached_name ticker (portfolio e)); reflexivity. }
    rewrite S, SH. reflexivity.
Qed.

Lemma buy_success_witness :
  let out := buy o_scenario "005930" 10 (fresh 10000000) in
  exists nm t,
    fst out = Return (mkReceipt "success" (msg_bought ++ nm) (Some (float 70000)))
    /\ balance (snd out) = balance (fresh 10000000) - float 70000 * float 10
    /\ dict_get "005930" (portfolio (snd out))
       = Some (mkHolding (0 + 10) (0 + float 70000 * float 10) nm)
    /\ sheet (snd out)
       = ([] ++ [mkRow t "BUY" "005930" nm (float 70000) 10 (float 70000 * float 10)
                   (balance (fresh 10000000) - float 70000 * float 10)])%list.
Proof.
  cbv zeta.
  apply (buy_success o_scenario "005930" 10 (fresh 10000000) (float 70000)).
  - reflexivity.
  - apply Qc_eqb_neq. reflexivity.
  - apply Qc_ltb_ge. reflexivity.
  - intros n. reflexivity.
Defined.

(** X4: with enough units held, a usable quote and a sheet that accepts the
    row, [sell] of a positive quantity returns the success receipt with the
    execution price, adds price * qty to the balance, takes qty off the
    holding, leaves it the cost basis of the units that remain (0 if none
    remain), keeps its name, and appends a SELL row that carries these figures
    and the new balance. *)
Theorem sell_success o ticker q e h p :
  dict_get ticker (portfolio e) = Some h -> (0 < q <= qty h)%Z ->
  last_price o (tick e) (symbol_of ticker) = Some p -> p <> 0 ->
  (forall n, append_ok o n = true) ->
  let out := sell o ticker q e in
  exists t,
    fst out = Return (mkReceipt "success" (msg_sold ++ name h) (Some p))
    /\ balance (snd out) = balance e + p * float q
    /\ dict_get ticker (portfolio (snd out))
       = Some (mkHolding (qty h - q)
                 (if (q <? qty h)%Z
                  then total_cost h - total_cost h / float (qty h) * float q
                  else 0)
                 (name h))
    /\ sheet (snd out)
       = (sheet e
          ++ [mkRow t "SELL" ticker (name h) p q (p * float q)
                (balance e + p * float q)])%list.
Proof.
  intros G Q H N A. cbv zeta. exists (clock o (S (tick e))).
  rewrite (sell_commit o ticker q e h p G) by (auto; lia).
  destruct (append_then_return_frame o (sell_row o ticker q p h e)
              (success (msg_sold ++ name h) p)
              (sell_state ticker q p h e)) as (_ & F2 & F3 & F4).
  cbv zeta in F2, F3, F4.
  destruct F4 as [(R & S)|(_ & _ & F)];
    [|rewrite (all_fail_accepting o _ 2 A) in F; discriminate F].
  split; [exact R|]. split; [exact F2|]. split.
  - rewrite F3. cbn [sell_state upd portfolio]. rewrite dict_get_set_same.
    unfold sold. replace (0 <? qty h - q)%Z with (q <? qty h)%Z; [reflexivity|].
    destruct (Z.ltb_spec q (qty h)), (Z.ltb_spec 0 (qty h - q)); auto; lia.
  - rewrite S. reflexivity.
Qed.

Lemma sell_success_witness :
  let e := mkEnv 10000000 (float 9300000)
             [("005930", mkHolding 10 (float 700000) "Samsung")] [] [] in
  let out := sell o_scenario "005930" 4 e in
  exists t,
    fst out = Return (mkReceipt "success" (msg_sold ++ "Samsung") (Some (float 70000)))
    /\ balance (snd out) = float 9300000 + float 70000 * float 4
    /\ dict_get "005930" (portfolio (snd out))
       = Some (mkHolding (10 - 4)
                 (if (4 <? 10)%Z
                  then float 700000 - float 700000 / float 10 * float 4
                  else 0)
                 "Samsung")
    /\ sheet (snd out)
       = ([] ++ [mkRow t "SELL" "005930" "Samsung" (float 70000) 4
                   (float 70000 * float 4) (float 9300000 + float 70000 * float 4)])%list.
Proof.
  cbv zeta.
  apply (sell_success o_scenario "005930" 4
           (mkEnv 10000000 (float 9300000)
              [("005930", mkHolding 10 (float 700000) "Samsung")] [] [])
           (mkHolding 10 (float 700000) "Samsung") (float 70000)).
  - reflexivity.
  - cbn [qty]. lia.
  - reflexivity.
  - apply Qc_eqb_neq. reflexivity.
  - intros n. reflexivity.
Defined.

(** ** What a receipt tells *)

(** X6: a receipt that [buy] returns is either a failure, and then it carries
    no price and the seed, the balance, the holdings and the ledger are as
    before, or a success, and then the ledger has gained exactly one row: a
    BUY row for this ticker and quantity, at the price of the receipt, with
    amount = price * qty and balance_after = the new balance = the old balance
    less the amount. *)
Theorem buy_receipt o ticker q e r e' :
  buy o ticker q e = (Return r, e') ->
  (status r = "fail" /\ price r = None /\ same_account e e')
  \/ (status r = "success"
      /\ exists row,
           sheet e' = (sheet e ++ [row])%list
           /\ price r = Some (r_price row)
           /\ r_type row = "BUY" /\ r_ticker row = ticker /\ r_qty row = q
           /\ r_amount row = r_price row * float q
           /\ r_balance_after row = balance e'
           /\ balance e' = balance e - r_amount row
           /\ seed_money e' = seed_money e).
Proof.
  intros B.
  destruct (buy_outcomes o ticker q e) as [(m & F)|(p & _ & _ & _ & SE & BA & _ & C)].
  - rewrite F in B. injection B as <- <-. left.
    split; [reflexivity|]. split; [reflexivity|apply same_account_quoted].
  - rewrite B in SE, BA, C. cbn [fst snd] in SE, BA, C.
    destruct C as [(R & S)|(R & _)]; [|discriminate R].
    injection R as ->. right. split; [reflexivity|].
    exists (buy_row o ticker q p e). cbn [buy_row r_price r_type r_ticker r_qty
                                          r_amount r_balance_after success price].
    rewrite BA. repeat (split; [reflexivity || assumption|]). exact SE.
Qed.

Lemma buy_receipt_witness :
  let e' := snd (buy o_scenario "005930" 10 (fresh 10000000)) in
  let r := success (msg_bought ++ "005930") (float 70000) in
  (status r = "fail" /\ price r = None /\ same_account (fresh 10000000) e')
  \/ (status r = "success"
      /\ exists row,
           sheet e' = ([] ++ [row])%list
           /\ price r = Some (r_price row)
           /\ r_type row = "BUY" /\ r_ticker row = "005930" /\ r_qty row = 10%Z
           /\ r_amount row = r_price row * float 10
           /\ r_balance_after row = balance e'
           /\ balance e' = float 10000000 - r_amount row
           /\ seed_money e' = 10000000%Z).
Proof.
  cbv zeta.
  apply (buy_receipt o_scenario "005930" 10 (fresh 10000000)).
  vm_compute. reflexivity.
Defined.

(** X7: a receipt that [sell] returns is either a failure, and then it carries
    no price and the seed, the balance, the holdings and the ledger are as
    before, or a success, and then the ledger has gained exactly one row: a
    SELL row for this ticker and quantity, at the price of the receipt, with
    amount = price * qty and balance_after = the new balance = the old balance
    plus the amount. *)
Theorem sell_receipt o ticker q e r e' :
  sell o ticker q e = (Return r, e') ->
  (status r = "fail" /\ price r = None /\ same_account e e')
  \/ (status r = "success"
      /\ exists row,
           sheet e' = (sheet e ++ [row])%list
           /\ price r = Some (r_price row)
           /\ r_type row = "SELL" /\ r_ticker row = ticker /\ r_qty row = q
           /\ r_amount row = r_price row * float q
           /\ r_balance_after row = balance e'
           /\ balance e' = balance e + r_amount row
           /\ seed_money e' = seed_money e).
Proof.
  intros B.
  destruct (sell_outcomes o ticker q e)
    as [(F & _)|(h & _ & _ & [(_ & F)|(p & _ & _ & [(_ & SE & BA & _ & C)|(_ & _ & F)])])].
  - rewrite F in B. injection B as <- <-. left.
    split; [reflexivity|]. split; [reflexivity|apply same_account_refl].
  - rewrite F in B. injection B as <- <-. left.
    split; [reflexivity|]. split; [reflexivity|apply same_account_quoted].
  - rewrite B in SE, BA, C. cbn [fst snd] in SE, BA, C.
    destruct C as [(R & S)|(R & _)]; [|discriminate R].
    injection R as ->. right. split; [reflexivity|].
    exists (sell_row o ticker q p h e). cbn [sell_row r_price r_type r_ticker r_qty
                                             r_amount r_balance_after success price].
    rewrite BA. repeat (split; [reflexivity || assumption|]). exact SE.
  - rewrite F in B. discriminate B.
Qed.

Lemma sell_receipt_witness :
  let e := mkEnv 10000000 (float 9300000)
             [("005930", mkHolding 10 (float 700000) "Samsung")] [] [] in
  let e' := snd (sell o_scenario "005930" 4 e) in
  let r := success (msg_sold ++ "Samsung") (float 70000) in
  (status r = "fail" /\ price r = None /\ same_account e e')
  \/ (status r = "success"
      /\ exists row,
           sheet e' = ([] ++ [row])%list
           /\ price r = Some (r_price row)
           /\ r_type row = "SELL" /\ r_ticker row = "005930" /\ r_qty row = 4%Z
           /\ r_amount row = r_price row * float 4
           /\ r_balance_after row = balance e'
           /\ balance e' = float 9300000 + r_amount row
           /\ seed_money e' = 10000000%Z).
Proof.
  cbv zeta.
  apply (sell_receipt o_scenario "005930" 4
           (mkEnv 10000000 (float 9300000)
              [("005930", mkHolding 10 (float 700000) "Samsung")] [] [])).
  vm_compute. reflexivity.
Defined.

(** ** What a trade leaves alone *)

Lemma dict_mem_set_keeps k k' v d :
  dict_mem k d = true -> dict_mem k (dict_set k' v d) = true.
Proof.
  unfold dict_mem. intros H.
  destruct (String.eqb_spec k' k) as [->|N].
  - rewrite dict_get_set_same. reflexivity.
  - rewrite dict_get_set_other by exact N. exact H.
Qed.

Lemma dict_mem_bought k ticker q amount nm d :
  dict_mem k d = true -> dict_mem k (bought ticker q amount nm d) = true.
Proof. intros H. unfold bought. apply dict_mem_set_keeps. exact H. Qed.

Lemma dict_get_bought_other k ticker q amount nm d :
  ticker <> k -> dict_get k (bought ticker q amount nm d) = dict_get k d.
Proof. intros N. unfold bought. apply dict_get_set_other. exact N. Qed.

(** X9: whatever their arguments and however they end, [buy] and [sell]
    touch no holding but the one of their ticker. *)
Theorem trade_touches_one_ticker o ticker q e k :
  ticker <> k ->
  dict_get k (portfolio (snd (buy o ticker q e))) = dict_get k (portfolio e)
  /\ dict_get k (portfolio (snd (sell o ticker q e))) = dict_get k (portfolio e).
Proof.
  intros N. split.
  - destruct (buy_outcomes o ticker q e) as [(m & F)|(p & _ & _ & _ & _ & _ & P & _)].
    + rewrite F. reflexivity.
    + rewrite P. apply dict_get_bought_other. exact N.
  - destruct (sell_outcomes o ticker q e)
      as [(F & _)|(h & _ & _ & [(_ & F)|(p & _ & _ & [(_ & _ & _ & P & _)|(_ & _ & F)])])].
    + rewrite F. reflexivity.
    + rewrite F. reflexivity.
    + rewrite P. apply dict_get_set_other. exact N.
    + rewrite F. cbn [snd upd portfolio]. apply dict_get_set_other. exact N.
Qed.

Lemma trade_touches_one_ticker_witness :
  let e := mkEnv 10000000 (float 9300000)
             [("005930", mkHolding 10 (float 700000) "Samsung")] [] [] in
  dict_get "005930" (portfolio (snd (buy o_aapl "AAPL" 3 e)))
  = Some (mkHolding 10 (float 700000) "Samsung")
  /\ dict_get "005930" (portfolio (snd (sell o_aapl "AAPL" 3 e)))
     = Some (mkHolding 10 (float 700000) "Samsung").
Proof.
  cbv zeta.
  apply (trade_touches_one_ticker o_aapl "AAPL" 3
           (mkEnv 10000000 (float 9300000)
              [("005930", mkHolding 10 (float 700000) "Samsung")] [] [])
           "005930").
  discriminate.
Defined.

(** X10: the ledger is append-only under trading.  Whatever their arguments
    and however they end, [buy] and [sell] leave the rows of the sheet as they
    were, or add one row at the end; a row is added only when the success
    receipt is returned. *)
Theorem ledger_append_only o ticker q e :
  (sheet (snd (buy o ticker q e)) = sheet e
   \/ exists row r,
        sheet (snd (buy o ticker q e)) = (sheet e ++ [row])%list
        /\ fst (buy o ticker q e) = Return r /\ status r = "success")
  /\ (sheet (snd (sell o ticker q e)) = sheet e
      \/ exists row r,
           sheet (snd (sell o ticker q e)) = (sheet e ++ [row])%list
           /\ fst (sell o ticker q e) = Return r /\ status r = "success").
Proof.
  split.
  - destruct (buy_outcomes o ticker q e) as [(m & F)|(p & _ & _ & _ & _ & _ & _ & C)].
    + left. rewrite F. reflexivity.
    + destruct C as [(R & S)|(_ & S)]; [right|left; exact S].
      exists (buy_row o ticker q p e), (success (msg_bought ++ buy_name o ticker e) p).
      split; [exact S|]. split; [exact R|reflexivity].
  - destruct (sell_outcomes o ticker q e)
      as [(F & _)|(h & _ & _ & [(_ & F)|(p & _ & _ & [(_ & _ & _ & _ & C)|(_ & _ & F)])])].
    + left. rewrite F. reflexivity.
    + left. rewrite F. reflexivity.
    + destruct C as [(R & S)|(_ & S)]; [right|left; exact S].
      exists (sell_row o ticker q p h e), (success (msg_sold ++ name h) p).
      split; [exact S|]. split; [exact R|reflexivity].
    + left. rewrite F. reflexivity.
Qed.

(** X11: no trade removes a holding.  Whatever their arguments and however
    they end, [buy] and [sell] keep every ticker that the portfolio had; a
    position that is sold out stays in the dict. *)
Theorem trade_keeps_tickers o ticker q e k :
  dict_mem k (portfolio e) = true ->
  dict_mem k (portfolio (snd (buy o ticker q e))) = true
  /\ dict_mem k (portfolio (snd (sell o ticker q e))) = true.
Proof.
  intros H. split.
  - destruct (buy_outcomes o ticker q e) as [(m & F)|(p & _ & _ & _ & _ & _ & P & _)].
    + rewrite F. exact H.
    + rewrite P. apply dict_mem_bought. exact H.
  - destruct (sell_outcomes o ticker q e)
      as [(F & _)|(h & _ & _ & [(_ & F)|(p & _ & _ & [(_ & _ & _ & P & _)|(_ & _ & F)])])].
    + rewrite F. exact H.
    + rewrite F. exact H.
    + rewrite P. apply dict_mem_set_keeps. exact H.
    + rewrite F. cbn [snd upd portfolio]. apply dict_mem_set_keeps. exact H.
Qed.

Lemma trade_keeps_tickers_witness :
  let e := mkEnv 10000000 (float 9300000)
             [("005930", mkHolding 10 (float 700000) "Samsung")] [] [] in
  dict_mem "005930" (portfolio (snd (buy o_scenario "005930" 10 e))) = true
  /\ dict_mem "005930" (portfolio (snd (sell o_scenario "005930" 10 e))) = true.
Proof.
  cbv zeta.
  apply (trade_keeps_tickers o_scenario "005930" 10
           (mkEnv 10000000 (float 9300000)
              [("005930", mkHolding 10 (float 700000) "Samsung")] [] [])
           "005930").
  reflexivity.
Defined.

(** ** The name that a purchase records *)

Lemma calls_after_append o row (r : Receipt) e :
  exists k,
    calls (snd ((_safe_append_row o row ;; ret r) e))
    = (calls e ++ repeat (CallAppend row) k)%list.
Proof.
  destruct (append_then_return o row r e) as [(k & R)|(_ & R)];
    cbv zeta in R; rewrite R; cbn [snd].
  - exists (S k). unfold stored. cbn [calls]. apply calls_log_attempts.
  - exists 3%nat. apply calls_log_attempts.
Qed.

(** X8: a purchase that passes its checks asks for the name of the security
    only when the portfolio has no usable one.  With a holding of the ticker
    that has a name, the external calls are the quote and the appends, and the
    holding keeps that name; otherwise there is one name lookup, right after
    the quote, and the holding is named by its answer, or by the ticker itself
    when the lookup fails. *)
Theorem buy_name_lookup o ticker q e p :
  last_price o (tick e) (symbol_of ticker) = Some p -> p <> 0 ->
  p * float q <= balance e ->
  let sym := symbol_of ticker in
  let out := buy o ticker q e in
  exists row k h',
    dict_get ticker (portfolio (snd out)) = Some h'
    /\ match dict_get ticker (portfolio e) with
       | Some h =>
           if str_truthy (name h)
           then name h' = name h
                /\ calls (snd out)
                   = (calls e ++ CallQuote sym :: repeat (CallAppend row) k)%list
           else name h' = match short_name o (S (tick e)) sym with
                          | Some n => n
                          | None => ticker
                          end
                /\ calls (snd out)
                   = (calls e ++ CallQuote sym :: CallInfo sym
                        :: repeat (CallAppend row) k)%list
       | None =>
           name h' = match short_name o (S (tick e)) sym with
                     | Some n => n
                     | None => ticker
                     end
           /\ calls (snd out)
              = (calls e ++ CallQuote sym :: CallInfo sym
                   :: repeat (CallAppend row) k)%list
       end.
Proof.
  intros H N L. cbv zeta.
  rewrite (buy_commit o ticker q e p H N L).
  destruct (calls_after_append o (buy_row o ticker q p e)
              (success (msg_bought ++ buy_name o ticker e) p)
              (buy_state o ticker q p e)) as (k & C).
  destruct (append_then_return_frame o (buy_row o ticker q p e)
              (success (msg_bought ++ buy_name o ticker e) p)
              (buy_state o ticker q p e)) as (_ & _ & F3 & _).
  cbv zeta in F3.
  exists (buy_row o ticker q p e), k,
    (mkHolding
       (qty (match dict_get ticker (portfolio e) with
             | Some h => h
             | None => mkHolding 0 0 (buy_name o ticker e)
             end) + q)
       (total_cost (match dict_get ticker (portfolio e) with
                    | Some h => h
                    | None => mkHolding 0 0 (buy_name o ticker e)
                    end) + p * float q)
       (buy_name o ticker e)).
  split.
  { rewrite F3. cbn [buy_state upd portfolio]. unfold bought.
    apply dict_get_set_same. }
  rewrite C. cbn [name].
  assert (CB : calls (buy_state o ticker q p e) = calls (buy_lookups ticker e))
    by reflexivity.
  rewrite CB. unfold buy_name, buy_lookups, cached_name.
  destruct (dict_get ticker (portfolio e)) as [h|];
    [destruct (str_truthy (name h))|];
    unfold quoted, log; cbn [calls]; (split; [reflexivity|]);
    rewrite <- ?app_assoc; reflexivity.
Qed.

Lemma buy_name_lookup_witness :
  let e := mkEnv 10000000 (float 9300000)
             [("005930", mkHolding 10 (float 700000) "Samsung")] [] [] in
  let out := buy o_scenario "005930" 1 e in
  exists row k h',
    dict_get "005930" (portfolio (snd out)) = Some h'
    /\ name h' = "Samsung"
    /\ calls (snd out)
       = ([] ++ CallQuote "005930.KS" :: repeat (CallAppend row) k)%list.
Proof.
  cbv zeta.
  destruct (buy_name_lookup o_scenario "005930" 1
              (mkEnv 10000000 (float 9300000)
                 [("005930", mkHolding 10 (float 700000) "Samsung")] [] [])
              (float 70000) eq_refl) as (row & k & h' & G & A).
  - apply Qc_eqb_neq. reflexivity.
  - apply Qc_ltb_ge. reflexivity.
  - exists row, k, h'. split; [exact G|]. exact A.
Defined.

(** ** The ledger of a live account *)

Lemma closing_app b l r : closing b (l ++ [r]) = r_balance_after r.
Proof. unfold closing. rewrite fold_left_app. reflexivity. Qed.

Lemma chained_app b l r :
  chained b l -> r_balance_after r = closing b l + signed_amount r ->
  chained b (l ++ [r]).
Proof.
  revert b. induction l as [|a l IH]; intros b C E; cbn [app chained].
  - split; [exact E|exact I].
  - destruct C as [C1 C2]. split; [exact C1|].
    apply IH; [exact C2|]. exact E.
Qed.

(** What a successful [buy] did. *)
Lemma buy_succeeded o ticker q e r e' :
  buy o ticker q e = (Return r, e') -> status r = "success" ->
  exists p,
    last_price o (tick e) (symbol_of ticker) = Some p /\ p <> 0
    /\ p * float q <= balance e
    /\ r = success (msg_bought ++ buy_name o ticker e) p
    /\ seed_money e' = seed_money e
    /\ balance e' = balance e - p * float q
    /\ portfolio e' = bought ticker q (p * float q) (buy_name o ticker e) (portfolio e)
    /\ sheet e' = (sheet e ++ [buy_row o ticker q p e])%list.
Proof.
  intros B S.
  destruct (buy_outcomes o ticker q e) as [(m & F)|(p & P & N & L & SE & BA & PF & C)].
  - rewrite F in B. injection B as <- _. discriminate S.
  - rewrite B in SE, BA, PF, C. cbn [fst snd] in SE, BA, PF, C.
    destruct C as [(R & SH)|(R & _)]; [|discriminate R].
    injection R as ->. exists p. repeat (split; [assumption || reflexivity|]).
    exact SH.
Qed.

(** What a successful [sell] did. *)
Lemma sell_succeeded o ticker q e r e' :
  sell o ticker q e = (Return r, e') -> status r = "success" ->
  exists h p,
    dict_get ticker (portfolio e) = Some h /\ (q <= qty h)%Z
    /\ last_price o (tick e) (symbol_of ticker) = Some p /\ p <> 0
    /\ r = success (msg_sold ++ name h) p
    /\ seed_money e' = seed_money e
    /\ balance e' = balance e + p * float q
    /\ portfolio e' = dict_set ticker (sold q h) (portfolio e)
    /\ sheet e' = (sheet e ++ [sell_row o ticker q p h e])%list.
Proof.
  intros B S.
  destruct (sell_outcomes o ticker q e)
    as [(F & _)|(h & G & Q & [(_ & F)|(p & P & N & [(_ & SE & BA & PF & C)|(_ & _ & F)])])].
  - rewrite F in B. injection B as <- _. discriminate S.
  - rewrite F in B. injection B as <- _. discriminate S.
  - rewrite B in SE, BA, PF, C. cbn [fst snd] in SE, BA, PF, C.
    destruct C as [(R & SH)|(R & _)]; [|discriminate R].
    injection R as ->. exists h, p. repeat (split; [assumption || reflexivity|]).
    exact SH.
  - rewrite F in B. discriminate B.
Qed.

(** X12: in an account reached by successful trades the ledger follows the
    cash.  Every row records the balance that the row before it recorded
    (the seed, for the first row) less its amount for a BUY, plus its amount
    for a SELL; and the balance of the account is the one that the last row
    records (the seed, on an empty ledger). *)
Theorem reachable_ledger_chained o seed e :
  reachable o seed e ->
  chained (float seed) (sheet e)
  /\ balance e = closing (float seed) (sheet e).
Proof.
  induction 1 as [|e ticker q r e' R IH Q B S|e ticker q r e' R IH Q B S].
  - split; [exact I|reflexivity].
  - destruct IH as (C & CL).
    destruct (buy_succeeded o ticker q e r e' B S)
      as (p & _ & _ & _ & _ & _ & BA & _ & SH).
    assert (SA : signed_amount (buy_row o ticker q p e) = - (p * float q))
      by reflexivity.
    rewrite SH, closing_app, BA. cbn [buy_row r_balance_after].
    split; [|reflexivity].
    apply chained_app; [exact C|]. rewrite SA. cbn [buy_row r_balance_after].
    rewrite <- CL. reflexivity.
  - destruct IH as (C & CL).
    destruct (sell_succeeded o ticker q e r e' B S)
      as (h & p & _ & _ & _ & _ & _ & _ & BA & _ & SH).
    assert (SA : signed_amount (sell_row o ticker q p h e) = p * float q)
      by reflexivity.
    rewrite SH, closing_app, BA. cbn [sell_row r_balance_after].
    split; [|reflexivity].
    apply chained_app; [exact C|]. rewrite SA. cbn [sell_row r_balance_after].
    rewrite <- CL. reflexivity.
Qed.

Lemma reachable_scenario :
  reachable o_scenario 10000000
    (snd (sell o_scenario "005930" 10
            (snd (buy o_scenario "005930" 10 (fresh 10000000))))).
Proof.
  apply (reach_sell o_scenario 10000000
           (snd (buy o_scenario "005930" 10 (fresh 10000000)))
           "005930" 10 (success (msg_sold ++ "005930") (float 80000))).
  - apply (reach_buy o_scenario 10000000 (fresh 10000000)
             "005930" 10 (success (msg_bought ++ "005930") (float 70000))).
    + apply reach_fresh.
    + lia.
    + vm_compute. reflexivity.
    + reflexivity.
  - lia.
  - vm_compute. reflexivity.
  - reflexivity.
Defined.

Lemma reachable_ledger_chained_witness :
  let e := snd (sell o_scenario "005930" 10
                  (snd (buy o_scenario "005930" 10 (fresh 10000000)))) in
  chained (float 10000000) (sheet e)
  /\ balance e = closing (float 10000000) (sheet e).
Proof.
  cbv zeta.
  apply (reachable_ledger_chained o_scenario 10000000).
  exact reachable_scenario.
Defined.

(** X13: with a seed that is not negative and quotes that are not negative,
    no sequence of successful trades of positive quantities makes the balance
    negative. *)
Theorem reachable_balance_nonneg o seed e :
  (0 <= seed)%Z -> nonneg_quotes o ->
  reachable o seed e ->
  0 <= balance e.
Proof.
  intros SD O R.
  induction R as [|e ticker q r e' R IH Q B S|e ticker q r e' R IH Q B S].
  - apply float_nonneg. exact SD.
  - destruct (buy_succeeded o ticker q e r e' B S)
      as (p & _ & _ & L & _ & _ & BA & _).
    rewrite BA. unfold Qcminus. apply (proj1 (Qcle_minus_iff _ _)). exact L.
  - destruct (sell_succeeded o ticker q e r e' B S)
      as (h & p & _ & _ & P & _ & _ & _ & BA & _).
    rewrite BA. apply Qcplus_nonneg; [exact IH|].
    apply Qcmult_nonneg; [apply (O _ _ _ P)|apply float_nonneg; lia].
Qed.

Lemma reachable_balance_nonneg_witness :
  0 <= balance (snd (sell o_scenario "005930" 10
                       (snd (buy o_scenario "005930" 10 (fresh 10000000))))).
Proof.
  apply (reachable_balance_nonneg o_scenario 10000000).
  - lia.
  - exact nonneg_quotes_scenario.
  - exact reachable_scenario.
Defined.

(** ** A purchase sold again *)

(** X14: buying a quantity of a ticker that is not held (or whose position is
    closed) and then selling the same quantity closes the position again,
    with qty 0 and total_cost 0; the balance is the old one less
    buy price * qty, then plus sell price * qty, the two prices being those of
    the two receipts. *)
Theorem buy_then_sell_all o ticker q e r1 e1 r2 e2 :
  (0 < q)%Z ->
  match dict_get ticker (portfolio e) with
  | None => True
  | Some h => qty h = 0%Z
  end ->
  buy o ticker q e = (Return r1, e1) -> status r1 = "success" ->
  sell o ticker q e1 = (Return r2, e2) -> status r2 = "success" ->
  exists p1 p2 h,
    price r1 = Some p1 /\ price r2 = Some p2
    /\ balance e2 = balance e - p1 * float q + p2 * float q
    /\ dict_get ticker (portfolio e2) = Some h
    /\ qty h = 0%Z /\ total_cost h = 0.
Proof.
  intros Q Z0 B1 S1 B2 S2.
  destruct (buy_succeeded o ticker q e r1 e1 B1 S1)
    as (p1 & _ & _ & _ & -> & _ & BA1 & PF1 & _).
  destruct (sell_succeeded o ticker q e1 r2 e2 B2 S2)
    as (h1 & p2 & G1 & _ & _ & _ & -> & _ & BA2 & PF2 & _).
  exists p1, p2, (sold q h1). cbn [success price].
  split; [reflexivity|]. split; [reflexivity|].
  split; [rewrite BA2, BA1; reflexivity|].
  split; [rewrite PF2; apply dict_get_set_same|].
  assert (QH : qty h1 = q).
  { rewrite PF1 in G1. unfold bought in G1. rewrite dict_get_set_same in G1.
    injection G1 as <-. cbn [qty].
    destruct (dict_get ticker (portfolio e)) as [h|]; [rewrite Z0|]; cbn [qty]; lia. }
  unfold sold. cbn [qty total_cost]. rewrite QH.
  replace (q - q)%Z with 0%Z by lia. split; reflexivity.
Qed.

Lemma buy_then_sell_all_witness :
  let e1 := snd (buy o_scenario "005930" 10 (fresh 10000000)) in
  let e2 := snd (sell o_scenario "005930" 10 e1) in
  exists p1 p2 h,
    Some (float 70000) = Some p1 /\ Some (float 80000) = Some p2
    /\ balance e2 = float 10000000 - p1 * float 10 + p2 * float 10
    /\ dict_get "005930" (portfolio e2) = Some h
    /\ qty h = 0%Z /\ total_cost h = 0.
Proof.
  cbv zeta.
  apply (buy_then_sell_all o_scenario "005930" 10 (fresh 10000000)
           (success (msg_bought ++ "005930") (float 70000))
           (snd (buy o_scenario "005930" 10 (fresh 10000000)))
           (success (msg_sold ++ "005930") (float 80000))
           (snd (sell o_scenario "005930" 10
                   (snd (buy o_scenario "005930" 10 (fresh 10000000)))))).
  - lia.
  - exact I.
  - vm_compute. reflexivity.
  - reflexivity.
  - vm_compute. reflexivity.
  - reflexivity.
Defined.

(** ** Quantities that are not positive *)

Lemma Qcmult_pos_neg (x y : Qc) : 0 < x -> y < 0 -> x * y < 0.
Proof.
  intros X Y. rewrite Qcmult_comm, <- (Qcmult_0_l x).
  apply Qcmult_lt_compat_r; assumption.
Qed.

(** X15: [buy] does not check the sign of the quantity.  With a positive
    quote and a balance that is not negative, a buy of a negative quantity is
    not rejected: it raises the balance by price * |qty| and lowers the
    quantity of the holding by |qty| (below zero on a ticker that was not
    held), whether or not the row then reaches the sheet. *)
Theorem buy_negative_quantity o ticker q e p :
  last_price o (tick e) (symbol_of ticker) = Some p -> 0 < p ->
  (q < 0)%Z -> 0 <= balance e ->
  let out := buy o ticker q e in
  let held := match dict_get ticker (portfolio e) with
              | Some h => qty h
              | None => 0%Z
              end in
  (forall m, fst out <> Return (fail m))
  /\ balance (snd out) = balance e + p * float (- q)
  /\ balance e < balance (snd out)
  /\ exists h', dict_get ticker (portfolio (snd out)) = Some h'
                /\ qty h' = (held + q)%Z.
Proof.
  intros H P Q B. cbv zeta.
  assert (N : p <> 0) by (apply not_eq_sym, Qclt_not_eq; exact P).
  assert (FQ : float q < 0) by (rewrite <- float_0; apply float_lt; exact Q).
  assert (T : p * float q < 0) by (apply Qcmult_pos_neg; assumption).
  assert (L : p * float q <= balance e).
  { apply Qclt_le_weak. apply Qclt_le_trans with 0; assumption. }
  assert (FN : float (- q) = - float q).
  { replace (- q)%Z with (0 - q)%Z by lia. rewrite float_sub, float_0. ring. }
  destruct (buy_outcomes o ticker q e) as [(m & F)|(p' & P' & _ & _ & _ & BA & PF & C)].
  - exfalso.
    destruct (not_price (last_price o (tick e) (symbol_of ticker))) eqn:NP.
    + rewrite H in NP. cbn [not_price] in NP. apply Qc_eqb_eq in NP. contradiction.
    + rewrite (buy_commit o ticker q e p H N L) in F.
      destruct (append_then_return_frame o (buy_row o ticker q p e)
                  (success (msg_bought ++ buy_name o ticker e) p)
                  (buy_state o ticker q p e)) as (_ & _ & _ & [(R & _)|(R & _)]);
        cbv zeta in R; rewrite F in R; discriminate R.
  - rewrite H in P'. injection P' as <-.
    split.
    { intros m E. destruct C as [(R & _)|(R & _)]; rewrite R in E; discriminate E. }
    split; [rewrite BA, FN; ring|].
    split.
    { rewrite BA. apply (proj2 (Qclt_minus_iff _ _)).
      replace (balance e - p * float q + - balance e) with (- (p * float q)) by ring.
      apply (proj1 (Qclt_minus_iff _ _)) in T.
      rewrite Qcplus_0_l in T. exact T. }
    rewrite PF. unfold bought.
    eexists. split; [apply dict_get_set_same|].
    cbn [qty]. destruct (dict_get ticker (portfolio e)); reflexivity.
Qed.

Lemma buy_negative_quantity_witness :
  let out := buy o_aapl "AAPL" (-2) (fresh 1000) in
  (forall m, fst out <> Return (fail m))
  /\ balance (snd out) = float 1000 + float 150 * float (- -2)
  /\ float 1000 < balance (snd out)
  /\ exists h', dict_get "AAPL" (portfolio (snd out)) = Some h'
                /\ qty h' = (0 + -2)%Z.
Proof.
  cbv zeta.
  apply (buy_negative_quantity o_aapl "AAPL" (-2) (fresh 1000) (float 150)).
  - reflexivity.
  - apply Qc_ltb_lt. reflexivity.
  - lia.
  - apply Qc_ltb_ge. reflexivity.
Defined.

(** X16: [sell] does not check the sign of the quantity either.  On a holding
    whose quantity is 0 (a closed position), a sell of a negative quantity
    with a usable quote raises [ZeroDivisionError] after it has changed the
    account: the balance has moved by price * qty, the holding has the
    quantity -qty and its old cost basis, and no row is written. *)
Theorem sell_negative_quantity_raises o ticker q e h p :
  dict_get ticker (portfolio e) = Some h -> qty h = 0%Z -> (q < 0)%Z ->
  last_price o (tick e) (symbol_of ticker) = Some p -> p <> 0 ->
  let out := sell o ticker q e in
  fst out = Raise ZeroDivisionError
  /\ balance (snd out) = balance e + p * float q
  /\ dict_get ticker (portfolio (snd out))
     = Some (mkHolding (- q) (total_cost h) (name h))
  /\ sheet (snd out) = sheet e.
Proof.
  intros G Z0 Q H N. cbv zeta.
  rewrite (sell_zero_division o ticker q e h p G) by (auto; lia).
  cbn [fst snd upd balance portfolio sheet quoted log].
  split; [reflexivity|]. split; [reflexivity|]. split; [|reflexivity].
  rewrite dict_get_set_same. unfold with_qty. rewrite Z0. reflexivity.
Qed.

Lemma sell_negative_quantity_raises_witness :
  let e := mkEnv 1000 (float 1000) [("AAPL", mkHolding 0 0 "Apple")] [] [] in
  let out := sell o_aapl "AAPL" (-2) e in
  fst out = Raise ZeroDivisionError
  /\ balance (snd out) = float 1000 + float 150 * float (-2)
  /\ dict_get "AAPL" (portfolio (snd out)) = Some (mkHolding (- -2) 0 "Apple")
  /\ sheet (snd out) = [].
Proof.
  cbv zeta.
  apply (sell_negative_quantity_raises o_aapl "AAPL" (-2)
           (mkEnv 1000 (float 1000) [("AAPL", mkHolding 0 0 "Apple")] [] [])
           (mkHolding 0 0 "Apple") (float 150)).
  - reflexivity.
  - reflexivity.
  - lia.
  - reflexivity.
  - apply Qc_eqb_neq. reflexivity.
Defined.

(** ** Every path through one row of the replay *)

(** One SELL row of the replay when units remain although none were held. *)
Lemma replay_row_sell_raises row e :
  str_truthy (r_ticker row) = true -> r_type row = "SELL" ->
  (0 < qty (replay_holding row e) - r_qty row)%Z ->
  qty (replay_holding row e) = 0%Z ->
  replay_row row e
  = (Raise ZeroDivisionError,
     upd e (balance e + r_amount row)
       (dict_set (zfill 6 (r_ticker row))
          (with_qty (qty (replay_holding row e) - r_qty row) (replay_holding row e))
          (portfolio e))).
Proof.
  intros T S P Z0. unfold replay_row. rewrite T, S.
  cbn [negb String.eqb Ascii.eqb Bool.eqb].
  set (ticker := zfill 6 (r_ticker row)) in *.
  rewrite (bind_Return _ _ _ _ _ (ensure_item_eq _ _ _)).
  rewrite (bind_Return _ _ _ (balance e)
             (upd e (balance e) (ensured ticker (r_name row) (portfolio e))))
    by reflexivity.
  rewrite (bind_Return _ _ _ tt
             (upd e (balance e + r_amount row)
                (ensured ticker (r_name row) (portfolio e))))
    by reflexivity.
  rewrite (reduce_position_raises ticker (r_qty row)
             (upd e (balance e + r_amount row)
                (ensured ticker (r_name row) (portfolio e)))
             (replay_holding row e)
             (dict_get_ensured ticker (r_name row) (portfolio e)) P Z0).
  unfold upd. cbn [seed_money balance portfolio sheet calls].
  rewrite dict_set_ensured. reflexivity.
Qed.

(** One row of the replay whose type is neither BUY nor SELL. *)
Lemma replay_row_other row e :
  str_truthy (r_ticker row) = true ->
  String.eqb (r_type row) "BUY" = false ->
  String.eqb (r_type row) "SELL" = false ->
  replay_row row e
  = (Return tt,
     upd e (balance e) (ensured (zfill 6 (r_ticker row)) (r_name row) (portfolio e))).
Proof.
  intros T B S. unfold replay_row. rewrite T, B, S. cbn [negb].
  rewrite (bind_Return _ _ _ _ _ (ensure_item_eq _ _ _)). reflexivity.
Qed.

(** One row of the replay without ticker. *)
Lemma replay_row_skipped row e :
  str_truthy (r_ticker row) = false -> replay_row row e = (Return tt, e).
Proof. intros T. unfold replay_row. rewrite T. reflexivity. Qed.

(** The account after one row of the replay, however it ends: the balance
    has moved by the effect of the row, and the portfolio is the old one, or
    the old one with a new value under the normalised ticker. *)
Lemma replay_row_account row e :
  seed_money (snd (replay_row row e)) = seed_money e
  /\ balance (snd (replay_row row e)) = balance e + row_effect row
  /\ sheet (snd (replay_row row e)) = sheet e
  /\ calls (snd (replay_row row e)) = calls e
  /\ (portfolio (snd (replay_row row e)) = portfolio e
      \/ exists v, portfolio (snd (replay_row row e))
                   = dict_set (zfill 6 (r_ticker row)) v (portfolio e)).
Proof.
  unfold row_effect, signed_amount.
  destruct (str_truthy (r_ticker row)) eqn:T.
  2:{ rewrite (replay_row_skipped row e T). cbn [snd].
      repeat (split; [reflexivity || ring|]). left. reflexivity. }
  destruct (String.eqb (r_type row) "BUY") eqn:B.
  { apply String.eqb_eq in B. rewrite (replay_row_buy row e T B).
    cbn [snd upd seed_money balance sheet calls portfolio].
    repeat (split; [reflexivity|]). right. unfold bought. eexists. reflexivity. }
  destruct (String.eqb (r_type row) "SELL") eqn:S.
  2:{ rewrite (replay_row_other row e T B S).
      cbn [snd upd seed_money balance sheet calls portfolio].
      repeat (split; [reflexivity || ring|]).
      unfold ensured. destruct (dict_mem _ _); [left; reflexivity|right].
      eexists. reflexivity. }
  apply String.eqb_eq in S.
  destruct (Z_lt_le_dec 0 (qty (replay_holding row e) - r_qty row)) as [R|R];
    [destruct (Z.eq_dec (qty (replay_holding row e)) 0) as [Z0|Z0]|].
  - rewrite (replay_row_sell_raises row e T S R Z0).
    cbn [snd upd seed_money balance sheet calls portfolio].
    repeat (split; [reflexivity|]). right. eexists. reflexivity.
  - rewrite (replay_row_sell row e T S) by (intros _; exact Z0).
    cbn [snd upd seed_money balance sheet calls portfolio].
    repeat (split; [reflexivity|]). right. eexists. reflexivity.
  - rewrite (replay_row_sell row e T S) by (intros C; lia).
    cbn [snd upd seed_money balance sheet calls portfolio].
    repeat (split; [reflexivity|]). right. eexists. reflexivity.
Qed.

Lemma for_each_cons {A} (a : A) (l : list A) (body : A -> M unit) e :
  for_each (a :: l) body e
  = match body a e with
    | (Return _, e') => for_each l body e'
    | (Raise x, e') => (Raise x, e')
    end.
Proof. reflexivity. Qed.


(** ** Cold start *)

(** [_reconstruct_portfolio] when neither read gives the rows. *)
Lemma reconstruct_portfolio_unread o e :
  read_ok o (tick e) = false -> read_ok o (S (tick e)) = false ->
  _reconstruct_portfolio o e = (Raise APIError, log CallRead (log CallRead e)).
Proof.
  intros R1 R2. unfold _reconstruct_portfolio. apply bind_Raise.
  unfold try_except. rewrite (get_all_records_fails o e R1).
  apply get_all_records_fails. rewrite tick_log. exact R2.
Qed.

(** X21: a cold start whose two reads of the sheet both fail raises the error
    of the sheet after two read calls, and the account in memory keeps the
    balance and the holdings that it had: they are reset only once the rows
    are read. *)
Theorem reconstruct_read_failure o e :
  read_ok o (tick e) = false -> read_ok o (S (tick e)) = false ->
  fst (_reconstruct_portfolio o e) = Raise APIError
  /\ same_account e (snd (_reconstruct_portfolio o e))
  /\ calls (snd (_reconstruct_portfolio o e)) = (calls e ++ [CallRead; CallRead])%list.
Proof.
  intros R1 R2. rewrite (reconstruct_portfolio_unread o e R1 R2).
  cbn [fst snd]. split; [reflexivity|]. split.
  - unfold same_account. auto.
  - unfold log. cbn [calls]. rewrite <- app_assoc. reflexivity.
Qed.

Lemma reconstruct_read_failure_witness :
  let o := mkOracle (fun _ _ => None) (fun _ _ => None) (fun _ => "")
             (fun _ => true) (fun _ => false) in
  let e := mkEnv 1000 (float 300) [("005930", mkHolding 10 (float 700) "Samsung")] [] [] in
  fst (_reconstruct_portfolio o e) = Raise APIError
  /\ same_account e (snd (_reconstruct_portfolio o e))
  /\ calls (snd (_reconstruct_portfolio o e)) = ([] ++ [CallRead; CallRead])%list.
Proof.
  cbv zeta. apply reconstruct_read_failure; reflexivity.
Defined.

(** A cold start that returns has read the rows. *)
Lemma reconstruct_returned o e e' :
  _reconstruct_portfolio o e = (Return tt, e') ->
  exists trace,
    for_each (sheet e) replay_row
      (account_on (fresh (seed_money e)) (sheet e) trace) = (Return tt, e').
Proof.
  intros H.
  destruct (read_ok o (tick e)) eqn:R1.
  - destruct (reconstruct_portfolio_eq o e (or_introl R1)) as (trace & E).
    exists trace. rewrite <- E. exact H.
  - destruct (read_ok o (S (tick e))) eqn:R2.
    + destruct (reconstruct_portfolio_eq o e (or_intror R2)) as (trace & E).
      exists trace. rewrite <- E. exact H.
    + rewrite (reconstruct_portfolio_unread o e R1 R2) in H. discriminate H.
Qed.



(** X18: the replay passes over the rows that have no ticker: replaying a
    list of rows is replaying the rows of it that have one, in the same
    order. *)
Theorem replay_skips_rows_without_ticker rows e :
  for_each rows replay_row e
  = for_each (filter (fun row => str_truthy (r_ticker row)) rows) replay_row e.
Proof.
  revert e. induction rows as [|row rows IH]; intros e; [reflexivity|].
  cbn [filter]. destruct (str_truthy (r_ticker row)) eqn:T.
  - rewrite !for_each_cons.
    destruct (replay_row row e) as [[[]|x] e1]; [apply IH|reflexivity].
  - rewrite for_each_cons, (replay_row_skipped row e T). apply IH.
Qed.

(** X19: a record with a ticker and with numbers in its qty and amount cells
    (the conversions of lines 54-55 go through), whose type is neither BUY nor
    SELL, is not ignored altogether: the replay leaves the balance and the
    holdings that exist as they are, but a ticker that was not in the
    portfolio gets a holding with qty 0, total_cost 0 and the name of the
    record, under the ticker padded to six characters. *)
Theorem replay_row_of_unknown_type row e :
  str_truthy (r_ticker row) = true ->
  r_type row <> "BUY" -> r_type row <> "SELL" ->
  let out := replay_row row e in
  let t := zfill 6 (r_ticker row) in
  fst out = Return tt
  /\ balance (snd out) = balance e
  /\ (forall k h, dict_get k (portfolio e) = Some h ->
                  dict_get k (portfolio (snd out)) = Some h)
  /\ (dict_get t (portfolio e) = None ->
      dict_get t (portfolio (snd out)) = Some (mkHolding 0 0 (r_name row))).
Proof.
  intros T B S. cbv zeta.
  apply String.eqb_neq in B. apply String.eqb_neq in S.
  rewrite (replay_row_other row e T B S).
  cbn [fst snd upd balance portfolio].
  split; [reflexivity|]. split; [reflexivity|].
  unfold ensured, dict_mem. split.
  - intros k h G.
    destruct (dict_get (zfill 6 (r_ticker row)) (portfolio e)) eqn:D; [exact G|].
    rewrite dict_get_set_other; [exact G|]. intros E. subst k. congruence.
  - intros D. rewrite D. apply dict_get_set_same.
Qed.

Lemma replay_row_of_unknown_type_witness :
  let row := mkRow "2024-01-02 09:00:00" "HOLD" "5930" "Samsung" 0 1 0 0 in
  let out := replay_row row (fresh 1000) in
  fst out = Return tt
  /\ balance (snd out) = float 1000
  /\ dict_get "005930" (portfolio (snd out)) = Some (mkHolding 0 0 "Samsung").
Proof.
  cbv zeta.
  destruct (replay_row_of_unknown_type
              (mkRow "2024-01-02 09:00:00" "HOLD" "5930" "Samsung" 0 1 0 0)
              (fresh 1000)) as (A & B & _ & D).
  - reflexivity.
  - discriminate.
  - discriminate.
  - split; [exact A|]. split; [exact B|]. apply D. reflexivity.
Defined.

(** X20: one corrupted row stops the replay.  A SELL row with a negative
    quantity for a ticker of which no unit is held makes the replay raise
    [ZeroDivisionError]; the rows after it are not read, and the balance
    already carries the amount of that row. *)
Theorem replay_stops_at_corrupted_sell pre row post e0 e :
  for_each pre replay_row e0 = (Return tt, e) ->
  str_truthy (r_ticker row) = true -> r_type row = "SELL" ->
  qty (replay_holding row e) = 0%Z -> (r_qty row < 0)%Z ->
  let out := for_each (pre ++ row :: post) replay_row e0 in
  fst out = Raise ZeroDivisionError
  /\ balance (snd out) = balance e + r_amount row.
Proof.
  intros P T S Z0 Q. cbv zeta.
  rewrite (for_each_app _ _ _ _ _ P), for_each_cons.
  rewrite (replay_row_sell_raises row e T S) by lia.
  cbn [fst snd upd balance]. split; reflexivity.
Qed.

Lemma replay_stops_at_corrupted_sell_witness :
  let row := mkRow "2024-01-02 09:00:00" "SELL" "005930" "Samsung"
               (float 70000) (-3) (float (-210000)) 0 in
  let later := mkRow "2024-01-02 09:05:00" "BUY" "005930" "Samsung"
                 (float 70000) 10 (float 700000) 0 in
  let out := for_each ([] ++ row :: [later]) replay_row (fresh 1000) in
  fst out = Raise ZeroDivisionError
  /\ balance (snd out) = float 1000 + float (-210000).
Proof.
  cbv zeta.
  apply (replay_stops_at_corrupted_sell []
           (mkRow "2024-01-02 09:00:00" "SELL" "005930" "Samsung"
              (float 70000) (-3) (float (-210000)) 0)
           [mkRow "2024-01-02 09:05:00" "BUY" "005930" "Samsung"
              (float 70000) 10 (float 700000) 0]
           (fresh 1000) (fresh 1000)).
  - reflexivity.
  - reflexivity.
  - reflexivity.
  - reflexivity.
  - cbn [r_qty]. lia.
Defined.

(** ** The replay only sees the account *)

Lemma local_ret {A} (a : A) : local (ret a).
Proof. intros e rows trace. reflexivity. Qed.

Lemma local_raise {A} (x : Exn) : local (@raise A x).
Proof. intros e rows trace. reflexivity. Qed.

Lemma local_bind {A B} (c : M A) (k : A -> M B) :
  local c -> (forall a, local (k a)) -> local (bind c k).
Proof.
  intros C K e rows trace. unfold bind. rewrite (C e rows trace).
  destruct (c e) as [[a|x] e1]; cbn [fst snd].
  - apply K.
  - reflexivity.
Qed.

Lemma local_get_balance : local get_balance.
Proof. intros e rows trace. reflexivity. Qed.

Lemma local_get_portfolio : local get_portfolio.
Proof. intros e rows trace. reflexivity. Qed.

Lemma local_set_balance b : local (set_balance b).
Proof. intros e rows trace. reflexivity. Qed.

Lemma local_set_portfolio p : local (set_portfolio p).
Proof. intros e rows trace. reflexivity. Qed.

Lemma local_get_item ticker : local (get_item ticker).
Proof.
  unfold get_item. apply local_bind; [apply local_get_portfolio|].
  intros p. destruct (dict_get ticker p); [apply local_ret|apply local_raise].
Qed.

Lemma local_set_item ticker h : local (set_item ticker h).
Proof.
  unfold set_item. apply local_bind; [apply local_get_portfolio|].
  intros p. apply local_set_portfolio.
Qed.

Lemma local_modify_item ticker f : local (modify_item ticker f).
Proof.
  unfold modify_item. apply local_bind; [apply local_get_item|].
  intros h. apply local_set_item.
Qed.

Lemma local_py_div x y : local (py_div x y).
Proof.
  unfold py_div. destruct (Qc_eqb y 0); [apply local_raise|apply local_ret].
Qed.

Lemma local_ensure_item ticker nm : local (ensure_item ticker nm).
Proof.
  unfold ensure_item. apply local_bind; [apply local_get_portfolio|].
  intros p. destruct (negb (dict_mem ticker p)); [apply local_set_item|apply local_ret].
Qed.

Lemma local_add_units ticker q amount nm : local (add_units ticker q amount nm).
Proof.
  unfold add_units. repeat (apply local_bind; [apply local_modify_item|intros _]).
  apply local_modify_item.
Qed.

Lemma local_reduce_position ticker q : local (reduce_position ticker q).
Proof.
  unfold reduce_position. apply local_bind; [apply local_modify_item|intros _].
  apply local_bind; [apply local_get_item|intros h].
  destruct (0 <? qty h)%Z.
  - apply local_bind; [apply local_py_div|intros avg]. apply local_modify_item.
  - apply local_modify_item.
Qed.

Lemma local_replay_row row : local (replay_row row).
Proof.
  unfold replay_row. destruct (negb (str_truthy (r_ticker row))); [apply local_ret|].
  apply local_bind; [apply local_ensure_item|intros _].
  destruct (String.eqb (r_type row) "BUY").
  - apply local_bind; [apply local_get_balance|intros b].
    apply local_bind; [apply local_set_balance|intros _].
    apply local_add_units.
  - destruct (String.eqb (r_type row) "SELL"); [|apply local_ret].
    apply local_bind; [apply local_get_balance|intros b].
    apply local_bind; [apply local_set_balance|intros _].
    apply local_reduce_position.
Qed.

Lemma local_for_each {A} (l : list A) (body : A -> M unit) :
  (forall a, local (body a)) -> local (for_each l body).
Proof.
  intros H. induction l as [|a l IH]; cbn [for_each].
  - apply local_ret.
  - apply local_bind; [apply H|intros _; exact IH].
Qed.

(** A cold start that reads the rows gives what their replay gives on a fresh
    account. *)
Lemma reconstruct_portfolio_fresh o e :
  read_ok o (tick e) = true \/ read_ok o (S (tick e)) = true ->
  let out := for_each (sheet e) replay_row (fresh (seed_money e)) in
  fst (_reconstruct_portfolio o e) = fst out
  /\ seed_money (snd (_reconstruct_portfolio o e)) = seed_money (snd out)
  /\ balance (snd (_reconstruct_portfolio o e)) = balance (snd out)
  /\ portfolio (snd (_reconstruct_portfolio o e)) = portfolio (snd out)
  /\ sheet (snd (_reconstruct_portfolio o e)) = sheet e.
Proof.
  intros H. cbv zeta.
  destruct (reconstruct_portfolio_eq o e H) as (trace & E).
  rewrite E.
  rewrite (local_for_each (sheet e) replay_row local_replay_row
             (fresh (seed_money e)) (sheet e) trace).
  cbn [fst snd account_on seed_money balance portfolio sheet]. auto.
Qed.

(** X22: a cold start forgets what the object held.  On two accounts with
    the same seed and the same rows in the sheet, whatever their balances and
    holdings were, [_reconstruct_portfolio] ends the same way and leaves the
    same balance and the same holdings, provided the sheet can be read; so a
    second cold start changes nothing. *)
Theorem reconstruct_forgets_old_state o e1 e2 :
  (forall n, read_ok o n = true) ->
  seed_money e1 = seed_money e2 -> sheet e1 = sheet e2 ->
  fst (_reconstruct_portfolio o e1) = fst (_reconstruct_portfolio o e2)
  /\ balance (snd (_reconstruct_portfolio o e1))
     = balance (snd (_reconstruct_portfolio o e2))
  /\ portfolio (snd (_reconstruct_portfolio o e1))
     = portfolio (snd (_reconstruct_portfolio o e2)).
Proof.
  intros R SE SH.
  destruct (reconstruct_portfolio_fresh o e1 (or_introl (R _))) as (A1 & _ & B1 & P1 & _).
  destruct (reconstruct_portfolio_fresh o e2 (or_introl (R _))) as (A2 & _ & B2 & P2 & _).
  cbv zeta in *. rewrite A1, A2, B1, B2, P1, P2, SE, SH. auto.
Qed.

Lemma reconstruct_forgets_old_state_witness :
  let b := mkRow "2024-01-02 09:00:00" "BUY" "005930" "Samsung"
             (float 70000) 10 (float 700000) (float 9300000) in
  let e1 := mkEnv 10000000 0 [] [b] [] in
  let e2 := mkEnv 10000000 (float 5) [("AAPL", mkHolding 3 (float 9) "Apple")] [b]
              [CallRead] in
  fst (_reconstruct_portfolio o_scenario e1) = fst (_reconstruct_portfolio o_scenario e2)
  /\ balance (snd (_reconstruct_portfolio o_scenario e1))
     = balance (snd (_reconstruct_portfolio o_scenario e2))
  /\ portfolio (snd (_reconstruct_portfolio o_scenario e1))
     = portfolio (snd (_reconstruct_portfolio o_scenario e2)).
Proof.
  cbv zeta. apply reconstruct_forgets_old_state.
  - intros n. reflexivity.
  - reflexivity.
  - reflexivity.
Defined.

(** ** The tickers of a rebuilt portfolio *)

Lemma length_append (s1 s2 : string) :
  String.length (s1 ++ s2) = (String.length s1 + String.length s2)%nat.
Proof. induction s1 as [|c s1 IH]; cbn; [reflexivity|rewrite IH; reflexivity]. Qed.

Lemma length_zeros n : String.length (zeros n) = n.
Proof. induction n as [|n IH]; cbn; [reflexivity|rewrite IH; reflexivity]. Qed.

Lemma zfill_length width s : (width <= String.length (zfill width s))%nat.
Proof.
  unfold zfill. destruct (Nat.leb_spec width (String.length s)) as [L|L]; [exact L|].
  destruct s as [|c rest].
  - rewrite length_zeros. cbn. lia.
  - destruct (Ascii.eqb c "+" || Ascii.eqb c "-")%bool.
    + cbn [String.length]. rewrite length_append, length_zeros. cbn in L |- *. lia.
    + rewrite length_append, length_zeros. lia.
Qed.

Lemma keys_dict_set (P : string -> Prop) k v d :
  Forall P (keys d) -> P k -> Forall P (keys (dict_set k v d)).
Proof.
  intros F Pk. induction d as [|[k' v'] d IH]; cbn [dict_set keys map fst].
  - constructor; [exact Pk|constructor].
  - inversion F as [|x l Px Fl]; subst.
    destruct (String.eqb k k'); cbn [keys map fst].
    + constructor; assumption.
    + constructor; [exact Px|]. apply IH. exact Fl.
Qed.

Lemma for_each_replay_keys rows e :
  Forall (fun k => (6 <= String.length k)%nat) (keys (portfolio e)) ->
  Forall (fun k => (6 <= String.length k)%nat)
    (keys (portfolio (snd (for_each rows replay_row e)))).
Proof.
  revert e. induction rows as [|row rows IH]; intros e F; [exact F|].
  rewrite for_each_cons.
  assert (F1 : Forall (fun k => (6 <= String.length k)%nat)
                 (keys (portfolio (snd (replay_row row e))))).
  { destruct (replay_row_account row e) as (_ & _ & _ & _ & [P|(v & P)]); rewrite P.
    - exact F.
    - apply keys_dict_set; [exact F|apply zfill_length]. }
  destruct (replay_row row e) as [[[]|x] e1]; cbn [snd] in F1.
  - apply IH. exact F1.
  - exact F1.
Qed.

(** X24: every ticker of a portfolio that a cold start has rebuilt is at
    least six characters long: the replay files every row under its ticker
    padded with zeros (so a holding bought as "AAPL" comes back as
    "00AAPL"). *)
Theorem reconstruct_pads_tickers o e e' :
  _reconstruct_portfolio o e = (Return tt, e') ->
  Forall (fun k => (6 <= String.length k)%nat) (keys (portfolio e')).
Proof.
  intros H. destruct (reconstruct_returned o e e' H) as (trace & F).
  pose proof (for_each_replay_keys (sheet e)
                (account_on (fresh (seed_money e)) (sheet e) trace)
                (Forall_nil _)) as K.
  rewrite F in K. exact K.
Qed.

Lemma reconstruct_pads_tickers_witness :
  let live := snd (buy o_aapl "AAPL" 1 (fresh 10000000)) in
  Forall (fun k => (6 <= String.length k)%nat)
    (keys (portfolio (snd (_reconstruct_portfolio o_aapl live)))).
Proof.
  cbv zeta.
  apply (reconstruct_pads_tickers o_aapl (snd (buy o_aapl "AAPL" 1 (fresh 10000000)))).
  vm_compute. reflexivity.
Defined.

(** ** The dashboard on any account *)

(** The ROI of one line: the guard [cost > 0] keeps the division defined. *)
Lemma line_roi_eq (x : string * Holding * Qc) e :
  (if Qc_ltb 0 (total_cost (snd (fst x)))
   then r <- py_div (spec_profit x) (total_cost (snd (fst x))) ;; ret (r * float 100)
   else ret 0) e
  = (Return (line_roi x), e).
Proof.
  unfold line_roi. destruct (Qc_ltb 0 (total_cost (snd (fst x)))) eqn:P.
  - apply Qc_ltb_lt in P.
    assert (N : total_cost (snd (fst x)) <> 0)
      by (apply not_eq_sym, Qclt_not_eq; exact P).
    rewrite (bind_Return _ _ _ _ _ (py_div_ok _ _ e N)). reflexivity.
  - reflexivity.
Qed.

(** The loop of [get_status] on any portfolio: it never raises. *)
Lemma status_loop_lines o items :
  forall total_asset holdings e,
    status_loop o items total_asset holdings e
    = (Return (spec_total_asset total_asset (priced o (tick e) (open_positions items)),
               (holdings ++ map line_of (priced o (tick e) (open_positions items)))%list),
       log_quotes (open_positions items) e).
Proof.
  induction items as [|[t h] items IH]; intros total_asset holdings e.
  - cbn [status_loop open_positions filter priced map log_quotes].
    unfold spec_total_asset, ret. cbn [map fold_right].
    rewrite Qcplus_0_r, app_nil_r. reflexivity.
  - cbn [status_loop]. rewrite open_positions_cons.
    destruct (0 <? qty h)%Z eqn:Q; [|apply IH].
    apply Z.ltb_lt in Q.
    rewrite (bind_Return _ _ _ _ _ (get_current_price_eq o t e)).
    cbn [fst snd]. rewrite current_price_eq.
    set (x := (t, h, spec_price o (tick e) t)).
    change (spec_price o (tick e) t * float (qty h)) with (spec_value x).
    change (spec_value x - total_cost h) with (spec_profit x).
    change (total_cost h) with (total_cost (snd (fst x))).
    rewrite (bind_Return _ _ _ _ _ (line_roi_eq x (quoted t e))).
    rewrite (bind_Return _ _ _ _ _
               (py_div_float (total_cost (snd (fst x))) (qty h) (quoted t e)
                  ltac:(lia))).
    rewrite IH. unfold quoted at 1 2. rewrite tick_log.
    cbn [priced map log_quotes]. fold x.
    unfold spec_total_asset. cbn [map fold_right].
    rewrite <- app_assoc. cbn [app]. rewrite Qcplus_assoc. reflexivity.
Qed.

(** The report of [get_status] on any account with a seed that is not 0. *)
Lemma get_status_returns o e :
  seed_money e <> 0%Z ->
  let xs := priced o (tick e) (open_positions (portfolio e)) in
  get_status o e
  = (Return (mkStatus (py_round (balance e))
               (py_round (spec_total_asset (balance e) xs))
               (py_round2 (spec_total_roi (spec_total_asset (balance e) xs)
                             (seed_money e)))
               (map line_of xs) (seed_money e)),
     log_quotes (open_positions (portfolio e)) e).
Proof.
  intros S. cbv zeta. unfold get_status.
  rewrite (bind_Return _ _ _ (balance e) e) by reflexivity.
  rewrite (bind_Return _ _ _ (portfolio e) e) by reflexivity.
  rewrite (bind_Return _ _ _ _ _ (status_loop_lines o (portfolio e) (balance e) [] e)).
  cbn [fst snd app].
  set (e' := log_quotes (open_positions (portfolio e)) e).
  destruct (log_quotes_frame (open_positions (portfolio e)) e) as (F1 & F2 & F3 & F4).
  fold e' in F1, F2, F3, F4.
  rewrite (bind_Return _ _ _ (seed_money e) e')
    by (unfold get_seed_money; rewrite F1; reflexivity).
  rewrite (bind_Return _ _ _ _ _ (py_div_float _ _ e' S)).
  rewrite (bind_Return _ _ _ (balance e) e')
    by (unfold get_balance; rewrite F2; reflexivity).
  reflexivity.
Qed.

(** [get_status] on an account whose seed is 0. *)
Lemma get_status_raises o e :
  seed_money e = 0%Z ->
  get_status o e
  = (Raise ZeroDivisionError, log_quotes (open_positions (portfolio e)) e).
Proof.
  intros S. unfold get_status.
  rewrite (bind_Return _ _ _ (balance e) e) by reflexivity.
  rewrite (bind_Return _ _ _ (portfolio e) e) by reflexivity.
  rewrite (bind_Return _ _ _ _ _ (status_loop_lines o (portfolio e) (balance e) [] e)).
  cbn [fst snd app].
  set (e' := log_quotes (open_positions (portfolio e)) e).
  destruct (log_quotes_frame (open_positions (portfolio e)) e) as (F1 & _).
  fold e' in F1.
  rewrite (bind_Return _ _ _ (seed_money e) e')
    by (unfold get_seed_money; rewrite F1; reflexivity).
  apply bind_Raise. unfold py_div. rewrite S, float_eqb_0. reflexivity.
Qed.

Lemma calls_log_quotes ps e :
  calls (log_quotes ps e)
  = (calls e ++ map (fun kv => CallQuote (symbol_of (fst kv))) ps)%list.
Proof.
  revert e. induction ps as [|[t h] ps IH]; intros e; cbn [log_quotes map].
  - rewrite app_nil_r. reflexivity.
  - rewrite IH. unfold quoted, log. cbn [calls fst]. rewrite <- app_assoc.
    reflexivity.
Qed.

(** X25: [get_status] fails exactly on a seed of 0: it then raises
    [ZeroDivisionError] (the total ROI divides by the seed), and otherwise it
    returns a report.  Either way it has asked one quote for each holding
    with qty > 0, in the order of the dict, and nothing else, and the seed,
    the balance, the holdings and the ledger are as before. *)
Theorem get_status_fails_on_zero_seed o e :
  (seed_money e = 0%Z -> fst (get_status o e) = Raise ZeroDivisionError)
  /\ (seed_money e <> 0%Z -> exists s, fst (get_status o e) = Return s)
  /\ same_account e (snd (get_status o e))
  /\ calls (snd (get_status o e))
     = (calls e
        ++ map (fun kv => CallQuote (symbol_of (fst kv)))
             (open_positions (portfolio e)))%list.
Proof.
  destruct (Z.eq_dec (seed_money e) 0) as [S|S].
  - rewrite (get_status_raises o e S). cbn [fst snd].
    split; [reflexivity|]. split; [intros C; contradiction|].
    split; [apply log_quotes_frame|apply calls_log_quotes].
  - rewrite (get_status_returns o e S). cbn [fst snd].
    split; [intros C; contradiction|]. split; [intros _; eexists; reflexivity|].
    split; [apply log_quotes_frame|apply calls_log_quotes].
Qed.

Lemma map_line_of_ticker xs : map hr_ticker (map line_of xs) = map (fun x => fst (fst x)) xs.
Proof. rewrite map_map. reflexivity. Qed.

Lemma priced_tickers o n ps : map (fun x => fst x) (priced o n ps) = ps.
Proof.
  revert n. induction ps as [|[t h] ps IH]; intros n; cbn [priced map fst].
  - reflexivity.
  - rewrite IH. reflexivity.
Qed.

(** X26: the report lists the holdings with qty > 0 and only them, in the
    order of the dict, each with its ticker, name and quantity; a closed
    position is not listed.  The report also carries the seed as it is and
    the balance rounded to a whole unit. *)
Theorem get_status_lists_open_positions o e s e' :
  get_status o e = (Return s, e') ->
  map (fun l => (hr_ticker l, hr_name l, hr_qty l)) (st_holdings s)
  = map (fun kv => (fst kv, name (snd kv), qty (snd kv)))
      (filter (fun kv => (0 <? qty (snd kv))%Z) (portfolio e))
  /\ Forall (fun l => (0 < hr_qty l)%Z) (st_holdings s)
  /\ st_seed_money s = seed_money e
  /\ st_balance s = py_round (balance e).
Proof.
  intros H.
  destruct (Z.eq_dec (seed_money e) 0) as [S|S].
  { rewrite (get_status_raises o e S) in H. discriminate H. }
  rewrite (get_status_returns o e S) in H. cbv zeta in H.
  injection H as <- _. cbn [st_holdings st_seed_money st_balance].
  fold (open_positions (portfolio e)).
  set (ps := open_positions (portfolio e)).
  split; [|split; [|split; reflexivity]].
  - rewrite map_map.
    rewrite <- (priced_tickers o (tick e) ps) at 2. rewrite map_map.
    apply map_ext. intros [[t h] p]. reflexivity.
  - apply Forall_map.
    assert (F : Forall (fun kv => (0 < qty (snd kv))%Z) ps).
    { unfold ps, open_positions. apply Forall_forall. intros kv I.
      apply filter_In in I. apply Z.ltb_lt. apply I. }
    clearbody ps. revert F. generalize (tick e).
    induction ps as [|[t h] ps IH]; intros n F; cbn [priced]; constructor.
    + inversion F; subst. assumption.
    + apply IH. inversion F; subst. assumption.
Qed.

Lemma get_status_lists_open_positions_witness :
  let e := mkEnv 10000000 (float 9620000)
             [("000660", mkHolding 0 0 "Hynix");
              ("005930", mkHolding 6 (float 420000) "Samsung")] [] [] in
  exists s,
    fst (get_status o_scenario e) = Return s
    /\ map (fun l => (hr_ticker l, hr_name l, hr_qty l)) (st_holdings s)
       = [("005930", "Samsung", 6%Z)]
    /\ Forall (fun l => (0 < hr_qty l)%Z) (st_holdings s)
    /\ st_seed_money s = 10000000%Z
    /\ st_balance s = py_round (float 9620000).
Proof.
  cbv zeta.
  destruct (get_status o_scenario
              (mkEnv 10000000 (float 9620000)
                 [("000660", mkHolding 0 0 "Hynix");
                  ("005930", mkHolding 6 (float 420000) "Samsung")] [] []))
    as [[s|x] e'] eqn:H.
  - exists s. split; [reflexivity|].
    apply (get_status_lists_open_positions o_scenario _ s e' H).
  - vm_compute in H. discriminate H.
Defined.

Lemma priced_stable o n m ps :
  stable_quotes o -> priced o n ps = priced o m ps.
Proof.
  intros St. revert n m. induction ps as [|[t h] ps IH]; intros n m; cbn [priced].
  - reflexivity.
  - unfold spec_price. rewrite (St n m), (IH (S n) (S m)). reflexivity.
Qed.

(** X27: with quotes that do not change, [get_status] is idempotent: a second
    call right after the first one ends the same way, with the same report
    (or the same exception). *)
Theorem get_status_twice o e :
  stable_quotes o ->
  fst (get_status o (snd (get_status o e))) = fst (get_status o e).
Proof.
  intros S.
  destruct (Z.eq_dec (seed_money e) 0) as [Z0|Z0].
  - rewrite (get_status_raises o e Z0). cbn [snd].
    destruct (log_quotes_frame (open_positions (portfolio e)) e) as (F1 & _).
    rewrite get_status_raises by (rewrite F1; exact Z0). reflexivity.
  - rewrite (get_status_returns o e Z0). cbn [fst snd].
    destruct (log_quotes_frame (open_positions (portfolio e)) e) as (F1 & F2 & F3 & _).
    rewrite get_status_returns by (rewrite F1; exact Z0).
    cbn [fst]. rewrite F1, F2, F3.
    rewrite (priced_stable o
               (tick (log_quotes (open_positions (portfolio e)) e)) (tick e) _ S).
    reflexivity.
Qed.

Lemma get_status_twice_witness :
  let e := mkEnv 10000000 (float 9620000)
             [("005930", mkHolding 6 (float 420000) "Samsung")] [] [] in
  fst (get_status o_aapl (snd (get_status o_aapl e))) = fst (get_status o_aapl e).
Proof.
  cbv zeta. apply get_status_twice. intros n m s. reflexivity.
Defined.

Lemma spec_price_no_quotes o n t : no_quotes o -> spec_price o n t = 0.
Proof.
  intros N. unfold spec_price. specialize (N n (symbol_of t)).
  destruct (last_price o n (symbol_of t)) as [x|]; [|reflexivity].
  cbn [not_price] in N. apply Qc_eqb_eq in N. exact N.
Qed.

Lemma priced_no_quotes o n ps :
  no_quotes o -> Forall (fun x => snd x = 0) (priced o n ps).
Proof.
  intros N. revert n. induction ps as [|[t h] ps IH]; intros n; cbn [priced].
  - constructor.
  - constructor; [apply spec_price_no_quotes; exact N|apply IH].
Qed.

Lemma spec_total_asset_no_quotes b xs :
  Forall (fun x => snd x = 0) xs -> spec_total_asset b xs = b.
Proof.
  unfold spec_total_asset. induction 1 as [|x xs X _ IH]; cbn [map fold_right].
  - ring.
  - unfold spec_value at 1. rewrite X.
    replace (b + (0 * float (qty (snd (fst x)))
                  + fold_right Qcplus 0 (map spec_value xs)))
      with (b + fold_right Qcplus 0 (map spec_value xs)) by ring.
    exact IH.
Qed.

Lemma py_round_0 : py_round 0 = 0%Z.
Proof. vm_compute. reflexivity. Qed.

(** X28: when no quote is available (each one is missing or 0), the report
    still comes: every listed holding is valued at 0 with a current price of
    0, and total_asset is the rounded cash balance alone. *)
Theorem get_status_without_quotes o e s e' :
  no_quotes o ->
  get_status o e = (Return s, e') ->
  st_total_asset s = st_balance s
  /\ Forall (fun l => hr_valuation l = 0%Z /\ hr_current_price l = 0%Z)
       (st_holdings s).
Proof.
  intros N H.
  destruct (Z.eq_dec (seed_money e) 0) as [S|S].
  { rewrite (get_status_raises o e S) in H. discriminate H. }
  rewrite (get_status_returns o e S) in H. cbv zeta in H.
  injection H as <- _. cbn [st_total_asset st_balance st_holdings].
  pose proof (priced_no_quotes o (tick e) (open_positions (portfolio e)) N) as P.
  split.
  - rewrite (spec_total_asset_no_quotes _ _ P). reflexivity.
  - apply Forall_map. revert P. apply Forall_impl. intros x X.
    unfold line_of. cbn [hr_valuation hr_current_price].
    unfold spec_value. rewrite X. rewrite Qcmult_0_l. split; apply py_round_0.
Qed.

Lemma get_status_without_quotes_witness :
  let e := mkEnv 10000000 (float 9620000)
             [("005930", mkHolding 6 (float 420000) "Samsung")] [] [] in
  exists s,
    fst (get_status (o_const None true) e) = Return s
    /\ st_total_asset s = st_balance s
    /\ Forall (fun l => hr_valuation l = 0%Z /\ hr_current_price l = 0%Z)
         (st_holdings s).
Proof.
  cbv zeta.
  destruct (get_status (o_const None true)
              (mkEnv 10000000 (float 9620000)
                 [("005930", mkHolding 6 (float 420000) "Samsung")] [] []))
    as [[s|x] e'] eqn:H.
  - exists s. split; [reflexivity|].
    apply (get_status_without_quotes (o_const None true)
             (mkEnv 10000000 (float 9620000)
                [("005930", mkHolding 6 (float 420000) "Samsung")] [] [])
             s e').
    + intros n t. reflexivity.
    + exact H.
  - vm_compute in H. discriminate H.
Defined.

Lemma py_round_float (z : Z) : py_round (float z) = z.
Proof.
  unfold py_round.
  assert (F : Qfloor (float z) = z).
  { unfold float. cbn [this Q2Qc]. rewrite Qred_correct. apply Qfloor_Z. }
  rewrite F. replace (float z - float z) with 0 by ring. reflexivity.
Qed.

Lemma py_round2_0 : py_round2 0 = 0.
Proof.
  unfold py_round2. rewrite Qcmult_0_l, py_round_0, float_0.
  unfold Qcdiv. ring.
Qed.

(** X29: the dashboard of a fresh account.  With a seed that is not 0,
    [get_status] on the account that an empty sheet starts with reports the
    seed as balance and as total asset, a total ROI of 0 and no holding, and
    it makes no external call. *)
Theorem get_status_fresh o seed :
  seed <> 0%Z ->
  get_status o (fresh seed) = (Return (mkStatus seed seed 0 [] seed), fresh seed).
Proof.
  intros S. rewrite get_status_returns by exact S. cbv zeta.
  cbn [fresh portfolio open_positions filter priced map log_quotes balance seed_money].
  unfold spec_total_asset, spec_total_roi. cbn [map fold_right].
  rewrite Qcplus_0_r, py_round_float.
  replace ((float seed - float seed) / float seed * float 100) with 0
    by (unfold Qcdiv; ring).
  rewrite py_round2_0. reflexivity.
Qed.

Lemma get_status_fresh_witness :
  get_status o_scenario (fresh 10000000)
  = (Return (mkStatus 10000000 10000000 0 [] 10000000), fresh 10000000).
Proof. apply get_status_fresh. lia. Defined.

(** ** The figures of the report *)

Lemma float_add (a b : Z) : float (a + b) = float a + float b.
Proof.
  unfold float. apply Qc_is_canon.
  unfold Qcplus. cbn [this Q2Qc].
  rewrite !Qred_correct. unfold Qeq. simpl. lia.
Qed.

Lemma floor_le (x : Qc) : float (Qfloor x) <= x.
Proof.
  unfold Qcle, float. cbn [this Q2Qc]. rewrite Qred_correct. apply Qfloor_le.
Qed.

Lemma lt_floor (x : Qc) : x < float (Qfloor x) + 1.
Proof.
  change 1 with (float 1). rewrite <- float_add.
  unfold Qclt, float. cbn [this Q2Qc]. rewrite Qred_correct. apply Qlt_floor.
Qed.

Ltac qc2q :=
  unfold within, Qcle, Qclt, Qcminus, Qcplus, Qcopp, Qcmult in *;
  cbn [this Q2Qc] in *; rewrite ?Qred_correct in *.

(** [round(x)] is a nearest integer. *)
Lemma py_round_near (x : Qc) : rounded_unit (py_round x) x.
Proof.
  unfold rounded_unit, py_round.
  pose proof (floor_le x) as L. pose proof (lt_floor x) as U.
  set (f := Qfloor x) in *.
  destruct (Qc_ltb (x - float f) (Q2Qc (1 # 2))) eqn:A.
  { apply Qc_ltb_lt in A. qc2q. lra. }
  apply Qc_ltb_ge in A.
  destruct (Qc_ltb (Q2Qc (1 # 2)) (x - float f)) eqn:B.
  { apply Qc_ltb_lt in B. rewrite float_add. change (float 1) with 1.
    qc2q. lra. }
  apply Qc_ltb_ge in B.
  destruct (Z.even f).
  - qc2q. lra.
  - rewrite float_add. change (float 1) with 1. qc2q. lra.
Qed.

(** [round(x, 2)] is a nearest hundredth. *)
Lemma py_round2_near (x : Qc) : rounded_cents (py_round2 x) x.
Proof.
  unfold rounded_cents, py_round2. split.
  - exists (py_round (x * float 100)). reflexivity.
  - pose proof (py_round_near (x * float 100)) as N. unfold rounded_unit in N.
    set (z := float (py_round (x * float 100))) in *.
    assert (E : z / float 100 = z * Q2Qc (1 # 100)).
    { unfold Qcdiv. f_equal; try (apply Qc_is_canon; reflexivity). }
    rewrite E.
    assert (H : float 100 = Q2Qc 100) by reflexivity. rewrite H in N.
    clearbody z. qc2q. lra.
Qed.

Lemma total_in_order_eq b xs : total_in_order b xs = spec_total_asset b xs.
Proof.
  unfold total_in_order, spec_total_asset. revert b.
  induction xs as [|x xs IH]; intros b; cbn [fold_left map fold_right].
  - ring.
  - rewrite IH. ring.
Qed.

Lemma Forall2_map_self {A B} (P : B -> A -> Prop) (f : A -> B) (xs : list A) :
  (forall x, P (f x) x) -> Forall2 P (map f xs) xs.
Proof.
  intros H. induction xs as [|x xs IH]; cbn [map]; constructor; auto.
Qed.

(** C9, as the claim words it, does not hold: the ROI of a line is 0 whenever
    total_cost is not positive (line 153 tests [cost > 0]), not only when it
    is 0.  A buy of -10 units quoted at 150 and then a buy of 15 units quoted
    at 10 leave 5 units with a cost basis of -1350; quoted at 10, the claim's
    profit / total_cost * 100 is below -100, and the report says 0. *)
Lemma negative_cost_reports_zero_roi :
  let e := snd (buy o_falling "AAPL" 15
                  (snd (buy o_falling "AAPL" (-10) (fresh 1000)))) in
  exists s l h,
    fst (get_status o_falling e) = Return s
    /\ st_holdings s = [l]
    /\ dict_get "AAPL" (portfolio e) = Some h
    /\ (0 < qty h)%Z /\ total_cost h <> 0
    /\ hr_roi l = 0
    /\ (float 10 * float (qty h) - total_cost h) / total_cost h * float 100
       < - float 100.
Proof.
  cbv zeta.
  destruct (get_status o_falling
              (snd (buy o_falling "AAPL" 15
                      (snd (buy o_falling "AAPL" (-10) (fresh 1000))))))
    as [[s|x] e'] eqn:H; [|vm_compute in H; discriminate H].
  vm_compute in H. injection H as <- _.
  eexists. eexists. exists (mkHolding 5 (float (-1350)) "AAPL").
  cbn [fst st_holdings].
  split; [reflexivity|]. split; [reflexivity|].
  split; [vm_compute; reflexivity|].
  split; [cbn [qty]; lia|].
  split; [apply Qc_eqb_neq; reflexivity|].
  split; [apply Qc_is_canon; reflexivity|].
  apply Qc_ltb_lt. reflexivity.
Qed.

(** C9 (amended): on an account whose seed is not 0, [get_status] returns a
    report and leaves the seed, the balance, the holdings and the ledger as
    they were.  The report has one line for each holding with qty > 0, in the
    order of the dict, with its ticker, name and quantity; with price the
    current quote (0 when it is unavailable), value = price * qty and
    profit = value - total_cost, the line gives the price and the value
    rounded to a whole unit, and as ROI% profit / total_cost * 100 rounded to
    two decimals when total_cost > 0, and 0 when total_cost is 0 or negative.
    total_asset is the balance plus the values, added in that order, rounded
    to a whole unit; total_roi% is (total_asset - seed_money) / seed_money *
    100 rounded to two decimals; the balance is reported rounded to a whole
    unit and the seed as it is. *)
Theorem get_status_report_guarded o e :
  seed_money e <> 0%Z ->
  let xs := priced o (tick e) (open_positions (portfolio e)) in
  let total_asset := total_in_order (balance e) xs in
  exists s,
    fst (get_status o e) = Return s
    /\ same_account e (snd (get_status o e))
    /\ st_seed_money s = seed_money e
    /\ rounded_unit (st_balance s) (balance e)
    /\ rounded_unit (st_total_asset s) total_asset
    /\ rounded_cents (st_total_roi s)
         ((total_asset - float (seed_money e)) / float (seed_money e) * float 100)
    /\ Forall2
         (fun l x =>
            let h := snd (fst x) in
            let value := snd x * float (qty h) in
            let profit := value - total_cost h in
            hr_ticker l = fst (fst x) /\ hr_name l = name h /\ hr_qty l = qty h
            /\ rounded_unit (hr_current_price l) (snd x)
            /\ rounded_unit (hr_valuation l) value
            /\ (0 < total_cost h ->
                rounded_cents (hr_roi l) (profit / total_cost h * float 100))
            /\ (total_cost h <= 0 -> hr_roi l = 0))
         (st_holdings s) xs.
Proof.
  intros S. cbv zeta. rewrite (get_status_returns o e S). cbv zeta.
  cbn [fst snd]. eexists. split; [reflexivity|].
  cbn [st_seed_money st_balance st_total_asset st_total_roi st_holdings].
  rewrite total_in_order_eq.
  split; [apply log_quotes_frame|]. split; [reflexivity|].
  split; [apply py_round_near|]. split; [apply py_round_near|].
  split; [apply py_round2_near|].
  apply Forall2_map_self. intros x. cbv zeta.
  unfold line_of. cbn [hr_ticker hr_name hr_qty hr_current_price hr_valuation hr_roi].
  split; [reflexivity|]. split; [reflexivity|]. split; [reflexivity|].
  split; [apply py_round_near|]. split; [apply py_round_near|].
  unfold line_roi. split.
  - intros P. apply Qc_ltb_lt in P. rewrite P. apply py_round2_near.
  - intros P. apply Qc_ltb_ge in P. rewrite P. apply py_round2_0.
Qed.

Lemma get_status_report_guarded_witness :
  let e := mkEnv 10000000 (float 9620000)
             [("005930", mkHolding 6 (float 420000) "Samsung");
              ("000660", mkHolding 0 0 "Hynix")] [] [] in
  let xs := [("005930", mkHolding 6 (float 420000) "Samsung", float 70000)] in
  let total_asset := float 9620000 + float 70000 * float 6 in
  exists s,
    fst (get_status o_scenario e) = Return s
    /\ same_account e (snd (get_status o_scenario e))
    /\ st_seed_money s = 10000000%Z
    /\ rounded_unit (st_balance s) (float 9620000)
    /\ rounded_unit (st_total_asset s) total_asset
    /\ rounded_cents (st_total_roi s)
         ((total_asset - float 10000000) / float 10000000 * float 100)
    /\ Forall2
         (fun l x =>
            let h := snd (fst x) in
            let value := snd x * float (qty h) in
            let profit := value - total_cost h in
            hr_ticker l = fst (fst x) /\ hr_name l = name h /\ hr_qty l = qty h
            /\ rounded_unit (hr_current_price l) (snd x)
            /\ rounded_unit (hr_valuation l) value
            /\ (0 < total_cost h ->
                rounded_cents (hr_roi l) (profit / total_cost h * float 100))
            /\ (total_cost h <= 0 -> hr_roi l = 0))
         (st_holdings s) xs.
Proof.
  cbv zeta.
  apply (get_status_report_guarded o_scenario
           (mkEnv 10000000 (float 9620000)
              [("005930", mkHolding 6 (float 420000) "Samsung");
               ("000660", mkHolding 0 0 "Hynix")] [] [])).
  cbn [seed_money]. lia.
Defined.
